(** * DMP evaluation tool: criteria extractor, model client and result normaliser

    A shallow embedding of the JavaScript sources
    [js/criteria-extractor.js], [js/api-config.js], [js/evaluator.js] and of
    the file parser module, together with the properties of the
    specification that concern them.

    Conventions of the embedding.
    - A JavaScript string is a [string]: a sequence of 8-bit code units, that
      is, the Latin-1 range of the code units of a JavaScript string.
    - A JavaScript number that the code uses as an integer (HTTP status
      codes, delays, sizes and lengths, the result of [parseInt]) is a [Z];
      [NaN] is kept apart in the type [number].  Doubles are exact on
      integers below 2^53, which is the range meant here.  A quotient of two
      lengths is a [Q], rounded by [Math_round].
    - A score is a [double]: [NaN], an infinity, or a finite number given by
      its exact value.  A sum and a quotient of doubles are rounded to the
      nearest double, as the language rounds them.  What the output of the
      model holds for a score is a [jsValue]: whatever [JSON.parse] can
      give.
    - Another property that may be missing from a parsed JSON object is an
      [option]; the operator [x || d] is [orElseStr] on a text and [orZero]
      on a score, and falls back on a missing or falsy value.
    - Code that throws returns a [completion]; code with effects (progress
      callbacks, timers, network requests) threads a trace of events. *)

From Stdlib Require Import ZArith QArith Qabs Qround Ascii String List Lia.
From Stdlib Require Import OrdersEx Sorting.Sorted.
From Stdlib Require Qcanon.
From stdpp Require Import base list strings gmap pretty.

#[local] Set Warnings "-register-all".
Local Close Scope Q_scope.
Local Open Scope string_scope.

(** ** JavaScript primitives *)

Module JS.

(** [NaN] or an integer. *)
Inductive number : Type :=
| NaN
| Num (z : Z).

Definition code (c : ascii) : N := N_of_ascii c.

Definition inRange (lo hi : N) (c : ascii) : bool :=
  ((lo <=? code c) && (code c <=? hi))%N.

(** [\d] *)
Definition isDigit (c : ascii) : bool := inRange 48 57 c.

(** [[a-z]] under the flag [i]: the ASCII letters. *)
Definition isLetter (c : ascii) : bool := inRange 65 90 c || inRange 97 122 c.

(** [\s], also what [trim] removes: TAB, LF, VT, FF, CR, SP and NBSP. *)
Definition isWhiteSpace (c : ascii) : bool :=
  inRange 9 13 c || (code c =? 32)%N || (code c =? 160)%N.

(** What [.] does not match: LF and CR. *)
Definition isLineTerminator (c : ascii) : bool :=
  (code c =? 10)%N || (code c =? 13)%N.

Definition lowerChar (c : ascii) : ascii :=
  if inRange 65 90 c || (inRange 192 222 c && negb (code c =? 215)%N)
  then ascii_of_N (code c + 32) else c.

Fixpoint toLowerCase (s : string) : string :=
  match s with
  | EmptyString => EmptyString
  | String c s' => String (lowerChar c) (toLowerCase s')
  end.

Fixpoint trimStart (s : string) : string :=
  match s with
  | String c s' => if isWhiteSpace c then trimStart s' else s
  | EmptyString => EmptyString
  end.

Fixpoint trimEnd (s : string) : string :=
  match s with
  | EmptyString => EmptyString
  | String c s' =>
      match trimEnd s' with
      | EmptyString => if isWhiteSpace c then EmptyString else String c EmptyString
      | t => String c t
      end
  end.

Definition trim (s : string) : string := trimEnd (trimStart s).

(** [s.indexOf(needle, from)], [-1] when there is no occurrence. *)
Definition indexOf (s needle : string) (from : nat) : Z :=
  match String.index from needle s with
  | Some i => Z.of_nat i
  | None => (-1)%Z
  end.

Definition includes (s needle : string) : bool :=
  negb (indexOf s needle 0 =? -1)%Z.

Definition startsWith (s p : string) : bool := String.prefix p s.

Fixpoint endsWith_aux (n : nat) (s p : string) : bool :=
  match n, s with
  | O, _ => String.eqb s p
  | S n', String _ s' => endsWith_aux n' s' p
  | S _, EmptyString => false
  end.

Definition endsWith (s p : string) : bool :=
  endsWith_aux (String.length s - String.length p) s p
  && (String.length p <=? String.length s)%nat.

(** [s.substring(a, b)] for [a <= b]. *)
Definition substring (s : string) (a b : nat) : string :=
  String.substring a (b - a) s.

(** [s.substring(a)] *)
Definition substringFrom (s : string) (a : nat) : string :=
  String.substring a (String.length s - a) s.

(** The longest prefix whose characters satisfy [p], and the rest. *)
Fixpoint span (p : ascii -> bool) (s : string) : string * string :=
  match s with
  | String c s' =>
      if p c then let '(a, b) := span p s' in (String c a, b)
      else (EmptyString, s)
  | EmptyString => (EmptyString, EmptyString)
  end.

(** [s.replace(/\s+/g, ' ')] *)
Fixpoint collapseWhiteSpace (s : string) : string :=
  match s with
  | EmptyString => EmptyString
  | String c s' =>
      if isWhiteSpace c then
        match s' with
        | String c' _ =>
            if isWhiteSpace c' then collapseWhiteSpace s'
            else String " " (collapseWhiteSpace s')
        | EmptyString => String " " EmptyString
        end
      else String c (collapseWhiteSpace s')
  end.

(** [s.split(sep)] for a separator of one character. *)
Fixpoint split (sep : ascii) (s : string) : list string :=
  match s with
  | EmptyString => [EmptyString]
  | String c s' =>
      if Ascii.eqb c sep then EmptyString :: split sep s'
      else match split sep s' with
           | w :: ws => String c w :: ws
           | [] => [String c EmptyString]
           end
  end.

(** The value of a digit in radix 10 or 16. *)
Definition digitValue (radix : Z) (c : ascii) : option Z :=
  let n := Z.of_N (code c) in
  if isDigit c then Some (n - 48)%Z
  else if (radix =? 16)%Z && inRange 97 102 c then Some (n - 87)%Z
  else if (radix =? 16)%Z && inRange 65 70 c then Some (n - 55)%Z
  else None.

(** The longest prefix of digits, read from the left. *)
Fixpoint digitsValue (radix : Z) (acc : option Z) (s : string) : option Z :=
  match s with
  | EmptyString => acc
  | String c s' =>
      match digitValue radix c with
      | Some d => digitsValue radix (Some (default 0%Z acc * radix + d)%Z) s'
      | None => acc
      end
  end.

(** [parseInt(s)] without a radix: leading white space is skipped, a sign
    is read, a prefix [0x] or [0X] selects radix 16, and the longest prefix
    of digits is the value; no digit gives [NaN]. *)
Definition parseInt (s : string) : number :=
  let s1 := trimStart s in
  let '(sign, s2) :=
    match s1 with
    | String "-" r => ((-1)%Z, r)
    | String "+" r => (1%Z, r)
    | _ => (1%Z, s1)
    end in
  let '(radix, s3) :=
    match s2 with
    | String "0" (String "x" r) => (16%Z, r)
    | String "0" (String "X" r) => (16%Z, r)
    | _ => (10%Z, s2)
    end in
  match digitsValue radix None s3 with
  | Some v => Num (sign * v)
  | None => NaN
  end.

(** [a !== b] on numbers: [NaN] differs from everything, itself included. *)
Definition strictNe (a b : number) : bool :=
  match a, b with
  | Num x, Num y => negb (x =? y)%Z
  | _, _ => true
  end.

(** [a - b] *)
Definition sub (a b : number) : number :=
  match a, b with
  | Num x, Num y => Num (x - y)
  | _, _ => NaN
  end.

(** [Math.round]: the nearest integer, a tie going up. *)
Definition Math_round (q : Q) : Z := Qfloor (Qplus q (1 # 2)).

(** [Math.min(hi, Math.max(lo, x))] *)
Definition clamp (lo hi x : Z) : Z := Z.min hi (Z.max lo x).

(** [x || d] on an optional string: the empty string is falsy. *)
Definition orElseStr (x : option string) (d : string) : string :=
  match x with
  | Some EmptyString | None => d
  | Some s => s
  end.

(** The comparison that [Array.prototype.sort] makes of the result of its
    comparator: a [NaN] counts as [+0]. *)
Definition sortCompare {A} (comparefn : A -> A -> number) (x y : A) : Z :=
  match comparefn x y with
  | Num v => v
  | NaN => 0%Z
  end.

(** [Array.prototype.sort(comparefn)].  The sort of the language is stable,
    and with a consistent comparator its result is the one stable sorted
    arrangement, which insertion computes.  With an inconsistent comparator
    the language leaves the order to the engine, and the model is one such
    engine: it compares an element with its successors in turn, and so
    leaves untouched an array in which no element compares above the next
    one, as the run detection of V8 does. *)
Fixpoint sortInsert {A} (comparefn : A -> A -> number) (x : A) (l : list A)
  : list A :=
  match l with
  | [] => [x]
  | y :: l' =>
      if (sortCompare comparefn x y <=? 0)%Z then x :: y :: l'
      else y :: sortInsert comparefn x l'
  end.

Fixpoint sort {A} (comparefn : A -> A -> number) (l : list A) : list A :=
  match l with
  | [] => []
  | x :: l' => sortInsert comparefn x (sort comparefn l')
  end.

(** *** Numbers

    A number of the language is a double: [NaN], an infinity, or a finite
    number, which is given by its exact value, a reduced fraction.  The two
    zeros are not told apart; no operation of the code tells them apart. *)
Inductive double : Type :=
| DNaN
| DInf (negative : bool)
| DFin (q : Q).

Definition ofZ (z : Z) : double := DFin (inject_Z z).

(** The power [2 ^ j] for an integer [j]. *)
Definition pow2 (j : Z) : Q :=
  if (0 <=? j)%Z then inject_Z (2 ^ j) else Qmake 1 (Z.to_pos (2 ^ (- j))).

(** The exponent [e] of a positive fraction: [2 ^ e <= q < 2 ^ (e + 1)]. *)
Definition binade (q : Q) : Z :=
  let e := (Z.log2 (Qnum q) - Z.log2 (Zpos (Qden q)))%Z in
  if Qle_bool (pow2 e) q then e else (e - 1)%Z.

(** The numerator and the denominator of [q / 2 ^ j]. *)
Definition scaled (q : Q) (j : Z) : Z * Z :=
  if (0 <=? j)%Z then (Qnum q, Zpos (Qden q) * 2 ^ j)%Z
  else (Qnum q * 2 ^ (- j), Zpos (Qden q))%Z.

(** The integer nearest to [n / d], for a positive [d]; of two, the even
    one. *)
Definition roundHalfEven (n d : Z) : Z :=
  let f := (n / d)%Z in
  match (2 * (n mod d) ?= d)%Z with
  | Lt => f
  | Gt => (f + 1)%Z
  | Eq => if Z.even f then f else (f + 1)%Z
  end.

(** The double nearest to a fraction, as every arithmetic operation of the
    language rounds its exact result: 53 significant bits, the smallest
    exponent -1022, a tie going to the even significand, and an infinity
    from [2 ^ 1024] on.  The result is a reduced fraction. *)
Definition round64 (q : Q) : double :=
  if Qeq_bool q 0 then DFin 0
  else
    let j := (Z.max (binade (Qabs q)) (-1022) - 52)%Z in
    let '(n, d) := scaled q j in
    let m := roundHalfEven n d in
    let r := Qred (Qmult (inject_Z m) (pow2 j)) in
    if Qle_bool (pow2 1024) (Qabs r) then DInf (m <? 0)%Z else DFin r.

Definition isNaN (x : double) : bool :=
  match x with DNaN => true | _ => false end.

Definition isZero (x : double) : bool :=
  match x with DFin q => Qeq_bool q 0 | _ => false end.

Module Double.

(** [a + b] *)
Definition add (a b : double) : double :=
  match a, b with
  | DNaN, _ | _, DNaN => DNaN
  | DInf s, DInf t => if Bool.eqb s t then DInf s else DNaN
  | DInf s, DFin _ | DFin _, DInf s => DInf s
  | DFin x, DFin y => round64 (Qplus x y)
  end.

(** [a / n] for the length [n] of an array. *)
Definition divLength (a : double) (n : nat) : double :=
  match a with
  | DNaN => DNaN
  | DInf s => DInf s
  | DFin x =>
      if (n =? 0)%nat then
        match Qcompare x 0 with
        | Eq => DNaN
        | Lt => DInf true
        | Gt => DInf false
        end
      else round64 (Qdiv x (inject_Z (Z.of_nat n)))
  end.

(** [a < b]; false when one of the two is [NaN]. *)
Definition lt (a b : double) : bool :=
  match a, b with
  | DNaN, _ | _, DNaN => false
  | DInf s, DInf t => s && negb t
  | DInf s, DFin _ => s
  | DFin _, DInf t => negb t
  | DFin x, DFin y => negb (Qle_bool y x)
  end.

(** [a >= b]; false when one of the two is [NaN]. *)
Definition ge (a b : double) : bool :=
  negb (isNaN a) && negb (isNaN b) && negb (lt a b).

(** [Math.max(a, b)] and [Math.min(a, b)]: [NaN] when one of the two is. *)
Definition max (a b : double) : double :=
  if isNaN a || isNaN b then DNaN else if lt a b then b else a.

Definition min (a b : double) : double :=
  if isNaN a || isNaN b then DNaN else if lt b a then b else a.

(** [Math.round]: the nearest integer, a tie going up. *)
Definition round (x : double) : double :=
  match x with
  | DFin q => ofZ (Qfloor (Qplus q (Qmake 1 2)))
  | _ => x
  end.

End Double.

(** *** Values

    A value as [JSON.parse] gives it, or [undefined] for a property that is
    missing.  An object or an array is given by the string that its
    conversion to a primitive yields: [[object Object]] for an object, the
    elements joined by commas for an array. *)
Inductive jsValue : Type :=
| VUndefined
| VNull
| VBool (b : bool)
| VNumber (x : double)
| VString (s : string)
| VObject (text : string).

Definition isTruthy (v : jsValue) : bool :=
  match v with
  | VUndefined | VNull | VBool false | VString EmptyString => false
  | VNumber x => negb (isNaN x) && negb (isZero x)
  | _ => true
  end.

(** [v || 0] *)
Definition orZero (v : jsValue) : jsValue :=
  if isTruthy v then v else VNumber (ofZ 0).

(** [v === 0] *)
Definition strictEqZero (v : jsValue) : bool :=
  match v with VNumber x => isZero x | _ => false end.

(** The value of a text that is all digits of a radix, at least one. *)
Fixpoint digitsIn (radix : Z) (acc : option Z) (s : string) : option Z :=
  match s with
  | EmptyString => acc
  | String c s' =>
      match digitValue 16 c with
      | Some d =>
          if (d <? radix)%Z
          then digitsIn radix (Some (default 0%Z acc * radix + d)%Z) s'
          else None
      | None => None
      end
  end.

(** [0x], [0o] or [0b] and digits, in either case of the letter. *)
Definition nonDecimalLiteral (s : string) : option Z :=
  match s with
  | String "0" (String c r) =>
      if Ascii.eqb c "x" || Ascii.eqb c "X" then digitsIn 16 None r
      else if Ascii.eqb c "o" || Ascii.eqb c "O" then digitsIn 8 None r
      else if Ascii.eqb c "b" || Ascii.eqb c "B" then digitsIn 2 None r
      else None
  | _ => None
  end.

Definition pow10 (e : Z) : Q :=
  if (0 <=? e)%Z then inject_Z (10 ^ e) else Qmake 1 (Z.to_pos (10 ^ (- e))).

(** An exponent part that ends the text: [e] or [E], a sign or none, and
    digits.  The empty text is the exponent 0. *)
Definition exponentPart (s : string) : option Z :=
  match s with
  | EmptyString => Some 0%Z
  | String c r =>
      if Ascii.eqb c "e" || Ascii.eqb c "E" then
        match r with
        | String "-" d => Z.opp <$> digitsIn 10 None d
        | String "+" d => digitsIn 10 None d
        | _ => digitsIn 10 None r
        end
      else None
  end.

(** Digits with a fraction or none, and an exponent part or none; a digit
    stands before or after the dot. *)
Definition decimalLiteral (s : string) : option Q :=
  let '(int, r1) := span isDigit s in
  let '(frac, r2) :=
    match r1 with
    | String "." r => span isDigit r
    | _ => (EmptyString, r1)
    end in
  match digitsIn 10 None (int ++ frac), exponentPart r2 with
  | Some digits, Some e =>
      Some (Qmult (inject_Z digits)
                  (pow10 (e - Z.of_nat (String.length frac))))
  | _, _ => None
  end.

(** The number that a string converts to: white space is trimmed, the
    empty text is 0, a numeric literal is its value rounded to a double, and
    any other text is [NaN]. *)
Definition StringToNumber (s : string) : double :=
  let t := trim s in
  if String.eqb t "" then ofZ 0
  else
    match nonDecimalLiteral t with
    | Some z => round64 (inject_Z z)
    | None =>
        let '(negative, u) :=
          match t with
          | String "-" r => (true, r)
          | String "+" r => (false, r)
          | _ => (false, t)
          end in
        if String.eqb u "Infinity" then DInf negative
        else
          match decimalLiteral u with
          | Some q => round64 (if negative then Qopp q else q)
          | None => DNaN
          end
    end.

(** [ToNumber], which [Math.max] and a comparison with a number apply to
    their operand. *)
Definition ToNumber (v : jsValue) : double :=
  match v with
  | VUndefined => DNaN
  | VNull => ofZ 0
  | VBool b => if b then ofZ 1 else ofZ 0
  | VNumber x => x
  | VString s | VObject s => StringToNumber s
  end.

End JS.

(** ** Effects: exceptions and a trace of observable events *)

Module Eff.

(** An [Error] object; every [throw] of the code base throws one. *)
Record Error : Type := mkError { message : string }.

(** A request to the chat-completion endpoint: the two messages of the
    conversation.  The endpoint, the headers and the sampling parameters
    come from the active profile and are left out. *)
Record Request : Type := mkRequest {
  systemPrompt : string;
  userPrompt : string
}.

Inductive event : Type :=
| Progress (msg : string)                 (* the progress callback is called *)
| Fetch (request : Request)               (* [fetch] is called *)
| Attempt (n : nat)                       (* the function under retry is called *)
| Delay (ms : Z)                          (* a [setTimeout] is awaited *)
| StreamChunk (text : string) (isReasoning : bool).  (* [onChunk] is called *)

Inductive completion (A : Type) : Type :=
| Normal (a : A)
| Throw (e : Error).
Arguments Normal {A} a.
Arguments Throw {A} e.

(** A computation: the events it causes, in order, and how it ends. *)
Definition M (A : Type) : Type := (list event * completion A)%type.

Definition ret {A} (a : A) : M A := ([], Normal a).

Definition throw {A} (e : Error) : M A := ([], Throw e).

Definition emit (ev : event) : M unit := ([ev], Normal tt).

Definition lift {A} (c : completion A) : M A := ([], c).

Definition bind {A B} (m : M A) (f : A -> M B) : M B :=
  match m with
  | (t, Normal a) => let '(t', r) := f a in ((t ++ t')%list, r)
  | (t, Throw e) => (t, Throw e)
  end.

(** [try { m } catch (error) { handler error }] *)
Definition tryCatch {A} (m : M A) (handler : Error -> M A) : M A :=
  match m with
  | (t, Throw e) => let '(t', r) := handler e in ((t ++ t')%list, r)
  | (t, Normal a) => (t, Normal a)
  end.

Definition trace {A} (m : M A) : list event := fst m.
Definition outcome {A} (m : M A) : completion A := snd m.

(** The events that are network requests. *)
Definition isFetch (ev : event) : bool :=
  match ev with Fetch _ => true | _ => false end.

(** The delays of a trace, in order. *)
Definition delays (t : list event) : list Z :=
  omap (fun ev => match ev with Delay ms => Some ms | _ => None end) t.

(** The attempts of a trace, in order. *)
Definition attempts (t : list event) : list nat :=
  omap (fun ev => match ev with Attempt n => Some n | _ => None end) t.

End Eff.

Notation "'do' x <- m ; k" := (Eff.bind m (fun x => k))
  (at level 10, x pattern, m at level 100, k at level 200,
   format "'[v' 'do'  x  <-  m ; '/' k ']'").

(** ** Values read by [JSON.parse] *)

Module Json.

(** A JSON number is an integer here. *)
Inductive json : Type :=
| JNull
| JBool (b : bool)
| JNumber (z : Z)
| JString (s : string)
| JArray (items : list json)
| JObject (fields : list (string * json)).

(** The value of a property access or of an optional chain: [None] is
    [undefined]. *)
Definition value : Type := option json.

Definition findField (key : string) (fields : list (string * json)) : value :=
  snd <$> find (fun kv => String.eqb (fst kv) key) (rev fields).

(** [v.key] for a name that no prototype defines; on [null] and on
    [undefined] the access throws, which is [None] here. *)
Definition getProp (v : value) (key : string) : option value :=
  match v with
  | None | Some JNull => None
  | Some (JObject fields) => Some (findField key fields)
  | Some _ => Some None
  end.

(** [v?.[0]] *)
Definition optIndex0 (v : value) : value :=
  match v with
  | None | Some JNull => None
  | Some (JArray items) => head items
  | Some (JObject fields) => findField "0" fields
  | Some (JString (String c _)) => Some (JString (String c EmptyString))
  | Some _ => None
  end.

(** [v?.key] *)
Definition optProp (v : value) (key : string) : value :=
  match v with
  | None | Some JNull => None
  | Some (JObject fields) => findField key fields
  | Some _ => None
  end.

Definition truthy (v : value) : bool :=
  match v with
  | None | Some JNull | Some (JBool false) | Some (JNumber 0)
  | Some (JString EmptyString) => false
  | Some _ => true
  end.

(** [v === s] for a string literal [s]. *)
Definition isString (v : value) (s : string) : bool :=
  match v with
  | Some (JString t) => String.eqb t s
  | _ => false
  end.

(** The string that [acc += v] appends. *)
Fixpoint toString (j : json) : string :=
  match j with
  | JNull => "null"
  | JBool true => "true"
  | JBool false => "false"
  | JNumber z => pretty z
  | JString s => s
  | JArray items =>
      String.concat ","
        (map (fun x => match x with JNull => "" | _ => toString x end) items)
  | JObject _ => "[object Object]"
  end.

(** *** A reader for the JSON grammar

    It is the instance of [JSON.parse] at which the examples are run:
    objects, arrays, strings with the simple escapes, integers and the
    three literal names.  [None] is a [SyntaxError].  Numbers with a
    fraction or an exponent and escapes by code point are outside the
    fragment that it reads; the general statements take [JSON.parse] as a
    parameter. *)

Definition isJsonSpace (c : ascii) : bool :=
  Ascii.eqb c " " || Ascii.eqb c "009" || Ascii.eqb c "010" || Ascii.eqb c "013".

Fixpoint skipSpace (s : string) : string :=
  match s with
  | String c s' => if isJsonSpace c then skipSpace s' else s
  | EmptyString => EmptyString
  end.

(** The characters of a string literal after its opening quote, and the
    text after its closing quote. *)
Fixpoint readString (s : string) : option (string * string) :=
  match s with
  | EmptyString => None
  | String "034" rest => Some (EmptyString, rest)
  | String "\" (String e rest) =>
      let esc :=
        if Ascii.eqb e "034" then Some "034"%char
        else if Ascii.eqb e "\" then Some "\"%char
        else if Ascii.eqb e "/" then Some "/"%char
        else if Ascii.eqb e "n" then Some "010"%char
        else if Ascii.eqb e "t" then Some "009"%char
        else if Ascii.eqb e "r" then Some "013"%char
        else if Ascii.eqb e "b" then Some "008"%char
        else if Ascii.eqb e "f" then Some "012"%char
        else None in
      match esc, readString rest with
      | Some c, Some (str, rest') => Some (String c str, rest')
      | _, _ => None
      end
  | String c rest =>
      if (JS.code c <? 32)%N then None
      else match readString rest with
           | Some (str, rest') => Some (String c str, rest')
           | None => None
           end
  end.

Fixpoint readDigits (acc : Z) (s : string) : Z * string :=
  match s with
  | String c s' =>
      if JS.isDigit c then readDigits (acc * 10 + (Z.of_N (JS.code c) - 48)) s'
      else (acc, s)
  | EmptyString => (acc, s)
  end.

(** An integer without a leading zero. *)
Definition readNumber (s : string) : option (Z * string) :=
  let '(sign, s1) :=
    match s with
    | String "-" r => ((-1)%Z, r)
    | _ => (1%Z, s)
    end in
  match s1 with
  | String "0" r => Some (0%Z, r)
  | String c _ =>
      if JS.isDigit c then
        let '(v, r) := readDigits 0 s1 in Some ((sign * v)%Z, r)
      else None
  | EmptyString => None
  end.

Definition expect (lit : string) (s : string) : option string :=
  if String.prefix lit s
  then Some (JS.substringFrom s (String.length lit)) else None.

Fixpoint readValue (fuel : nat) (s : string) : option (json * string) :=
  match fuel with
  | O => None
  | S fuel' =>
      match skipSpace s with
      | String "{" r =>
          match skipSpace r with
          | String "}" r' => Some (JObject [], r')
          | _ =>
              match readMembers fuel' r with
              | Some (fields, r') => Some (JObject fields, r')
              | None => None
              end
          end
      | String "[" r =>
          match skipSpace r with
          | String "]" r' => Some (JArray [], r')
          | _ =>
              match readElements fuel' r with
              | Some (items, r') => Some (JArray items, r')
              | None => None
              end
          end
      | String "034" r =>
          match readString r with
          | Some (str, r') => Some (JString str, r')
          | None => None
          end
      | String "t" _ as t => (fun r => (JBool true, r)) <$> expect "true" t
      | String "f" _ as t => (fun r => (JBool false, r)) <$> expect "false" t
      | String "n" _ as t => (fun r => (JNull, r)) <$> expect "null" t
      | t => (fun '(z, r) => (JNumber z, r)) <$> readNumber t
      end
  end
with readElements (fuel : nat) (s : string) : option (list json * string) :=
  match fuel with
  | O => None
  | S fuel' =>
      match readValue fuel' s with
      | Some (v, r) =>
          match skipSpace r with
          | String "," r' =>
              match readElements fuel' r' with
              | Some (vs, r'') => Some (v :: vs, r'')
              | None => None
              end
          | String "]" r' => Some ([v], r')
          | _ => None
          end
      | None => None
      end
  end
with readMembers (fuel : nat) (s : string)
  : option (list (string * json) * string) :=
  match fuel with
  | O => None
  | S fuel' =>
      match skipSpace s with
      | String "034" r =>
          match readString r with
          | Some (key, r1) =>
              match skipSpace r1 with
              | String ":" r2 =>
                  match readValue fuel' r2 with
                  | Some (v, r3) =>
                      match skipSpace r3 with
                      | String "," r4 =>
                          match readMembers fuel' r4 with
                          | Some (fs, r5) => Some ((key, v) :: fs, r5)
                          | None => None
                          end
                      | String "}" r4 => Some ([(key, v)], r4)
                      | _ => None
                      end
                  | None => None
                  end
              | _ => None
              end
          | None => None
          end
      | _ => None
      end
  end.

Definition parse (text : string) : option json :=
  match readValue (S (String.length text)) text with
  | Some (v, rest) =>
      if String.eqb (skipSpace rest) "" then Some v else None
  | None => None
  end.

End Json.

(** ** The model client, [js/api-config.js] *)

Module LLMService.

Import Eff Json.

(** What the code reads of a [Response]: the flag [ok], the status code,
    and the value of [data.choices[0]?.message?.content] of its JSON body,
    which is [Throw] when the body cannot be read that far and [None] when
    the content is missing or falsy. *)
Record Response : Type := mkResponse {
  ok : bool;
  status : Z;
  content : completion (option string)
}.

(** How a call of the function given to [retryWithBackoff] ends: with a
    response, or with a network-level error. *)
Inductive fetchResult : Type :=
| Responds (response : Response)
| Fails (error : Error).

(** [APIConfig.generateFetchConfig(profile, apiKey, model, messages)], as
    far as it can fail.  Its first statement is
    [profile.authHeaderTemplate.replace('{API_KEY}', apiKey)], which throws a
    [TypeError] on a profile without that property; the message is the one
    of V8.  The rest builds the headers and the body of the request and does
    not throw.  The argument is [profile.authHeaderTemplate], [None] when it
    is [undefined]. *)
Definition generateFetchConfig (authHeaderTemplate : option string)
  : completion unit :=
  match authHeaderTemplate with
  | Some _ => Normal tt
  | None =>
      Throw (mkError "Cannot read properties of undefined (reading 'replace')")
  end.

Section Retry.

(** [fetchFn n] is the result of the call made in attempt [n]; the
    attempts are numbered from zero. *)
Variable fetchFn : nat -> fetchResult.
Variable maxRetries : nat.
Variable initialDelay : Z.

Definition allFailed (lastError : option Error) : Error :=
  mkError ("All retry attempts failed. Last error: "
           ++ JS.orElseStr (message <$> lastError) "Unknown error").

(** The turns [attempt], [attempt + 1], ... of the loop of
    [retryWithBackoff]; [turns] is [maxRetries + 1 - attempt], the number
    of turns for which the condition [attempt <= maxRetries] holds. *)
Fixpoint retryFrom (turns attempt : nat) (lastError : option Error)
  : M Response :=
  match turns with
  | O => throw (allFailed lastError)
  | S turns' =>
      do _ <- emit (Attempt attempt);
      match fetchFn attempt with
      | Responds response =>
          if ok response then ret response
          else if (500 <=? status response)%Z && (attempt <? maxRetries)%nat
          then
            do _ <- emit (Delay (initialDelay * 2 ^ Z.of_nat attempt));
            retryFrom turns' (S attempt) lastError
          else if (status response =? 429)%Z && (attempt <? maxRetries)%nat
          then
            do _ <- emit (Delay (5000 * 2 ^ Z.of_nat attempt));
            retryFrom turns' (S attempt) lastError
          else ret response
      | Fails error =>
          do _ <- (if (attempt <? maxRetries)%nat
                   then emit (Delay (initialDelay * 2 ^ Z.of_nat attempt))
                   else ret tt);
          retryFrom turns' (S attempt) (Some error)
      end
  end.

Definition retryWithBackoff_with : M Response :=
  retryFrom (maxRetries + 1) 0 None.

End Retry.

(** [retryWithBackoff(fetchFn)], with the defaults [maxRetries = 3] and
    [initialDelay = 2000]. *)
Definition retryWithBackoff (fetchFn : nat -> fetchResult) : M Response :=
  retryWithBackoff_with fetchFn 3 2000.

(** *** [parseSSEStream] *)

(** A response body as the reader delivers it: the decoded text of each
    chunk, and then either the end of the stream or a read error. *)
Record Stream : Type := mkStream {
  chunks : list string;
  readError : option Error
}.

(** The variables of [parseSSEStream] that the loop updates, with the calls
    of [onChunk] made so far. *)
Record sseState : Type := mkSseState {
  buffer : string;
  accumulatedContent : string;
  accumulatedReasoning : string;
  calls : list event
}.

Section SSE.

(** [JSON.parse]; [None] when it throws. *)
Variable JSON_parse : string -> option json.

(** Whether a callback [onChunk] was given; the callback does not throw. *)
Variable onChunk : bool.

Definition callOnChunk (text : string) (isReasoning : bool) : list event :=
  if onChunk then [StreamChunk text isReasoning] else [].

(** The body of [for (const line of lines)]: the state after the line,
    and whether the loop is left by [break]. *)
Definition processLine (st : sseState) (line : string) : sseState * bool :=
  let trimmedLine := JS.trim line in
  if String.eqb trimmedLine "" then (st, false)
  else if JS.startsWith trimmedLine "data: " then
    let data := JS.substringFrom trimmedLine 6 in
    if String.eqb data "[DONE]" then (st, true)
    else
      match JSON_parse data with
      | None => (st, false)
      | Some chunk =>
          match getProp (Some chunk) "choices" with
          | None => (st, false)
          | Some choices =>
              let delta := optProp (optIndex0 choices) "delta" in
              if negb (truthy delta) then (st, false)
              else
                let reasoning := optProp delta "reasoning" in
                let st1 :=
                  match reasoning with
                  | Some r =>
                      if truthy reasoning then
                        {| buffer := buffer st;
                           accumulatedContent := accumulatedContent st;
                           accumulatedReasoning :=
                             accumulatedReasoning st ++ toString r;
                           calls := (calls st
                                     ++ callOnChunk (toString r) true)%list |}
                      else st
                  | None => st
                  end in
                let content := optProp delta "content" in
                let st2 :=
                  match content with
                  | Some c =>
                      if truthy content then
                        {| buffer := buffer st1;
                           accumulatedContent :=
                             accumulatedContent st1 ++ toString c;
                           accumulatedReasoning := accumulatedReasoning st1;
                           calls := (calls st1
                                     ++ callOnChunk (toString c) false)%list |}
                      else st1
                  | None => st1
                  end in
                let finishReason :=
                  optProp (optIndex0 choices) "finish_reason" in
                if isString finishReason "stop"
                   || isString finishReason "length"
                then (st2, true) else (st2, false)
          end
      end
  else (st, false).

(** [for (const line of lines) { ... }]: a [break] leaves this loop. *)
Fixpoint processLines (st : sseState) (lines : list string) : sseState :=
  match lines with
  | [] => st
  | line :: rest =>
      let '(st', break) := processLine st line in
      if break then st' else processLines st' rest
  end.

(** The lines of [buffer.split('\n')] without the last, and
    [lines.pop() || '']. *)
Definition splitBuffer (text : string) : list string * string :=
  let lines := JS.split "010" text in
  (removelast lines, JS.orElseStr (last lines) "").

(** One turn of [while (true)] on a chunk that was read. *)
Definition processChunk (st : sseState) (chunk : string) : sseState :=
  let '(lines, rest) := splitBuffer (buffer st ++ chunk) in
  processLines
    {| buffer := rest;
       accumulatedContent := accumulatedContent st;
       accumulatedReasoning := accumulatedReasoning st;
       calls := calls st |}
    lines.

Definition initialState : sseState :=
  {| buffer := ""; accumulatedContent := "";
     accumulatedReasoning := ""; calls := [] |}.

(** The loop runs until the reader reports the end of the stream or
    fails; a failure is thrown again. *)
Definition parseSSEStream (stream : Stream) : M string :=
  let st := fold_left processChunk (chunks stream) initialState in
  match readError stream with
  | Some error => (calls st, Throw error)
  | None =>
      (calls st,
       Normal (if String.eqb (accumulatedContent st) ""
               then accumulatedReasoning st
               else accumulatedContent st))
  end.

End SSE.

End LLMService.

(** ** The file parser module *)

Module FileParser.

Import Eff.

(** A [File]: its name, its size and its bytes; [data] is [None] when the
    [FileReader] fails.  [readAsText] returns the bytes as text, which is
    right for ASCII content. *)
Record File : Type := mkFile {
  name : string;
  size : Z;
  data : option string
}.

(** The settings and the collaborators that decoding depends on. *)
Record Platform : Type := mkPlatform {
  testMode : bool;                      (* [LLMService.isTestMode()] *)
  apiKey : option string;               (* [LLMService.getAPIKey()] *)
  (* [APIConfig.getActiveProfile().authHeaderTemplate]; [None] when the
     active profile has no such property, as the empty object has that
     [getProfile] makes of an inherited property of [DEFAULT_PROFILES] *)
  activeAuthHeaderTemplate : option string;
  fetch : Request -> LLMService.fetchResult;
  (* [JSON.stringify(JSON.parse(text), null, 2)] *)
  jsonReformat : string -> option string;
  (* [mammoth.extractRawText], when the library is loaded *)
  mammoth : option (string -> completion string);
  (* the text of the pages as [parsePdfFile] joins it, when the library is
     loaded *)
  pdfjs : option (string -> completion string);
  (* the [textContent] of the document without its scripts and styles *)
  htmlText : string -> string
}.

Record FileData : Type := mkFileData {
  text : string;
  type : string;
  isJson : bool;
  fileSize : Z;
  fileName : string
}.

Definition parseTextFile (file : File) : M string :=
  match data file with
  | Some bytes => ret bytes
  | None => throw (mkError "Text file read failed")
  end.

Definition parseJsonFile (p : Platform) (file : File) : M string :=
  do text <- parseTextFile file;
  match jsonReformat p text with
  | Some pretty => ret pretty
  | None => throw (mkError "Invalid JSON format")
  end.

(** The bytes that [extractDocTextWithAI] keeps: printable ASCII, TAB,
    LF, CR, and the bytes from 128. *)
Definition keepByte (c : ascii) : bool :=
  JS.inRange 32 126 c || (JS.code c =? 10)%N || (JS.code c =? 13)%N
  || (JS.code c =? 9)%N || JS.inRange 128 255 c.

Fixpoint filterString (p : ascii -> bool) (s : string) : string :=
  match s with
  | EmptyString => EmptyString
  | String c s' =>
      if p c then String c (filterString p s') else filterString p s'
  end.

(** [/[\x00-\x08\x0B-\x0C\x0E-\x1F]/] *)
Definition isControl (c : ascii) : bool :=
  JS.inRange 0 8 c || JS.inRange 11 12 c || JS.inRange 14 31 c.

(** The maximal runs of white space and of other characters. *)
Fixpoint spaceRuns (s : string) : list (bool * string) :=
  match s with
  | EmptyString => []
  | String c s' =>
      match spaceRuns s' with
      | (b, r) :: rest =>
          if Bool.eqb b (JS.isWhiteSpace c) then (b, String c r) :: rest
          else (JS.isWhiteSpace c, String c EmptyString) :: (b, r) :: rest
      | [] => [(JS.isWhiteSpace c, String c EmptyString)]
      end
  end.

(** [s.replace(/\s{3,}/g, '\n\n')] *)
Definition breakParagraphs (s : string) : string :=
  String.concat ""
    (map (fun '(b, r) =>
            if b && (3 <=? String.length r)%nat
            then String "010" (String "010" EmptyString) else r)
         (spaceRuns s)).

(** The maximal runs of one character, with their lengths. *)
Fixpoint charRuns (s : string) : list (ascii * nat) :=
  match s with
  | EmptyString => []
  | String c s' =>
      match charRuns s' with
      | (d, n) :: rest =>
          if Ascii.eqb c d then (d, S n) :: rest else (c, 1%nat) :: (d, n) :: rest
      | [] => [(c, 1%nat)]
      end
  end.

Fixpoint repeatChar (c : ascii) (n : nat) : string :=
  match n with
  | O => EmptyString
  | S n' => String c (repeatChar c n')
  end.

(** [s.replace(/(.)\1{10,}/g, '$1')] *)
Definition dropRepetitions (s : string) : string :=
  String.concat ""
    (map (fun '(c, n) =>
            if negb (JS.isLineTerminator c) && (11 <=? n)%nat
            then String c EmptyString else repeatChar c n)
         (charRuns s)).

Definition cleanupSystemPrompt : string :=
"You are a text extraction assistant. Your job is to clean up text extracted from a binary Word document (.doc file). The text may contain formatting artifacts, gibberish characters, and scrambled content mixed with the actual document text.

Extract and return ONLY the meaningful document content, removing:
- Binary artifacts and gibberish
- Repeated characters or formatting codes
- Document metadata and headers
- Navigation or UI elements

Preserve:
- All meaningful text content
- Paragraph structure
- Headings and sections
- Lists and formatting cues".

Definition cleanupUserPrompt (rawText : string) : string :=
  "Clean up this text extracted from a .doc file and return only the meaningful content:

" ++ JS.substring rawText 0 (Z.to_nat 15000)
    ++ (if (15000 <? Z.of_nat (String.length rawText))%Z
        then String "010" (String "010" "[... text truncated ...]")
        else "").

Definition cleanTextWithAI (p : Platform) (rawText : string) : M string :=
  match apiKey p with
  | None | Some EmptyString => ret rawText
  | Some _ =>
      let request :=
        {| systemPrompt := cleanupSystemPrompt;
           userPrompt := cleanupUserPrompt rawText |} in
      do _ <- lift (LLMService.generateFetchConfig (activeAuthHeaderTemplate p));
      do _ <- emit (Fetch request);
      match fetch p request with
      | LLMService.Fails error => throw error
      | LLMService.Responds response =>
          if negb (LLMService.ok response)
          then throw (mkError ("API error " ++ pretty (LLMService.status response)))
          else
            do cleaned <- lift (LLMService.content response);
            match cleaned with
            | None | Some EmptyString => throw (mkError "No content from AI")
            | Some cleaned => ret cleaned
            end
      end
  end.

Definition extractDocTextWithAI (p : Platform) (file : File) : M string :=
  match data file with
  | None => throw (mkError "File read failed")
  | Some bytes =>
      let rawText := filterString keepByte bytes in
      let rawText :=
        JS.trim
          (dropRepetitions
             (breakParagraphs
                (filterString (fun c => negb (isControl c)) rawText))) in
      if (String.length rawText <? 100)%nat then
        throw (mkError
          "Insufficient text extracted from .doc file. Please save as .docx or paste text.")
      else if negb (testMode p) then
        tryCatch (cleanTextWithAI p rawText) (fun _ => ret rawText)
      else ret rawText
  end.

(** [uint8Array[0] === 0x50 && uint8Array[1] === 0x4B] *)
Definition isZip (bytes : string) : bool := String.prefix "PK" bytes.

Definition parseDocxFile (p : Platform) (file : File) : M string :=
  match mammoth p with
  | None => throw (mkError "Mammoth.js library not loaded")
  | Some extractRawText =>
      match data file with
      | None => throw (mkError "File read failed")
      | Some bytes =>
          if negb (isZip bytes) then
            tryCatch (extractDocTextWithAI p file)
              (fun _ => throw (mkError
                 ("DOC file could not be parsed. Try: Save as .docx or use "
                  ++ String "034" "Paste Text Instead" ++ String "034" ".")))
          else
            tryCatch (lift (extractRawText bytes))
              (fun err =>
                 if JS.includes (message err) "end of central directory"
                 then throw (mkError
                   "File corrupted. Try: Save as .docx or paste text instead.")
                 else throw (mkError
                   ("Parse error: " ++ JS.substring (message err) 0 50 ++ "...")))
      end
  end.

Definition parsePdfFile (p : Platform) (file : File) : M string :=
  match pdfjs p with
  | None => throw (mkError "PDF.js library not loaded")
  | Some pagesText =>
      match data file with
      | None => throw (mkError "PDF read failed")
      | Some bytes =>
          tryCatch
            (do fullText <- lift (pagesText bytes); ret (JS.trim fullText))
            (fun err => throw (mkError
               ("PDF parse error: " ++ JS.substring (message err) 0 40 ++ "...")))
      end
  end.

Definition parseHtmlFile (p : Platform) (file : File) : M string :=
  do html <- parseTextFile file;
  ret (JS.trim (JS.collapseWhiteSpace (htmlText p html))).

Definition parseMarkdownFile (file : File) : M string := parseTextFile file.

(** [fileName.split('.').pop()] *)
Definition extensionOf (fileName : string) : string :=
  default "" (last (JS.split "." fileName)).

Definition parseFile (p : Platform) (file : option File) : M FileData :=
  match file with
  | None => throw (mkError "No file provided")
  | Some file =>
      let fileName := JS.toLowerCase (name file) in
      let extension := extensionOf fileName in
      do text_isJson <-
        (if String.eqb extension "txt" then
           do t <- parseTextFile file; ret (t, false)
         else if String.eqb extension "json" then
           do t <- parseJsonFile p file; ret (t, true)
         else if String.eqb extension "docx" || String.eqb extension "doc" then
           do t <- parseDocxFile p file; ret (t, false)
         else if String.eqb extension "pdf" then
           do t <- parsePdfFile p file; ret (t, false)
         else if String.eqb extension "html" || String.eqb extension "htm" then
           do t <- parseHtmlFile p file; ret (t, false)
         else if String.eqb extension "md" || String.eqb extension "markdown" then
           do t <- parseMarkdownFile file; ret (t, false)
         else throw (mkError ("Unsupported file type: ." ++ extension)));
      ret {| text := fst text_isJson;
             type := extension;
             isJson := snd text_isJson;
             fileSize := size file;
             fileName := name file |}
  end.

(** *** Validation before decoding *)

(** The object that [validateFile] returns; a [warning] that is missing is
    [false], an [error] that is missing is [None]. *)
Record Validation : Type := mkValidation {
  valid : bool;
  warning : bool;
  validationError : option string
}.

(** The default of the parameter [allowedExtensions]. *)
Definition defaultAllowedExtensions : list string :=
  ["txt"; "json"; "docx"; "doc"; "pdf"; "html"; "htm"; "md"; "markdown"].

(** [(size / 1024 / 1024).toFixed(1)] for a size that is not negative.  The
    divisions by a power of two are exact, and [toFixed] takes the nearest
    multiple of a tenth, the larger one of two. *)
Definition megabytes (size : Z) : string :=
  let n := JS.Math_round
             (Qdiv (inject_Z (10 * size)) (inject_Z (1024 * 1024))) in
  pretty (n / 10)%Z ++ "." ++ pretty (n mod 10)%Z.

Definition validateFile (file : option File) (allowedExtensions : list string)
  : Validation :=
  match file with
  | None =>
      {| valid := false; warning := false;
         validationError := Some "No file provided" |}
  | Some file =>
      let fileName := JS.toLowerCase (name file) in
      let extension := extensionOf fileName in
      if String.eqb extension "doc" then
        {| valid := true; warning := true;
           validationError :=
             Some "Old .doc format will use AI-powered text extraction. Best results with .docx." |}
      else if negb (bool_decide (extension ∈ allowedExtensions)) then
        {| valid := false; warning := false;
           validationError :=
             Some ("Unsupported: ." ++ extension ++ ". Allowed: "
                   ++ String.concat ", " (take 4 allowedExtensions)) |}
      else if (50 * 1024 * 1024 <? size file)%Z then
        {| valid := false; warning := false;
           validationError :=
             Some ("File too large: " ++ megabytes (size file)
                   ++ "MB (max 50MB)") |}
      else {| valid := true; warning := false; validationError := None |}
  end.

Definition getFileExtension (file : File) : string :=
  extensionOf (JS.toLowerCase (name file)).

End FileParser.

(** ** The criteria extractor, [js/criteria-extractor.js] *)

Module CriteriaExtractor.

(** One entry of a rubric. *)
Record RubricEntry : Type := mkRubricEntry {
  entry_id : string;
  entry_name : string;
  entry_description : string
}.

Record Rubric : Type := mkRubric {
  phase : string;
  rubric_categories : list RubricEntry
}.

(** An object literal with string keys, in the order of its keys, which is
    the order [Object.keys] returns for keys that are not array indices. *)
Definition lookup {A} (table : list (string * A)) (key : string) : option A :=
  snd <$> find (fun kv => String.eqb (fst kv) key) table.

Definition CATEGORY_DEFINITIONS : list (string * string) :=
  [ ("1a", "Data Description and Collection or Re-use");
    ("1b", "Data Types, Formats, and Volumes");
    ("2a", "Metadata and Documentation Standards");
    ("2b", "Data Quality Control Measures");
    ("3a", "Storage and Backup");
    ("3b", "Data Access Management");
    ("3c", "Data Security and Protection");
    ("4a", "Personal Data and GDPR Compliance");
    ("4b", "Intellectual Property Rights and Ownership");
    ("4c", "Ethical Requirements and Approvals");
    ("5a", "Data Sharing Plans and Restrictions");
    ("5b", "Data Preservation and Archiving");
    ("5c", "Access Methods and Software Tools");
    ("5d", "Persistent Identifiers (PIDs)");
    ("6a", "Data Management Roles and Responsibilities");
    ("6b", "Resources for FAIR Data Management") ].

Definition phaseColumnMap : list (string * nat) :=
  [ ("proposal", 0%nat); ("mid", 1%nat); ("end", 2%nat) ].

Definition phaseDescriptions : list (string * string) :=
  [ ("proposal", "planned or proposed approach");
    ("mid", "current implementation and progress");
    ("end", "final outcomes and compliance") ].

(** *** The regular expressions of the module, as scanners *)

Definition isDash (c : ascii) : bool := Ascii.eqb c "-".

(** [line.match(/^\|\s*-+\s*\|/)] *)
Definition isSeparatorRow (line : string) : bool :=
  match line with
  | String "|" r =>
      let '(_, r1) := JS.span JS.isWhiteSpace r in
      let '(dashes, r2) := JS.span isDash r1 in
      let '(_, r3) := JS.span JS.isWhiteSpace r2 in
      negb (String.eqb dashes "") && JS.startsWith r3 "|"
  | _ => false
  end.

(** The first group of [cell.match(/(\d+[a-z])\s*/i)]: the leftmost run of
    digits that a letter follows, with that letter. *)
Fixpoint matchCategoryId (cell : string) : option string :=
  match cell with
  | EmptyString => None
  | String c cell' =>
      if JS.isDigit c then
        match JS.span JS.isDigit cell with
        | (digits, String l _) =>
            if JS.isLetter l then Some (digits ++ String l EmptyString)
            else matchCategoryId cell'
        | _ => matchCategoryId cell'
        end
      else matchCategoryId cell'
  end.

(** What is left of [s] after a match of [/^\d+[a-z]?\s*/i] (when
    [needSpace] is false) or of [/^\d+[a-z]?\s+/i] (when it is true);
    [None] when the expression does not match. *)
Definition afterIdToken (needSpace : bool) (s : string) : option string :=
  let '(digits, r1) := JS.span JS.isDigit s in
  if String.eqb digits "" then None
  else
    let r2 := match r1 with
              | String l r => if JS.isLetter l then r else r1
              | EmptyString => r1
              end in
    let '(spaces, r3) := JS.span JS.isWhiteSpace r2 in
    if needSpace && String.eqb spaces "" then None else Some r3.

(** What is left of [s] after a match of [/^\d+\s+[A-Z\s]+\d+[a-z]/i]. *)
Definition afterSectionHeading (s : string) : option string :=
  let '(d1, r1) := JS.span JS.isDigit s in
  let '(run, r2) := JS.span (fun c => JS.isLetter c || JS.isWhiteSpace c) r1 in
  let '(d2, r3) := JS.span JS.isDigit r2 in
  match run, r3 with
  | String w (String _ _), String l r4 =>
      if negb (String.eqb d1 "") && JS.isWhiteSpace w
         && negb (String.eqb d2 "") && JS.isLetter l
      then Some r4 else None
  | _, _ => None
  end.

(** What is left of [s] after a match of [^id\s*] under the flag [i], for
    an [id] of digits and lower-case letters. *)
Definition afterCategoryId (categoryId s : string) : option string :=
  let n := String.length categoryId in
  if String.eqb (JS.toLowerCase (String.substring 0 n s)) categoryId
     && (n <=? String.length s)%nat
  then Some (snd (JS.span JS.isWhiteSpace (JS.substringFrom s n)))
  else None.

(** The index of the last [?] of [s] that is not its first character. *)
Fixpoint lastQuestionMark (i : nat) (s : string) : option nat :=
  match s with
  | EmptyString => None
  | String c s' =>
      match lastQuestionMark (S i) s' with
      | Some j => Some j
      | None => if Ascii.eqb c "?" && (0 <? i)%nat then Some i else None
      end
  end.

(** The first group of [s.match(/^([^\n]+\?)/)]. *)
Definition matchQuestion (s : string) : option string :=
  let '(firstLine, _) := JS.span (fun c => negb (Ascii.eqb c "010")) s in
  match lastQuestionMark 0 firstLine with
  | Some j => Some (JS.substring firstLine 0 (S j))
  | None => None
  end.

(** *** The functions of the module *)

Definition extractCategoryName (cellText : string) : string :=
  let withoutId := default cellText (afterIdToken false cellText) in
  match matchQuestion withoutId with
  | Some q => JS.trim q
  | None =>
      let firstLine := default "" (head (JS.split "010" withoutId)) in
      JS.trim (JS.substring firstLine 0 100)
  end.

(** [categoryId] is [None] for the default [null]. *)
Definition cleanDescription (text : string) (categoryId : option string)
  : string :=
  if String.eqb text "" then ""
  else
    let cleaned := text in
    let cleaned :=
      match categoryId with
      | Some cid =>
          if String.eqb cid "" then cleaned
          else default cleaned (afterCategoryId cid cleaned)
      | None => cleaned
      end in
    let cleaned := JS.trim (JS.collapseWhiteSpace cleaned) in
    let cleaned := default cleaned (afterIdToken true cleaned) in
    let cleaned := default cleaned (afterSectionHeading cleaned) in
    cleaned.

(** [line.split('|').map(cell => cell.trim()).filter(cell => cell)] *)
Definition rowCells (line : string) : list string :=
  filter (fun cell => cell <> "") (map JS.trim (JS.split "|" line)).

(** [lastCategory.description += '\n\n' + additionalText], on the last
    element of the array when its id is [currentCategoryId]. *)
Fixpoint appendToLast (categories : list RubricEntry)
    (currentCategoryId additionalText : string) : list RubricEntry :=
  match categories with
  | [] => []
  | [lastCategory] =>
      if String.eqb (entry_id lastCategory) currentCategoryId then
        [ {| entry_id := entry_id lastCategory;
             entry_name := entry_name lastCategory;
             entry_description :=
               entry_description lastCategory
               ++ String "010" (String "010" additionalText) |} ]
      else [lastCategory]
  | c :: rest => c :: appendToLast rest currentCategoryId additionalText
  end.

(** The state of the loop of [parseTableRows]: the array [categories] and
    [currentCategoryId]. *)
Definition rowState : Type := (list RubricEntry * option string)%type.

(** One turn of the loop of [parseTableRows]. *)
Definition parseLine (columnIndex : nat) (st : rowState) (line : string)
  : rowState :=
  let '(categories, currentCategoryId) := st in
  if JS.includes line "Proposal/Early Stage" || isSeparatorRow line then st
  else if negb (JS.startsWith line "|") then st
  else
    let cells := rowCells line in
    if (length cells <? 3)%nat then st
    else
      let firstCell := default "" (cells !! 0%nat) in
      match matchCategoryId firstCell with
      | Some m =>
          let cid := JS.toLowerCase m in
          let categoryName :=
            JS.orElseStr (lookup CATEGORY_DEFINITIONS cid)
              (extractCategoryName firstCell) in
          let description :=
            JS.orElseStr (cells !! columnIndex) firstCell in
          let description := cleanDescription description (Some cid) in
          if (10 <? String.length description)%nat then
            ((categories ++ [ {| entry_id := cid;
                                 entry_name := categoryName;
                                 entry_description := description |} ])%list,
             Some cid)
          else (categories, Some cid)
      | None =>
          match currentCategoryId, cells !! columnIndex with
          | Some cur, Some cell =>
              let additionalText := cleanDescription cell None in
              if (10 <? String.length additionalText)%nat then
                (appendToLast categories cur additionalText, currentCategoryId)
              else st
          | _, _ => st
          end
      end.

Definition parseTableRows (tableText phase : string) : Rubric :=
  let lines := JS.split "010" tableText in
  let columnIndex := default 0%nat (lookup phaseColumnMap phase) in
  let '(categories, _) := fold_left (parseLine columnIndex) lines ([], None) in
  {| phase := phase; rubric_categories := categories |}.

(** The template literal of [getDefaultCriteria]; a phase that is not a key
    of [phaseDescriptions] prints as [undefined]. *)
Definition defaultDescription (phase definition : string) : string :=
  "Evaluate the " ++ default "undefined" (lookup phaseDescriptions phase)
    ++ " for " ++ JS.toLowerCase definition ++ ".".

Definition getDefaultCriteria (phase : string) : Rubric :=
  {| phase := phase;
     rubric_categories :=
       map (fun kv =>
              {| entry_id := fst kv;
                 entry_name := snd kv;
                 entry_description := defaultDescription phase (snd kv) |})
           CATEGORY_DEFINITIONS |}.

(** The table portion of [text]: from the marker found at [table2Start] to
    the next top-level heading, or to the end. *)
Definition tableTextOf (text : string) (table2Start : nat) : string :=
  let tableEnd := JS.indexOf text (String "010" "# ") (table2Start + 1) in
  if (-1 <? tableEnd)%Z then JS.substring text table2Start (Z.to_nat tableEnd)
  else JS.substringFrom text table2Start.

Definition extractCriteria (text phase : string) : Rubric :=
  let table2Start := JS.indexOf text "Table 2" 0 in
  if (table2Start =? -1)%Z then getDefaultCriteria phase
  else
    let tableText := tableTextOf text (Z.to_nat table2Start) in
    let criteria := parseTableRows tableText phase in
    if (length (rubric_categories criteria) =? 0)%nat
    then getDefaultCriteria phase
    else criteria.

(** The result of [validateCriteria] on a rubric object. *)
Definition validateCriteria (criteria : Rubric) : bool * string :=
  if (length (rubric_categories criteria) =? 0)%nat
  then (false, "No evaluation categories found")
  else if forallb
            (fun cat => negb (String.eqb (entry_id cat) "")
                        && negb (String.eqb (entry_name cat) "")
                        && negb (String.eqb (entry_description cat) ""))
            (rubric_categories criteria)
  then (true, pretty (length (rubric_categories criteria))
              ++ " categories loaded successfully")
  else (false, "Invalid category structure: missing id, name, or description").

(** The object that [getCriteriaStats] returns. *)
Record CriteriaStats : Type := mkCriteriaStats {
  total : nat;
  avgDescriptionLength : JS.number;
  statsPhase : option string            (* [phase] *)
}.

(** [criteria] is [None] for [null]; the array of categories is there.  The
    quotient of zero by zero is [NaN]. *)
Definition getCriteriaStats (criteria : option Rubric) : CriteriaStats :=
  match criteria with
  | None =>
      {| total := 0; avgDescriptionLength := JS.Num 0; statsPhase := None |}
  | Some criteria =>
      let total := length (rubric_categories criteria) in
      let totalChars :=
        fold_left
          (fun sum cat => (sum + Z.of_nat (String.length (entry_description cat)))%Z)
          (rubric_categories criteria) 0%Z in
      {| total := total;
         avgDescriptionLength :=
           if (total =? 0)%nat then JS.NaN
           else JS.Num (JS.Math_round
                          (Qdiv (inject_Z totalChars)
                                (inject_Z (Z.of_nat total))));
         statsPhase := Some (phase criteria) |}
  end.

End CriteriaExtractor.

(** ** The result normaliser, [js/evaluator.js] *)

Module Evaluator.

Import CriteriaExtractor.

(** A category as the model returns it: a parsed JSON object, any of whose
    properties may be missing. *)
Record RawCategory : Type := mkRawCategory {
  raw_id : option string;
  raw_name : option string;
  raw_score : JS.jsValue;
  raw_status : option string;
  raw_feedback : option string
}.

(** [raw_categories] is [None] when the property is missing or is not an
    array. *)
Record RawResults : Type := mkRawResults {
  raw_overallScore : JS.jsValue;
  raw_categories : option (list RawCategory)
}.

(** The score of a result is the number that [Math.min] returns; its
    overall score is the value of the raw output where that is truthy. *)
Record CategoryResult : Type := mkCategoryResult {
  id : string;
  name : string;
  score : JS.double;
  status : string;
  feedback : string
}.

Record EvaluationResult : Type := mkEvaluationResult {
  overallScore : JS.jsValue;
  categories : list CategoryResult
}.

Definition determineStatus (score : JS.double) : string :=
  if JS.Double.ge score (JS.ofZ 90) then "excellent"
  else if JS.Double.ge score (JS.ofZ 75) then "good"
  else if JS.Double.ge score (JS.ofZ 60) then "fair"
  else "poor".

(** [cat.score || 0] as the number that its two uses make of it: the
    comparisons of [determineStatus] with a number and [Math.max] both apply
    [ToNumber] to the value. *)
Definition rawScore (cat : RawCategory) : JS.double :=
  JS.ToNumber (JS.orZero (raw_score cat)).

(** The body of the [map] callback of [processResults]. *)
Definition normalizeCategory (cat : RawCategory) : CategoryResult :=
  let status :=
    JS.orElseStr (raw_status cat) (determineStatus (rawScore cat)) in
  {| id := JS.orElseStr (raw_id cat) "unknown";
     name := JS.orElseStr (raw_name cat) "Unknown Category";
     score := JS.Double.min (JS.ofZ 100)
                (JS.Double.max (JS.ofZ 0) (rawScore cat));
     status := status;
     feedback := JS.orElseStr (raw_feedback cat) "No feedback provided" |}.

Definition placeholder (critCat : RubricEntry) : CategoryResult :=
  {| id := entry_id critCat;
     name := entry_name critCat;
     score := JS.ofZ 0;
     status := "poor";
     feedback :=
       "This criterion was not evaluated. Please review the DMP for this section." |}.

(** [categories.reduce((acc, cat) => acc + cat.score, 0)] *)
Definition sumScores (cats : list CategoryResult) : JS.double :=
  fold_left (fun acc cat => JS.Double.add acc (score cat)) cats (JS.ofZ 0).

(** The overall score after the block "Recalculate overall score if missing
      or invalid". *)
Definition recalculate (overall : JS.jsValue) (cats : list CategoryResult)
  : JS.jsValue :=
  if negb (JS.isTruthy overall) || JS.strictEqZero overall then
    if (0 <? length cats)%nat then
      JS.VNumber
        (JS.Double.round (JS.Double.divLength (sumScores cats) (length cats)))
    else overall
  else overall.

(** The [forEach] that pushes a placeholder for every rubric entry whose id
    is not in [existingIds]; the set is built once, before the loop. *)
Definition fillMissing (existingIds : gset string)
    (criteria : list RubricEntry) (cats : list CategoryResult)
  : list CategoryResult :=
  fold_left
    (fun acc critCat =>
       if decide (entry_id critCat ∈ existingIds) then acc
       else (acc ++ [placeholder critCat])%list)
    criteria cats.

(** [processed.categories] after the [map] over the raw categories; it is
    empty when the raw output has no array of categories. *)
Definition mappedCategories (rawResults : RawResults) : list CategoryResult :=
  match raw_categories rawResults with
  | Some cats => map normalizeCategory cats
  | None => []
  end.

Section WithLocale.

(** [a.localeCompare(b)] is the collation of the host; it is a parameter
    of the model. *)
Variable localeCompare : string -> string -> Z.

(** The comparator given to [sort]. *)
Definition compareCategories (a b : CategoryResult) : JS.number :=
  let aNum := JS.parseInt (id a) in
  let bNum := JS.parseInt (id b) in
  if JS.strictNe aNum bNum then JS.sub aNum bNum
  else JS.Num (localeCompare (id a) (id b)).

Definition processResults (rawResults : RawResults) (criteria : Rubric)
  : EvaluationResult :=
  let overall0 := JS.orZero (raw_overallScore rawResults) in
  let cats0 := mappedCategories rawResults in
  let overall := recalculate overall0 cats0 in
  let existingIds : gset string := list_to_set (map id cats0) in
  let cats1 := fillMissing existingIds (rubric_categories criteria) cats0 in
  {| overallScore := overall;
     categories := JS.sort compareCategories cats1 |}.

End WithLocale.

(** *** The orchestrator *)

Import Eff.

Record Metadata : Type := mkMetadata {
  criteriaFile : option string;
  dmpFile : option string;
  metaPhase : string;
  evaluationDate : string;
  model : option string
}.

(** The object that [evaluate] resolves to: [{success: true, results,
    metadata}] or [{success: false, error, metadata}]. *)
Inductive Evaluation : Type :=
| Succeeded (results : EvaluationResult) (metadata : Metadata)
| Failed (error : string) (metadata : Metadata).

Definition success (r : Evaluation) : bool :=
  match r with Succeeded _ _ => true | Failed _ _ => false end.

Definition error (r : Evaluation) : option string :=
  match r with Succeeded _ _ => None | Failed e _ => Some e end.

(** A progress callback: it may throw. *)
Definition callback : Type := option (string -> completion unit).

Definition updateProgress (cb : callback) (msg : string) : M unit :=
  match cb with
  | Some f => do _ <- emit (Progress msg); lift (f msg)
  | None => ret tt
  end.

(** [file.name] throws a [TypeError] on a file that is [null]; the message
    is the one of V8. *)
Definition nameOf (file : option FileParser.File) : M string :=
  match file with
  | Some f => ret (FileParser.name f)
  | None => throw (mkError "Cannot read properties of null (reading 'name')")
  end.

Definition tooShort : string :=
  "DMP document is too short. Please provide a complete DMP.".

Section Orchestrator.

Variable localeCompare : string -> string -> Z.
Variable platform : FileParser.Platform.
(** [FileParser.formatFileSize], which computes with logarithms. *)
Variable formatFileSize : Z -> string.
(** [LLMService.buildEvaluationPrompt] and [LLMService.evaluateDMP]; the
    callback given to the latter receives the text of each report. *)
Variable buildEvaluationPrompt : Rubric -> string -> string -> string * string.
Variable evaluateDMP : string -> string -> (string -> M unit) -> M RawResults.
(** [new Date().toISOString()] and [LLMService.getSelectedModel()]. *)
Variable now : string.
Variable selectedModel : string.

(** The block of [try]. *)
Definition evaluateBody (criteriaFile dmpFile : option FileParser.File)
    (phase : string) (onProgress : callback) : M Evaluation :=
  do criteriaName <- nameOf criteriaFile;
  let isDocCriteria := JS.endsWith (JS.toLowerCase criteriaName) ".doc" in
  do _ <- updateProgress onProgress
            (if isDocCriteria then "Extracting .doc file with AI..."
             else "Parsing evaluation criteria...");
  do criteriaData <- FileParser.parseFile platform criteriaFile;
  let criteria := extractCriteria (FileParser.text criteriaData) phase in
  let criteriaValidation := validateCriteria criteria in
  do _ <- (if negb (fst criteriaValidation)
           then throw (mkError ("Invalid criteria: " ++ snd criteriaValidation))
           else ret tt);
  do _ <- updateProgress onProgress
            ("Criteria loaded: "
             ++ pretty (length (rubric_categories criteria)) ++ " categories");
  do dmpName <- nameOf dmpFile;
  let isDocDmp := JS.endsWith (JS.toLowerCase dmpName) ".doc" in
  do _ <- updateProgress onProgress
            (if isDocDmp then "Extracting .doc file with AI..."
             else "Parsing DMP document...");
  do dmpData <- FileParser.parseFile platform dmpFile;
  do _ <- updateProgress onProgress
            ("DMP document parsed: "
             ++ formatFileSize (FileParser.fileSize dmpData));
  do _ <- (if (String.length (FileParser.text dmpData) <? 100)%nat
           then throw (mkError tooShort) else ret tt);
  do _ <- updateProgress onProgress "Building evaluation prompt...";
  let prompts :=
    buildEvaluationPrompt criteria (FileParser.text dmpData) phase in
  do _ <- updateProgress onProgress "Evaluating DMP with AI...";
  do results <- evaluateDMP (fst prompts) (snd prompts)
                  (fun msg => updateProgress onProgress ("AI: " ++ msg));
  do _ <- updateProgress onProgress "Processing results...";
  let processedResults := processResults localeCompare results criteria in
  do _ <- updateProgress onProgress "Evaluation complete!";
  ret (Succeeded processedResults
         {| criteriaFile := Some criteriaName;
            dmpFile := Some dmpName;
            metaPhase := phase;
            evaluationDate := now;
            model := Some selectedModel |}).

Definition evaluate (criteriaFile dmpFile : option FileParser.File)
    (phase : string) (onProgress : callback) : M Evaluation :=
  tryCatch (evaluateBody criteriaFile dmpFile phase onProgress)
    (fun error =>
       ret (Failed (message error)
              {| criteriaFile := FileParser.name <$> criteriaFile;
                 dmpFile := FileParser.name <$> dmpFile;
                 metaPhase := phase;
                 evaluationDate := now;
                 model := None |})).

End Orchestrator.

(** *** The presentation of a score, and the summary *)

Definition getScoreColorClass (score : JS.double) : string :=
  if JS.Double.ge score (JS.ofZ 90) then "score-excellent"
  else if JS.Double.ge score (JS.ofZ 75) then "score-good"
  else if JS.Double.ge score (JS.ofZ 60) then "score-fair"
  else "score-poor".

(** [map[status] || 'bg-secondary'], for a status that is not the name of a
    property that every object inherits. *)
Definition getStatusBadgeClass (status : string) : string :=
  JS.orElseStr
    (lookup [ ("excellent", "bg-success"); ("good", "bg-info");
              ("fair", "bg-warning"); ("poor", "bg-danger") ] status)
    "bg-secondary".

Definition getProgressBarClass (score : JS.double) : string :=
  if JS.Double.ge score (JS.ofZ 90) then "bg-success"
  else if JS.Double.ge score (JS.ofZ 75) then "bg-info"
  else if JS.Double.ge score (JS.ofZ 60) then "bg-warning"
  else "bg-danger".

(** [Math.max(...l)] and [Math.min(...l)]: an infinity when the list is
    empty, [NaN] when one of the numbers is.  An engine bounds the number of
    arguments of a call; the model does not. *)
Definition Math_max (l : list JS.double) : JS.double :=
  fold_left JS.Double.max l (JS.DInf true).

Definition Math_min (l : list JS.double) : JS.double :=
  fold_left JS.Double.min l (JS.DInf false).

Record StatusCounts : Type := mkStatusCounts {
  excellent : nat;
  good : nat;
  fair : nat;
  poor : nat
}.

Record Summary : Type := mkSummary {
  summaryScore : JS.jsValue;              (* [overallScore] *)
  totalCategories : nat;
  averageScore : JS.double;
  maxScore : JS.double;
  minScore : JS.double;
  statusCounts : StatusCounts;
  strengths : list CategoryResult;
  weaknesses : list CategoryResult
}.

(** [categories.filter(c => c.status === label).length] *)
Definition countStatus (label : string) (cats : list CategoryResult) : nat :=
  length (filter (fun c => status c = label) cats).

(** [Math.round(scores.reduce((a, b) => a + b, 0) / scores.length)]; the
    quotient of zero by zero is [NaN]. *)
Definition averageOf (scores : list JS.double) : JS.double :=
  JS.Double.round
    (JS.Double.divLength (fold_left JS.Double.add scores (JS.ofZ 0))
       (length scores)).

(** [results] is [None] for [null]; the array of categories is there, and
    the scores are numbers, as [processResults] leaves them. *)
Definition generateSummary (results : option EvaluationResult)
  : option Summary :=
  match results with
  | None => None
  | Some results =>
      let categories := categories results in
      let scores := map score categories in
      Some {| summaryScore := overallScore results;
              totalCategories := length categories;
              averageScore := averageOf scores;
              maxScore := Math_max scores;
              minScore := Math_min scores;
              statusCounts :=
                {| excellent := countStatus "excellent" categories;
                   good := countStatus "good" categories;
                   fair := countStatus "fair" categories;
                   poor := countStatus "poor" categories |};
              strengths :=
                filter (fun c => JS.Double.ge (score c) (JS.ofZ 80) = true)
                       categories;
              weaknesses :=
                filter (fun c => JS.Double.lt (score c) (JS.ofZ 60) = true)
                       categories |}
  end.

End Evaluator.

(** ** The report, [js/api-config.js] *)

Module ExportService.

Definition getStatusLabel (score : JS.double) : string :=
  if JS.Double.ge score (JS.ofZ 90) then "Excellent"
  else if JS.Double.ge score (JS.ofZ 75) then "Good"
  else if JS.Double.ge score (JS.ofZ 60) then "Fair"
  else "Needs Improvement".

(** The colour of a score in the PDF report, as red, green and blue. *)
Definition getScoreColor (score : JS.double) : list Z :=
  if JS.Double.ge score (JS.ofZ 90) then [25; 135; 84]%Z
  else if JS.Double.ge score (JS.ofZ 75) then [13; 202; 240]%Z
  else if JS.Double.ge score (JS.ofZ 60) then [255; 193; 7]%Z
  else [220; 53; 69]%Z.

End ExportService.

(** ** The API profiles, [js/api-config.js] *)

Module APIConfig.

Import CriteriaExtractor.

Record Profile : Type := mkProfile {
  profileName : string;                 (* [name] *)
  endpoint : string;
  authHeaderTemplate : string;
  additionalHeaders : list (string * string);
  modelParamName : string;
  messagesParamName : string;
  temperature : Q;
  maxTokens : Z;
  responseFormat : string
}.

Definition together : Profile :=
  {| profileName := "Together.ai (Default)";
     endpoint := "https://api.together.xyz/v1/chat/completions";
     authHeaderTemplate := "Bearer {API_KEY}";
     additionalHeaders := [("Content-Type", "application/json")];
     modelParamName := "model";
     messagesParamName := "messages";
     temperature := 3 # 10;
     maxTokens := 8000;
     responseFormat := "json_object" |}.

Definition openai : Profile :=
  {| profileName := "OpenAI Compatible";
     endpoint := "https://api.openai.com/v1/chat/completions";
     authHeaderTemplate := "Bearer {API_KEY}";
     additionalHeaders := [("Content-Type", "application/json")];
     modelParamName := "model";
     messagesParamName := "messages";
     temperature := 3 # 10;
     maxTokens := 8000;
     responseFormat := "json_object" |}.

Definition DEFAULT_PROFILES : list (string * Profile) :=
  [ ("together", together); ("openai", openai) ].

(** The names of the properties that every object inherits from
    [Object.prototype]: the value of each is a function, or the prototype
    itself for [__proto__]. *)
Definition inheritedNames : list string :=
  [ "constructor"; "__proto__"; "hasOwnProperty"; "isPrototypeOf";
    "propertyIsEnumerable"; "toLocaleString"; "toString"; "valueOf";
    "__defineGetter__"; "__defineSetter__"; "__lookupGetter__";
    "__lookupSetter__" ].

(** The value of [DEFAULT_PROFILES[profileId]]. *)
Inductive slot : Type :=
| Undefined
| Own (profile : Profile)
| Inherited.

Definition defaultSlot (profileId : string) : slot :=
  match lookup DEFAULT_PROFILES profileId with
  | Some profile => Own profile
  | None =>
      if bool_decide (profileId ∈ inheritedNames) then Inherited
      else Undefined
  end.

(** The slot is truthy. *)
Definition defined (v : slot) : bool :=
  match v with Undefined => false | _ => true end.

(** What the two keys of [localStorage] hold.  [apiCustomProfiles] is the
    object that [getCustomProfiles] parses out of the stored text, which
    [saveCustomProfiles] wrote: an object of profiles, empty when nothing is
    stored. *)
Record Storage : Type := mkStorage {
  apiActiveProfile : option string;
  apiCustomProfiles : gmap string Profile
}.

Definition getActiveProfileId (st : Storage) : string :=
  JS.orElseStr (apiActiveProfile st) "together".

Definition setActiveProfileId (st : Storage) (profileId : string) : Storage :=
  {| apiActiveProfile := Some profileId;
     apiCustomProfiles := apiCustomProfiles st |}.

(** An object made by a spread, [{...value}]: the fields of a profile, or no
    field at all when the value spread is an inherited one. *)
Inductive profileObject : Type :=
| Fields (profile : Profile)
| NoFields.

(** [None] is [null]. *)
Definition getProfile (st : Storage) (profileId : string)
  : option profileObject :=
  match defaultSlot profileId with
  | Own profile => Some (Fields profile)
  | Inherited => Some NoFields
  | Undefined => Fields <$> (apiCustomProfiles st !! profileId)
  end.

Definition getActiveProfile (st : Storage) : profileObject :=
  default (Fields together) (getProfile st (getActiveProfileId st)).

(** [getActiveProfile().authHeaderTemplate], which [generateFetchConfig]
    reads first: [None] is [undefined]. *)
Definition getActiveAuthHeaderTemplate (st : Storage) : option string :=
  match getActiveProfile st with
  | Fields profile => Some (authHeaderTemplate profile)
  | NoFields => None
  end.

(** The storage after the call, and the value returned. *)
Definition saveProfile (st : Storage) (profileId : string) (config : Profile)
  : Storage * bool :=
  if defined (defaultSlot profileId) then (st, false)
  else
    ({| apiActiveProfile := apiActiveProfile st;
        apiCustomProfiles := <[profileId := config]> (apiCustomProfiles st) |},
     true).

Definition deleteProfile (st : Storage) (profileId : string)
  : Storage * bool :=
  if defined (defaultSlot profileId) then (st, false)
  else
    match apiCustomProfiles st !! profileId with
    | Some _ =>
        let st1 :=
          {| apiActiveProfile := apiActiveProfile st;
             apiCustomProfiles := delete profileId (apiCustomProfiles st) |} in
        (if String.eqb (getActiveProfileId st1) profileId
         then setActiveProfileId st1 "together" else st1,
         true)
    | None => (st, false)
    end.

(** [{...DEFAULT_PROFILES, ...customProfiles}]: a custom profile goes before
    a default one of the same id. *)
Definition getAllProfiles (st : Storage) : gmap string Profile :=
  apiCustomProfiles st ∪ list_to_map DEFAULT_PROFILES.

Definition isCustomProfile (st : Storage) (profileId : string) : bool :=
  negb (defined (defaultSlot profileId))
  && bool_decide (is_Some (apiCustomProfiles st !! profileId)).

End APIConfig.

(** ** The model client, continued: the calls of [LLMService] *)

Module Client.

Import Eff Json LLMService FileParser CriteriaExtractor Evaluator.

Definition doubleQuote : string := String "034" EmptyString.

(** The sample result of test mode. *)
Definition TEST_EVALUATION_DATA : RawResults :=
  {| raw_overallScore := JS.VNumber (JS.ofZ 75);
     raw_categories := Some [
      {| raw_id := Some "1a"; raw_name := Some "Data Description and Collection";
         raw_score := JS.VNumber (JS.ofZ 80); raw_status := Some "good";
         raw_feedback :=
           Some "The DMP provides good information about data types and formats. Genomic data is well-described with clear references to RNAseq and genetic analysis methods." |};
      {| raw_id := Some "1b"; raw_name := Some "Data Updates";
         raw_score := JS.VNumber (JS.ofZ 70); raw_status := Some "fair";
         raw_feedback :=
           Some "Some information about data collection methods is present, but could be more detailed regarding specific instruments and protocols." |};
      {| raw_id := Some "2a"; raw_name := Some "Documentation and Metadata";
         raw_score := JS.VNumber (JS.ofZ 75); raw_status := Some "good";
         raw_feedback :=
           Some "Metadata standards are mentioned with references to JSON-LD and community standards. Could benefit from more specific examples." |};
      {| raw_id := Some "2b"; raw_name := Some "Data Quality";
         raw_score := JS.VNumber (JS.ofZ 65); raw_status := Some "fair";
         raw_feedback :=
           Some "Quality control measures are mentioned but lack detail. Consider adding specific QA/QC procedures and validation steps." |};
      {| raw_id := Some "3a"; raw_name := Some "Storage Solutions";
         raw_score := JS.VNumber (JS.ofZ 85); raw_status := Some "good";
         raw_feedback :=
           Some "Storage solutions are well-defined with institutional repositories mentioned. Clear backup procedures outlined." |};
      {| raw_id := Some "3b"; raw_name := Some "Data Security";
         raw_score := JS.VNumber (JS.ofZ 70); raw_status := Some "fair";
         raw_feedback :=
           Some "Basic security measures mentioned. Consider adding more details about encryption, access control, and GDPR compliance." |};
      {| raw_id := Some "4a"; raw_name := Some "Legal and Ethical Requirements";
         raw_score := JS.VNumber (JS.ofZ 60); raw_status := Some "fair";
         raw_feedback :=
           Some "Ethical considerations are addressed but lack specific references to GDPR Articles or ethics approval numbers." |};
      {| raw_id := Some "4b"; raw_name := Some "IPR and Ownership";
         raw_score := JS.VNumber (JS.ofZ 75); raw_status := Some "good";
         raw_feedback :=
           Some "Intellectual property rights are clearly stated with consortium agreements mentioned." |};
      {| raw_id := Some "5a"; raw_name := Some "Data Sharing Plans";
         raw_score := JS.VNumber (JS.ofZ 80); raw_status := Some "good";
         raw_feedback :=
           Some "Data sharing plans are comprehensive with repository selection and embargo periods clearly defined." |};
      {| raw_id := Some "5b"; raw_name := Some "Long-term Preservation";
         raw_score := JS.VNumber (JS.ofZ 85); raw_status := Some "excellent";
         raw_feedback :=
           Some "Excellent preservation strategy with DOI assignment and 10+ year retention period specified." |};
      {| raw_id := Some "6a"; raw_name := Some "Roles and Responsibilities";
         raw_score := JS.VNumber (JS.ofZ 70); raw_status := Some "fair";
         raw_feedback :=
           Some "Key roles identified but could benefit from more specific assignment of data management tasks." |};
      {| raw_id := Some "6b"; raw_name := Some "Resources";
         raw_score := JS.VNumber (JS.ofZ 65); raw_status := Some "fair";
         raw_feedback :=
           Some "Resource allocation mentioned but needs more detail on budget, personnel time, and infrastructure." |} ] |}.

(** [Math.ceil(text.length / 4)] *)
Definition estimateTokens (text : string) : Z :=
  Qceiling (Qdiv (inject_Z (Z.of_nat (String.length text))) (inject_Z 4)).

(** *** [buildEvaluationPrompt] *)

Definition phaseLabel (phase : string) : string :=
  if String.eqb phase "proposal" then "proposal/early stage"
  else if String.eqb phase "mid" then "mid-project"
  else "end-project".

Definition evaluationSystemPrompt (phase : string) : string :=
  "You are an expert Data Management Plan (DMP) evaluator for " ++ phaseLabel phase
  ++ (String.concat doubleQuote
     [ " research projects.

Your task is to evaluate a DMP document against standardized criteria and provide:
1. Quantitative scores (0-100) for each criterion
2. Qualitative feedback highlighting strengths and areas for improvement

Scoring guidance:
- 90-100: Excellent - Fully addresses criterion with exemplary detail
- 75-89: Good - Adequately addresses criterion with minor gaps
- 60-74: Fair - Partially addresses criterion with notable gaps
- 0-59: Poor - Does not adequately address criterion

You must return your evaluation as a JSON object with this exact structure:
{
  ";
       "overallScore";
       ": <number 0-100>,
  ";
       "categories";
       ": [
    {
      ";
       "id";
       ": ";
       "<criterion ID like 1a, 2b, etc>";
       ",
      ";
       "name";
       ": ";
       "<criterion name>";
       ",
      ";
       "score";
       ": <number 0-100>,
      ";
       "status";
       ": ";
       "<excellent|good|fair|poor>";
       ",
      ";
       "feedback";
       ": ";
       "<detailed feedback string>";
       "
    }
  ]
}" ]).

(** [criteria.categories.map(...).join('\n\n')] *)
Definition criteriaText (criteria : Rubric) : string :=
  String.concat (String "010" (String "010" EmptyString))
    (map (fun cat =>
            "**" ++ entry_id cat ++ ": " ++ entry_name cat ++ "**"
            ++ String "010" (entry_description cat))
         (rubric_categories criteria)).

Definition evaluationUserPrompt (criteria : Rubric) (dmpText phase : string)
  : string :=
  "Please evaluate the following Data Management Plan for the " ++ phase
  ++ " phase.

## EVALUATION CRITERIA

" ++ criteriaText criteria
  ++ "

## DMP DOCUMENT TO EVALUATE

" ++ dmpText
  ++ "

## INSTRUCTIONS

1. Evaluate the DMP against each criterion listed above
2. Assign a score (0-100) and status (excellent/good/fair/poor) for each criterion
3. Provide specific, actionable feedback for each criterion
4. Calculate an overall score as the average of all criteria scores
5. Return the evaluation as a JSON object following the specified structure".

(** The pair of [systemPrompt] and [userPrompt]. *)
Definition buildEvaluationPrompt (criteria : Rubric) (dmpText phase : string)
  : string * string :=
  (evaluationSystemPrompt phase, evaluationUserPrompt criteria dmpText phase).

(** *** The progress callback of the calls *)

(** The object given to the callback: [{type: 'status', content}],
    [{type: 'stream', content, isReasoning}] or
    [{type: 'complete', content}]. *)
Inductive progressMessage : Type :=
| StatusMessage (content : string)
| StreamMessage (content : string) (isReasoning : bool)
| CompleteMessage (content : string).

(** A callback is given by the events that a call of it causes; it does not
    throw.  [None] is [null]. *)
Definition progressCallback : Type := option (progressMessage -> list event).

(** [if (onProgress) onProgress(msg)] *)
Definition report (onProgress : progressCallback) (msg : progressMessage)
  : M unit :=
  match onProgress with
  | Some callback => (callback msg, Normal tt)
  | None => ret tt
  end.

(** The calls of [onProgress] that the calls of [onChunk] make. *)
Definition forward (onProgress : progressCallback) (calls : list event)
  : list event :=
  flat_map
    (fun ev =>
       match ev, onProgress with
       | StreamChunk text isReasoning, Some callback =>
           callback (StreamMessage text isReasoning)
       | _, _ => []
       end)
    calls.

Section Calls.

(** The settings: [isTestMode()], [getAPIKey()] and the property
    [authHeaderTemplate] of the active profile are the fields [testMode],
    [apiKey] and [activeAuthHeaderTemplate]. *)
Variable platform : Platform.
(** [getSelectedModel()] *)
Variable selectedModel : string.
(** The result of [fetch] for a request, in each attempt of
    [retryWithBackoff]. *)
Variable network : Request -> nat -> fetchResult.
(** What the calls read of the response that [retryWithBackoff] returns,
    besides the fields of [Response]: the value of
    [errorData.error?.message], where [errorData] is the JSON body, or an
    empty object when the body cannot be read, which is [Throw] when
    [errorData] is [null]; the header [content-type]; the body as a stream;
    and whether [response.json()] resolves. *)
Variable errorMessageOf : Response -> completion (option string).
Variable contentTypeOf : Response -> option string.
Variable bodyOf : Response -> Stream.
Variable bodyParses : Response -> bool.
(** [JSON.parse], as [parseSSEStream] uses it. *)
Variable JSON_parse : string -> option json.
(** [repairJSON] on the content: the result as [processResults] reads it;
    [None] when it is [null] or falsy. *)
Variable repairJSON : string -> option RawResults.

Definition apiError (response : Response) : M (option string) :=
  do detail <- lift (errorMessageOf response);
  throw (mkError ("API Error " ++ pretty (LLMService.status response) ++ ": "
                  ++ JS.orElseStr detail "Unknown error")).

Definition evaluateDMP (systemPrompt userPrompt : string)
    (onProgress : progressCallback) : M RawResults :=
  if testMode platform then
    do _ <- report onProgress
              (StatusMessage "Using test mode - sample evaluation data");
    do _ <- emit (Delay 1500);
    ret TEST_EVALUATION_DATA
  else
    match apiKey platform with
    | None | Some EmptyString =>
        throw (mkError
          "Together AI API key not configured. Please enter your API key.")
    | Some _ =>
        do _ <- report onProgress
                  (StatusMessage ("Calling " ++ selectedModel ++ "..."));
        do _ <- lift (generateFetchConfig (activeAuthHeaderTemplate platform));
        do response <-
          retryWithBackoff
            (network {| Eff.systemPrompt := systemPrompt;
                        Eff.userPrompt := userPrompt |});
        do content <-
          (if negb (LLMService.ok response) then apiError response
           else if JS.includes (JS.orElseStr (contentTypeOf response) "")
                     "text/event-stream"
           then
             let '(calls, streamed) :=
               parseSSEStream JSON_parse true (bodyOf response) in
             do content <- (forward onProgress calls, streamed);
             do _ <- report onProgress
                       (StatusMessage "Processing complete response...");
             ret (Some content)
           else
             match LLMService.content response with
             | Throw error =>
                 if bodyParses response then
                   do _ <- report onProgress (StatusMessage "Parsing response...");
                   throw error
                 else throw error
             | Normal content =>
                 do _ <- report onProgress (StatusMessage "Parsing response...");
                 ret content
             end);
        match content with
        | None | Some EmptyString =>
            throw (mkError "No content in API response")
        | Some content =>
            match repairJSON content with
            | None =>
                throw (mkError "Failed to parse evaluation results as JSON")
            | Some result =>
                do _ <- report onProgress
                          (CompleteMessage "Evaluation complete!");
                ret result
            end
        end
    end.

(** *** [detectAndConvertCriteria] *)

Record Conversion : Type := mkConversion {
  suitable : bool;
  convertedText : string;
  originalText : string;
  conversionMessage : string;           (* [message] *)
  conversionError : bool                (* [error], [false] when missing *)
}.

(** [/evaluate|assess|check|criteria|score|rating|measure/i.test(text)] *)
Definition hasEvaluationKeywords (text : string) : bool :=
  existsb (JS.includes (JS.toLowerCase text))
    ["evaluate"; "assess"; "check"; "criteria"; "score"; "rating"; "measure"].

(** [/\d+\./.test(text)]: a digit with a dot after it. *)
Fixpoint hasNumberedItem (text : string) : bool :=
  match text with
  | String c ((String d _) as rest) =>
      (JS.isDigit c && Ascii.eqb d ".") || hasNumberedItem rest
  | _ => false
  end.

(** [/\d+\.|###|##|\*\*|criterion|requirement/i.test(text)] *)
Definition hasStructure (text : string) : bool :=
  hasNumberedItem text
  || existsb (JS.includes (JS.toLowerCase text))
       ["###"; "##"; "**"; "criterion"; "requirement"].

Definition conversionSystemPrompt : string :=
  "You are an expert in Data Management Plan (DMP) evaluation. Your task is to convert any DMP-related document, guidelines, or requirements into a clear, structured set of evaluation criteria.

The output should be formatted as evaluation criteria that can be used to assess a DMP, including:
- Clear criterion names/categories
- Specific aspects to evaluate
- What to look for in each area
- Expected standards or requirements

Structure the criteria logically with numbered sections and subsections.".

Definition conversionUserPrompt (criteriaText : string) : string :=
  "Convert the following text into structured DMP evaluation criteria:

" ++ criteriaText
  ++ "

Create comprehensive evaluation criteria that cover all important aspects mentioned in the text. Format as a structured document with clear sections, specific evaluation points, and actionable guidance.".

(** The block of [try] of [detectAndConvertCriteria]. *)
Definition convertCriteria (criteriaText : string) : M Conversion :=
  match apiKey platform with
  | None | Some EmptyString =>
      throw (mkError "API key required for criteria conversion")
  | Some _ =>
      do _ <- lift (generateFetchConfig (activeAuthHeaderTemplate platform));
      do response <-
        retryWithBackoff
          (network {| Eff.systemPrompt := conversionSystemPrompt;
                      Eff.userPrompt := conversionUserPrompt criteriaText |});
      do convertedText <-
        (if negb (LLMService.ok response) then apiError response
         else lift (LLMService.content response));
      match convertedText with
      | None | Some EmptyString => throw (mkError "No content in API response")
      | Some convertedText =>
          ret {| suitable := false;
                 convertedText := convertedText;
                 originalText := criteriaText;
                 conversionMessage :=
                   "Criteria have been converted to evaluation format using AI.";
                 conversionError := false |}
      end
  end.

Definition detectAndConvertCriteria (criteriaText : string)
    (onProgress : progressCallback) : M Conversion :=
  if String.eqb criteriaText ""
     || (String.length (JS.trim criteriaText) <? 50)%nat
  then
    throw (mkError
      "Criteria text is too short. Please provide more detailed evaluation criteria.")
  else
    do _ <- report onProgress (StatusMessage "Analyzing evaluation criteria...");
    if hasEvaluationKeywords criteriaText && hasStructure criteriaText
       && (300 <? String.length criteriaText)%nat
    then
      ret {| suitable := true;
             convertedText := criteriaText;
             originalText := criteriaText;
             conversionMessage :=
               "Criteria format looks good and can be used directly.";
             conversionError := false |}
    else if testMode platform then
      ret {| suitable := false;
             convertedText := criteriaText;
             originalText := criteriaText;
             conversionMessage :=
               "Test mode: Using criteria as-is without AI conversion.";
             conversionError := false |}
    else
      do _ <- report onProgress
                (StatusMessage "Converting criteria to evaluation format...");
      tryCatch (convertCriteria criteriaText)
        (fun error =>
           ret {| suitable := false;
                  convertedText := criteriaText;
                  originalText := criteriaText;
                  conversionMessage :=
                    "Could not convert criteria (" ++ message error
                    ++ "). Using original text.";
                  conversionError := true |}).

End Calls.

End Client.

(** ** The modules linked: the call of the client in [js/evaluator.js] *)

Module App.

Import Eff Json LLMService FileParser CriteriaExtractor Evaluator.

Section Linked.

Variable localeCompare : string -> string -> Z.
Variable platform : Platform.
Variable formatFileSize : Z -> string.
Variable now : string.
Variable selectedModel : string.
Variable network : Request -> nat -> fetchResult.
Variable errorMessageOf : Response -> completion (option string).
Variable contentTypeOf : Response -> option string.
Variable bodyOf : Response -> Stream.
Variable bodyParses : Response -> bool.
Variable JSON_parse : string -> option json.
Variable repairJSON : string -> option RawResults.

(** [LLMService.evaluateDMP] as [evaluate] calls it.  The callback that
    [evaluate] passes puts its argument into a template; the argument is an
    object, which the template prints as [[object Object]].  The callback
    is taken not to throw. *)
Definition evaluateDMP (systemPrompt userPrompt : string)
    (forwardProgress : string -> M unit) : M RawResults :=
  Client.evaluateDMP platform selectedModel network errorMessageOf
    contentTypeOf bodyOf bodyParses JSON_parse repairJSON
    systemPrompt userPrompt
    (Some (fun _ => trace (forwardProgress "[object Object]"))).

(** [Evaluator.evaluate] with the functions of the other modules in the
    place of its parameters. *)
Definition evaluate (criteriaFile dmpFile : option File) (phase : string)
    (onProgress : callback) : M Evaluation :=
  Evaluator.evaluate localeCompare platform formatFileSize
    Client.buildEvaluationPrompt evaluateDMP now selectedModel
    criteriaFile dmpFile phase onProgress.

End Linked.

End App.


(** ** Notions used in the statements *)

Module Spec.

Import JS Eff CriteriaExtractor Evaluator.

(** The order that the comparator given to [sort] induces. *)
Definition before {A} (comparefn : A -> A -> number) (x y : A) : Prop :=
  (sortCompare comparefn x y <= 0)%Z.

(** The id [a] may stand before the id [b]: when both begin with an integer,
    the integer of [a] is smaller, or the integers are equal and
    [localeCompare] does not put [a] after [b]. *)
Definition idOrder (localeCompare : string -> string -> Z) (a b : string)
  : Prop :=
  forall x y, parseInt a = Num x -> parseInt b = Num y ->
              (x < y \/ (x = y /\ localeCompare a b <= 0))%Z.

(** A list of categories is sorted by id: every entry may stand before every
    later one. *)
Definition sortedById (localeCompare : string -> string -> Z)
    (l : list CategoryResult) : Prop :=
  forall i j a b, (i < j)%nat -> l !! i = Some a -> l !! j = Some b ->
                  idOrder localeCompare (id a) (id b).

(** The id of a category begins with an integer. *)
Definition numericId (c : CategoryResult) : Prop := parseInt (id c) <> NaN.

(** The collation by code units, an instance of [localeCompare]; it agrees
    with the collation of the host on ids made of digits and lower-case
    letters. *)
Definition codeUnitCompare (a b : string) : Z :=
  match OrdersEx.String_as_OT.compare a b with
  | Lt => (-1)%Z
  | Eq => 0%Z
  | Gt => 1%Z
  end.

(** A computation that makes no network request. *)
Definition noFetch {A} (m : M A) : Prop := List.filter isFetch (trace m) = [].

(** The object that [evaluate] returns from its [catch] block. *)
Definition failureOf (now : string) (criteriaFile dmpFile : option FileParser.File)
    (phase : string) (message : string) : Evaluation :=
  Failed message
    {| criteriaFile := FileParser.name <$> criteriaFile;
       dmpFile := FileParser.name <$> dmpFile;
       metaPhase := phase;
       evaluationDate := now;
       model := None |}.

(** The base of the delay after which [retryWithBackoff] tries again, for a
    result that it retries: the initial delay after a server error and after
    a network failure, 5000 after a rate limit.  [None] is a result that is
    not retried: a response that is OK, or one with another status. *)
Definition retryBase (initialDelay : Z) (r : LLMService.fetchResult)
  : option Z :=
  match r with
  | LLMService.Fails _ => Some initialDelay
  | LLMService.Responds response =>
      if LLMService.ok response then None
      else if (500 <=? LLMService.status response)%Z then Some initialDelay
      else if (LLMService.status response =? 429)%Z then Some 5000%Z
      else None
  end.

(** The delay awaited after attempt [k], when its result is retried. *)
Definition delayAfter (fetchFn : nat -> LLMService.fetchResult) (k : nat) : Z :=
  (default 0 (retryBase 2000 (fetchFn k)) * 2 ^ Z.of_nat k)%Z.

(** The events of the attempts before attempt [n] when each of them is
    retried: every attempt is followed by its delay. *)
Definition retried (fetchFn : nat -> LLMService.fetchResult) (n : nat)
  : list event :=
  flat_map (fun k => [Attempt k; Delay (delayAfter fetchFn k)]) (seq 0 n).

(** The message of the error thrown after the last attempt, whose call
    failed with [error]. *)
Definition exhaustedMessage (error : Error) : string :=
  "All retry attempts failed. Last error: "
  ++ (if String.eqb (message error) "" then "Unknown error"
      else message error).

(** The error with which [fetch] rejects when the network is down, and a
    function whose every call fails with it. *)
Definition networkError : Error := mkError "Failed to fetch".

Definition alwaysOffline (n : nat) : LLMService.fetchResult :=
  LLMService.Fails networkError.

(** The category id that a line of the table carries: the line is a row of
    three cells or more, neither a header nor a separator, whose first cell
    has a run of digits followed by a letter. *)
Definition rowId (line : string) : option string :=
  if JS.includes line "Proposal/Early Stage" || isSeparatorRow line then None
  else if negb (JS.startsWith line "|") then None
  else
    let cells := rowCells line in
    if (length cells <? 3)%nat then None
    else JS.toLowerCase <$> matchCategoryId (default "" (cells !! 0%nat)).

(** The ids that the rows of the table of [text] carry, in order; there is
    none when [text] has no table marker. *)
Definition tableRowIds (text : string) : list string :=
  let table2Start := JS.indexOf text "Table 2" 0 in
  if (table2Start =? -1)%Z then []
  else omap rowId (JS.split "010" (tableTextOf text (Z.to_nat table2Start))).

(** The ids of the default rubric. *)
Definition defaultIds : list string :=
  ["1a"; "1b"; "2a"; "2b"; "3a"; "3b"; "3c"; "4a"; "4b"; "4c";
   "5a"; "5b"; "5c"; "5d"; "6a"; "6b"].

(** *** Inputs at which the statements are run *)

Definition newline : string := String "010" EmptyString.

(** [s] between double quotes. *)
Definition quoted (s : string) : string :=
  String "034" (s ++ String "034" EmptyString).

(** The line of an event whose delta has the content [text]. *)
Definition contentEvent (text : string) : string :=
  "data: {" ++ quoted "choices" ++ ":[{" ++ quoted "delta" ++ ":{"
    ++ quoted "content" ++ ":" ++ quoted text ++ "}}]}" ++ newline.

(** A stream whose first chunk is the line [data: [DONE]] and whose second
    chunk is an event with the content X. *)
Definition doneThenContent : LLMService.Stream :=
  {| LLMService.chunks := ["data: [DONE]" ++ newline; contentEvent "X"];
     LLMService.readError := None |}.

(** A stream of one chunk: an event with the content A, a line that is not
    JSON, and an event with the content B. *)
Definition malformedBetween : LLMService.Stream :=
  {| LLMService.chunks :=
       [contentEvent "A" ++ "data: {oops" ++ newline ++ contentEvent "B"];
     LLMService.readError := None |}.

(** A criteria document whose table has two rows for the id 1a. *)
Definition repeatedRowText : string :=
  "Table 2: Evaluation criteria" ++ newline
  ++ "| 1a Data | Describe the data collected | Data are described |" ++ newline
  ++ "| 1a Data | Explain the methods used | Methods are explained |".

(** A criteria document whose table has one row for 1a and one for 2b. *)
Definition distinctRowText : string :=
  "Table 2: Evaluation criteria" ++ newline
  ++ "| 1a Data | Describe the data collected | Data are described |" ++ newline
  ++ "| 2b Quality | Explain the quality checks | Checks are explained |".

(** A browser with an API key and the default profile, outside test mode,
    whose endpoint answers every request with the content [Short plan.]. *)
Definition cleanupPlatform : FileParser.Platform :=
  {| FileParser.testMode := false;
     FileParser.apiKey := Some "key";
     FileParser.activeAuthHeaderTemplate := Some "Bearer {API_KEY}";
     FileParser.fetch := fun _ =>
       LLMService.Responds
         {| LLMService.ok := true; LLMService.status := 200;
            LLMService.content := Normal (Some "Short plan.") |};
     FileParser.jsonReformat := fun _ => None;
     FileParser.mammoth := Some (fun _ => Normal "");
     FileParser.pdfjs := None;
     FileParser.htmlText := fun html => html |}.

(** A criteria document in Markdown, without a table. *)
Definition criteriaMd : FileParser.File :=
  {| FileParser.name := "criteria.md"; FileParser.size := 27;
     FileParser.data := Some "Criteria: see the guideline" |}.

(** A legacy Word document: 128 bytes that do not begin a ZIP archive. *)
Definition legacyDoc : FileParser.File :=
  {| FileParser.name := "plan.doc"; FileParser.size := 128;
     FileParser.data :=
       Some "Data management plan draft, exported from an old word processor; it is long enough to pass the first check of the decoder......." |}.

(** A DMP in plain text, of 50 characters. *)
Definition shortTxt : FileParser.File :=
  {| FileParser.name := "plan.txt"; FileParser.size := 50;
     FileParser.data :=
       Some "Our data will be stored on the institute's server." |}.

Definition emptyRaw : RawResults :=
  {| raw_overallScore := VUndefined; raw_categories := None |}.

(** [evaluate] in the browser [cleanupPlatform], with stages after decoding
    that do nothing. *)
Definition evaluateIn (platform : FileParser.Platform)
    (criteriaFile dmpFile : option FileParser.File) : M Evaluation :=
  evaluate codeUnitCompare platform (fun _ => "128 Bytes")
    (fun _ _ _ => ("system", "user")) (fun _ _ _ => ret emptyRaw)
    "2026-01-01T00:00:00.000Z" "model"
    criteriaFile dmpFile "proposal" None.

Definition serverError : LLMService.fetchResult :=
  LLMService.Responds
    {| LLMService.ok := false; LLMService.status := 500;
       LLMService.content := Normal None |}.

Definition okResponse : LLMService.Response :=
  {| LLMService.ok := true; LLMService.status := 200;
     LLMService.content := Normal (Some "{}") |}.

(** A function that fails twice with the status 500 and then succeeds. *)
Definition failsTwice (n : nat) : LLMService.fetchResult :=
  match n with
  | 0%nat | 1%nat => serverError
  | _ => LLMService.Responds okResponse
  end.

Definition rawCategory (i : string) (s : Z) : RawCategory :=
  {| raw_id := Some i; raw_name := Some "Criterion";
     raw_score := VNumber (ofZ s);
     raw_status := None; raw_feedback := Some "Feedback" |}.

Definition rubricEntry (i : string) : RubricEntry :=
  {| entry_id := i; entry_name := "Criterion";
     entry_description := "What the plan must describe" |}.

Definition rubricOf (ids : list string) : Rubric :=
  {| phase := "proposal"; rubric_categories := map rubricEntry ids |}.

(** The model scored 1b and left 1a out. *)
Definition rawOmitting : RawResults :=
  {| raw_overallScore := VUndefined;
     raw_categories := Some [rawCategory "1b" 80] |}.

(** The model scored 1a and a criterion 9z that the rubric does not have. *)
Definition rawExtra : RawResults :=
  {| raw_overallScore := VNumber (ofZ 70);
     raw_categories := Some [rawCategory "1a" 80; rawCategory "9z" 50] |}.

(** The model scored 2a and a category to which it gave no id. *)
Definition rawWithoutId : RawResults :=
  {| raw_overallScore := VNumber (ofZ 70);
     raw_categories :=
       Some [rawCategory "2a" 80;
             {| raw_id := None; raw_name := None;
                raw_score := VNumber (ofZ 60);
                raw_status := None; raw_feedback := None |}] |}.

(** The ids of the example of the specification, in its order. *)
Definition rawShuffled : RawResults :=
  {| raw_overallScore := VUndefined;
     raw_categories :=
       Some [rawCategory "10a" 150; rawCategory "2b" (-5);
             rawCategory "1a" 89; rawCategory "2a" 74] |}.

(** The model gave 1a a score that is no number: the text abc. *)
Definition rawNotANumber : RawResults :=
  {| raw_overallScore := VUndefined;
     raw_categories :=
       Some [{| raw_id := Some "1a"; raw_name := Some "Criterion";
                raw_score := VString "abc";
                raw_status := None; raw_feedback := Some "Feedback" |}] |}.

(** The model gave 1a the score 72.5. *)
Definition rawFractional : RawResults :=
  {| raw_overallScore := VUndefined;
     raw_categories :=
       Some [{| raw_id := Some "1a"; raw_name := Some "Criterion";
                raw_score := VNumber (DFin (Qmake 145 2));
                raw_status := None; raw_feedback := Some "Feedback" |}] |}.

(** *** Notions about scores *)

(** [0 <= x] and [x <= 100], as the language compares: both are false of
    [NaN]. *)
Definition inScoreRange (x : double) : Prop :=
  Double.ge x (ofZ 0) = true /\ Double.ge (ofZ 100) x = true.

(** The integer that a number is, when it is one. *)
Definition integerOf (x : double) : Z :=
  match x with
  | DFin q => Qfloor q
  | _ => 0%Z
  end.

(** The number is an integer. *)
Definition integral (x : double) : Prop := x = ofZ (integerOf x).

(** The sum of the scores of categories whose scores are integers. *)
Definition integerTotal (cats : list CategoryResult) : Z :=
  foldr Z.add 0%Z (map (fun c => integerOf (score c)) cats).

(** *** Notions used in the further properties *)

(** The status of a category is one of the four labels. *)
Definition knownStatus (c : CategoryResult) : Prop :=
  Evaluator.status c ∈ ["excellent"; "good"; "fair"; "poor"].

(** The raw output gives no status to any category: every status of the
    result is derived from a score. *)
Definition statusesDerived (raw : RawResults) : Prop :=
  forall cat, cat ∈ default [] (raw_categories raw) ->
              orElseStr (raw_status cat) "" = "".

(** The text that [extractDocTextWithAI] takes out of the bytes of a legacy
    Word document, before any clean-up by the model. *)
Definition docText (bytes : string) : string :=
  JS.trim
    (FileParser.dropRepetitions
       (FileParser.breakParagraphs
          (FileParser.filterString (fun c => negb (FileParser.isControl c))
             (FileParser.filterString FileParser.keepByte bytes)))).

(** The request by which [cleanTextWithAI] asks for the clean-up of a
    text. *)
Definition cleanupRequest (rawText : string) : Request :=
  {| systemPrompt := FileParser.cleanupSystemPrompt;
     userPrompt := FileParser.cleanupUserPrompt rawText |}.

(** Decoding fails because no decoder handles the extension. *)
Definition unsupported (m : M FileParser.FileData) : Prop :=
  exists e, outcome m = Throw e
            /\ JS.startsWith (message e) "Unsupported file type" = true.

(** No character of the text is a dot. *)
Definition dotFree (s : string) : Prop :=
  Forall (fun c => c <> "."%char) (list_ascii_of_string s).

(** The requests of a trace, in order. *)
Definition requests (t : list event) : list Request :=
  omap (fun ev => match ev with Fetch r => Some r | _ => None end) t.

(** Every character of the text satisfies [P]. *)
Definition allChars (P : ascii -> Prop) (s : string) : Prop :=
  Forall P (list_ascii_of_string s).

(** The browser [cleanupPlatform] in test mode. *)
Definition testPlatform : FileParser.Platform :=
  {| FileParser.testMode := true;
     FileParser.apiKey := FileParser.apiKey cleanupPlatform;
     FileParser.activeAuthHeaderTemplate :=
       FileParser.activeAuthHeaderTemplate cleanupPlatform;
     FileParser.fetch := FileParser.fetch cleanupPlatform;
     FileParser.jsonReformat := FileParser.jsonReformat cleanupPlatform;
     FileParser.mammoth := FileParser.mammoth cleanupPlatform;
     FileParser.pdfjs := FileParser.pdfjs cleanupPlatform;
     FileParser.htmlText := FileParser.htmlText cleanupPlatform |}.

(** The shape of an id that the table gives: one digit or more, and one
    lower-case letter. *)
Definition idShape (s : string) : Prop :=
  exists digits letter,
    s = (digits ++ String letter "")%string
    /\ digits <> ""
    /\ allChars (fun c => isDigit c = true) digits
    /\ inRange 97 122 letter = true.

(** What holds of every entry that the table gives. *)
Definition tableEntry (e : RubricEntry) : Prop :=
  idShape (entry_id e) /\ (10 < String.length (entry_description e))%nat.

(** The cells of a line that the loop of [parseTableRows] does not skip. *)
Definition tableRow (line : string) : option (list string) :=
  if JS.includes line "Proposal/Early Stage" || isSeparatorRow line then None
  else if negb (JS.startsWith line "|") then None
  else
    let cells := rowCells line in
    if (length cells <? 3)%nat then None else Some cells.

(** Two lines are both skipped, or are rows with the same first cell. *)
Definition sameFirstCell (line line' : string) : Prop :=
  match tableRow line, tableRow line' with
  | None, None => True
  | Some cells, Some cells' => cells !! 0%nat = cells' !! 0%nat
  | _, _ => False
  end.

(** A row for 1a and a row that continues it. *)
Definition planRows : string :=
  "| 1a Describe the data collected | Data are listed | Data were listed |"
  ++ newline ++ "| and the methods used to collect them | Methods | Results |".

(** The rows of [planRows] with other second and third cells. *)
Definition otherRows : string :=
  "| 1a Describe the data collected | A | B |"
  ++ newline ++ "| and the methods used to collect them | C | D |".

(** A criteria document whose table has one row, for an id 7a that is not
    one of the sixteen and that nothing follows in its cell. *)
Definition unnamedRow : string :=
  "Table 2: Evaluation criteria" ++ newline
  ++ "| 7a | Describe the software | Software is described |".

(** The id is one that [saveProfile] and [deleteProfile] refuse. *)
Definition reserved (profileId : string) : Prop :=
  profileId ∈ ["together"; "openai"] \/ profileId ∈ APIConfig.inheritedNames.

(** No custom profile is stored under a reserved id. *)
Definition wellFormed (st : APIConfig.Storage) : Prop :=
  forall profileId,
    is_Some (APIConfig.apiCustomProfiles st !! profileId) ->
    ~ reserved profileId.

(** The active id names a profile. *)
Definition resolves (st : APIConfig.Storage) : Prop :=
  is_Some (APIConfig.getProfile st (APIConfig.getActiveProfileId st)).

(** The calls of the module that change the storage. *)
Inductive operation : Type :=
| Save (profileId : string) (config : APIConfig.Profile)
| Delete (profileId : string)
| Activate (profileId : string).

Definition applyOperation (st : APIConfig.Storage) (op : operation)
  : APIConfig.Storage :=
  match op with
  | Save profileId config => fst (APIConfig.saveProfile st profileId config)
  | Delete profileId => fst (APIConfig.deleteProfile st profileId)
  | Activate profileId => APIConfig.setActiveProfileId st profileId
  end.

(** Nothing is stored. *)
Definition emptyStorage : APIConfig.Storage :=
  {| APIConfig.apiActiveProfile := None; APIConfig.apiCustomProfiles := ∅ |}.

(** One custom profile, which is the active one. *)
Definition customStorage : APIConfig.Storage :=
  {| APIConfig.apiActiveProfile := Some "local";
     APIConfig.apiCustomProfiles := {[ "local" := APIConfig.openai ]} |}.

(** An event of the retry loop: an attempt or a delay. *)
Definition retryEvent (ev : event) : Prop :=
  match ev with Attempt _ | Delay _ => True | _ => False end.

(** An event of a call of the client: one of the retry loop, or one that a
    call of the callback causes. *)
Definition callEvent (onProgress : Client.progressCallback) (ev : event)
  : Prop :=
  retryEvent ev
  \/ exists callback msg, onProgress = Some callback /\ ev ∈ callback msg.

(** An event that is no use of the network. *)
Definition offline (ev : event) : Prop :=
  match ev with Fetch _ | Attempt _ => False | _ => True end.

(** A progress message that begins with [AI: ] is the text that a template
    makes of an object. *)
Definition objectText (ev : event) : Prop :=
  match ev with
  | Progress msg =>
      JS.startsWith msg "AI: " = true -> msg = "AI: [object Object]"
  | _ => True
  end.

(** The event is a request. *)
Definition request (ev : event) : Prop := isFetch ev = true.

(** The callback does not throw. *)
Definition quiet (onProgress : callback) : Prop :=
  forall f m, onProgress = Some f -> f m = Normal tt.

(** No character of the text is a line feed. *)
Definition lineFree (s : string) : Prop :=
  allChars (fun c => c <> "010"%char) s.

(** The line of an event whose delta has the content B, without the line
    feed that ends it. *)
Definition unterminatedEvent : string :=
  "data: {" ++ quoted "choices" ++ ":[{" ++ quoted "delta" ++ ":{"
    ++ quoted "content" ++ ":" ++ quoted "B" ++ "}}]}".

(** The endpoint refuses the key. *)
Definition unauthorized : LLMService.fetchResult :=
  LLMService.Responds
    {| LLMService.ok := false; LLMService.status := 401;
       LLMService.content := Normal None |}.

(** A DMP in plain text, of more than 100 characters. *)
Definition longTxt : FileParser.File :=
  {| FileParser.name := "plan.txt"; FileParser.size := 120;
     FileParser.data :=
       Some "Our data will be stored on the institute's server, described with rich metadata, and shared under an open licence." |}.

(** The calls of a callback with the messages given, when there is a
    callback. *)
Definition progress (onProgress : callback) (msgs : list string)
  : list event :=
  match onProgress with
  | Some _ => map Progress msgs
  | None => []
  end.

(** The browser [cleanupPlatform] without an API key. *)
Definition keylessPlatform : FileParser.Platform :=
  {| FileParser.testMode := false;
     FileParser.apiKey := None;
     FileParser.activeAuthHeaderTemplate :=
       FileParser.activeAuthHeaderTemplate cleanupPlatform;
     FileParser.fetch := FileParser.fetch cleanupPlatform;
     FileParser.jsonReformat := FileParser.jsonReformat cleanupPlatform;
     FileParser.mammoth := FileParser.mammoth cleanupPlatform;
     FileParser.pdfjs := FileParser.pdfjs cleanupPlatform;
     FileParser.htmlText := FileParser.htmlText cleanupPlatform |}.

(** The criteria document [distinctRowText] as an HTML file. *)
Definition criteriaHtml : FileParser.File :=
  {| FileParser.name := "criteria.html"; FileParser.size := 160;
     FileParser.data := Some distinctRowText |}.

(** A progress callback that returns. *)
Definition listener : callback := Some (fun _ => Normal tt).

(** [evaluate] with the modules linked, for the phase proposal, against an
    endpoint that refuses the key. *)
Definition appRun (platform : FileParser.Platform) (onProgress : callback)
    (criteriaFile dmpFile : option FileParser.File) : M Evaluation :=
  App.evaluate codeUnitCompare platform (fun _ => "120 Bytes")
    "2026-01-01T00:00:00.000Z" "model"
    (fun _ _ => unauthorized) (fun _ => Normal (Some "Invalid API key"))
    (fun _ => None)
    (fun _ => {| LLMService.chunks := []; LLMService.readError := None |})
    (fun _ => true) Json.parse (fun _ => None)
    criteriaFile dmpFile "proposal" onProgress.

End Spec.


(** * Properties *)

Import JS Eff Json LLMService FileParser CriteriaExtractor Evaluator Spec.
Local Open Scope list_scope.

(** ** Facts about [Array.prototype.sort] *)

Section SortFacts.
Context {A : Type} (comparefn : A -> A -> number).

Lemma sortInsert_nil (x : A) : sortInsert comparefn x [] = [x].
Proof. reflexivity. Qed.

Lemma sortInsert_le (x y : A) (l : list A) :
  (sortCompare comparefn x y <= 0)%Z ->
  sortInsert comparefn x (y :: l) = x :: y :: l.
Proof. intros H. simpl. by rewrite (proj2 (Z.leb_le _ _) H). Qed.

Lemma sortInsert_gt (x y : A) (l : list A) :
  (0 < sortCompare comparefn x y)%Z ->
  sortInsert comparefn x (y :: l) = y :: sortInsert comparefn x l.
Proof. intros H. simpl. by rewrite (proj2 (Z.leb_gt _ _) H). Qed.

Lemma sortInsert_Permutation (x : A) (l : list A) :
  sortInsert comparefn x l ≡ₚ x :: l.
Proof.
  induction l as [|y l IH]; simpl; [done|].
  destruct (sortCompare comparefn x y <=? 0)%Z; [done|].
  rewrite IH. apply Permutation_swap.
Qed.

Lemma sort_Permutation (l : list A) : JS.sort comparefn l ≡ₚ l.
Proof.
  induction l as [|x l IH]; simpl; [done|].
  rewrite sortInsert_Permutation. by rewrite IH.
Qed.

Variable P : A -> Prop.
Hypothesis before_total :
  forall x y, P x -> P y -> ~ before comparefn x y -> before comparefn y x.
Hypothesis before_trans :
  forall x y z, P x -> P y -> P z -> before comparefn x y -> before comparefn y z -> before comparefn x z.

Lemma sortInsert_sorted (x : A) (l : list A) :
  P x -> Forall P l -> StronglySorted (before comparefn) l ->
  StronglySorted (before comparefn) (sortInsert comparefn x l).
Proof.
  intros Hx Hl Hs. induction Hs as [|y l Hs IH Hy]; simpl.
  - repeat constructor.
  - apply Forall_cons in Hl as [Py Pl].
    destruct (sortCompare comparefn x y <=? 0)%Z eqn:E.
    + apply Z.leb_le in E. constructor; [by constructor|].
      constructor; [exact E|].
      rewrite Forall_forall in Hy, Pl. apply Forall_forall. intros z Hz.
      apply (before_trans x y z); auto.
    + apply Z.leb_gt in E. constructor; [by apply IH|].
      rewrite sortInsert_Permutation. constructor; [|done].
      apply before_total; auto. unfold Spec.before. lia.
Qed.

Lemma sort_sorted (l : list A) :
  Forall P l -> StronglySorted (before comparefn) (JS.sort comparefn l).
Proof.
  induction l as [|x l IH]; simpl; intros Hl; [constructor|].
  apply Forall_cons in Hl as [Px Pl].
  apply sortInsert_sorted; auto.
  by rewrite sort_Permutation.
Qed.

End SortFacts.

Lemma fillMissing_app (existingIds : gset string) criteria cats :
  fillMissing existingIds criteria cats
  = cats ++ map placeholder
              (filter (fun c => entry_id c ∉ existingIds) criteria).
Proof.
  unfold fillMissing. revert cats.
  induction criteria as [|c criteria IH]; intros cats; simpl.
  - by rewrite app_nil_r.
  - rewrite IH. rewrite filter_cons. destruct (decide (entry_id c ∈ existingIds)).
    + rewrite decide_False by (intros H; by apply H). done.
    + rewrite decide_True by done. simpl. by rewrite <- app_assoc.
Qed.

Lemma processResults_Permutation lc raw criteria :
  categories (processResults lc raw criteria)
  ≡ₚ mappedCategories raw
     ++ map placeholder
          (filter (fun c => entry_id c ∉ map id (mappedCategories raw))
                  (rubric_categories criteria)).
Proof.
  unfold processResults. simpl. rewrite sort_Permutation, fillMissing_app.
  apply Permutation_app_head.
  erewrite list_filter_iff; [reflexivity|].
  intros c. simpl. by rewrite elem_of_list_to_set.
Qed.

(** ** Facts about [processResults] *)

Lemma map_fmap {A B} (f : A -> B) (l : list A) : map f l = f <$> l.
Proof. reflexivity. Qed.

Lemma NoDup_map_filter {A B} (f : A -> B) (P : A -> Prop)
    `{!forall x, Decision (P x)} (l : list A) :
  NoDup (map f l) -> NoDup (map f (filter P l)).
Proof.
  induction l as [|x l IH]; simpl; [done|].
  intros [Hx Hl]%NoDup_cons. rewrite filter_cons.
  destruct (decide (P x)); [|by apply IH].
  simpl. apply NoDup_cons. split; [|by apply IH].
  intros Hin. apply Hx. rewrite map_fmap in *.
  apply list_elem_of_fmap in Hin as (y & -> & Hy).
  apply list_elem_of_filter in Hy as [_ Hy].
  apply list_elem_of_fmap. by exists y.
Qed.

(** ** Facts about doubles *)

Section DoubleFacts.
Local Open Scope Z_scope.

Lemma roundHalfEven_spec (n d : Z) :
  0 < d ->
  2 * n - d <= 2 * (roundHalfEven n d * d) <= 2 * n + d.
Proof.
  intros Hd. unfold roundHalfEven.
  pose proof (Z.div_mod n d ltac:(lia)) as Hdm.
  pose proof (Z.mod_pos_bound n d Hd) as Hm.
  destruct (Z.compare_spec (2 * (n mod d)) d) as [E | E | E].
  - destruct (Z.even (n / d)); nia.
  - nia.
  - nia.
Qed.

Lemma roundHalfEven_exact (m d : Z) :
  0 < d -> roundHalfEven (m * d) d = m.
Proof.
  intros Hd. unfold roundHalfEven.
  rewrite Z.div_mul, Z.mod_mul by lia.
  destruct (Z.compare_spec (2 * 0) d); first [reflexivity | lia].
Qed.

Lemma Qred_inject_Z (z : Z) : Qred (inject_Z z) = inject_Z z.
Proof. apply Qcanon.Qred_identity. simpl. apply Z.gcd_1_r. Qed.

Lemma Qred_eq_inject_Z (q : Q) (z : Z) :
  Qeq q (inject_Z z) -> Qred q = inject_Z z.
Proof. intros H. rewrite <- Qred_inject_Z. by apply Qred_complete. Qed.

Lemma binade_inject_Z (z : Z) :
  0 < z -> binade (inject_Z z) = Z.log2 z.
Proof.
  intros Hz. unfold binade. cbn [Qnum Qden inject_Z].
  change (Z.log2 1) with 0. rewrite Z.sub_0_r.
  pose proof (Z.log2_nonneg z) as Hnn.
  pose proof (Z.log2_spec z Hz) as [Hlo _].
  replace (Qle_bool (pow2 (Z.log2 z)) (inject_Z z)) with true; [done|].
  symmetry. apply Qle_bool_iff. unfold pow2.
  rewrite (proj2 (Z.leb_le 0 _) Hnn). unfold Qle. simpl. lia.
Qed.

(** An integer of at most 53 bits is a double. *)
Lemma round64_inject_Z (z : Z) :
  Z.abs z <= 2 ^ 53 -> round64 (inject_Z z) = ofZ z.
Proof.
  intros Hz. unfold round64.
  destruct (Qeq_bool (inject_Z z) 0) eqn:E0.
  { apply Qeq_bool_eq in E0. unfold Qeq in E0. simpl in E0.
    assert (z = 0) as -> by lia. reflexivity. }
  assert (z <> 0) as Hnz.
  { intros ->. discriminate. }
  change (Qabs (inject_Z z)) with (inject_Z (Z.abs z)).
  rewrite binade_inject_Z by lia.
  set (e := Z.log2 (Z.abs z)).
  assert (0 <= e <= 53) as He.
  { subst e. split; [apply Z.log2_nonneg|].
    change 53 with (Z.log2 (2 ^ 53)). by apply Z.log2_le_mono. }
  rewrite Z.max_l by lia.
  assert (exists m, roundHalfEven (fst (scaled (inject_Z z) (e - 52)))
                      (snd (scaled (inject_Z z) (e - 52))) = m
                    /\ Qeq (Qmult (inject_Z m) (pow2 (e - 52))) (inject_Z z))
    as (m & Hm & Hq).
  { unfold scaled, pow2. cbn [Qnum Qden inject_Z].
    destruct (Z.leb_spec 0 (e - 52)) as [Hj | Hj]; cbn [fst snd].
    - assert (e = 52 \/ e = 53) as [He' | He'] by lia.
      + rewrite He'. change (52 - 52) with 0. change (1 * 2 ^ 0) with 1.
        exists z. split.
        * rewrite <- (Z.mul_1_r z) at 1. by apply roundHalfEven_exact.
        * unfold Qeq. simpl. lia.
      + rewrite He'. change (53 - 52) with 1. change (1 * 2 ^ 1) with 2.
        assert (Z.abs z = 2 ^ 53) as Habs.
        { pose proof (Z.log2_spec (Z.abs z) ltac:(lia)) as [Hlo _].
          fold e in Hlo. rewrite He' in Hlo. lia. }
        exists (z / 2).
        assert (z = z / 2 * 2) as Hz2.
        { change (2 ^ 53) with 9007199254740992 in Habs.
          destruct (Z.abs_spec z) as [[_ Ha] | [_ Ha]]; rewrite Ha in Habs.
          - rewrite Habs. reflexivity.
          - assert (z = - 9007199254740992) as -> by lia. reflexivity. }
        split.
        * rewrite Hz2 at 1. by apply roundHalfEven_exact.
        * unfold Qeq. simpl. lia.
    - exists (z * 2 ^ (- (e - 52))). split.
      + replace (z * 2 ^ (- (e - 52))) with (z * 2 ^ (- (e - 52)) * 1) at 1 by lia.
        by apply roundHalfEven_exact.
      + unfold Qeq. cbn [Qnum Qden inject_Z Qmult].
        assert (0 < 2 ^ (- (e - 52))) by (apply Z.pow_pos_nonneg; lia).
        rewrite Pos.mul_1_l, Z2Pos.id by done. lia. }
  destruct (scaled (inject_Z z) (e - 52)) as [n d]. cbn [fst snd] in Hm.
  rewrite Hm, (Qred_eq_inject_Z _ z Hq).
  change (Qabs (inject_Z z)) with (inject_Z (Z.abs z)).
  replace (Qle_bool (pow2 1024) (inject_Z (Z.abs z))) with false; [done|].
  symmetry. apply not_true_iff_false. rewrite Qle_bool_iff.
  unfold pow2, Qle. simpl.
  assert (2 ^ 53 < 2 ^ 1024) by (apply Z.pow_lt_mono_r; lia).
  lia.
Qed.

(** The sum of two integers is exact when it has at most 53 bits. *)
Lemma add_ofZ (a b : Z) :
  Z.abs (a + b) <= 2 ^ 53 -> Double.add (ofZ a) (ofZ b) = ofZ (a + b).
Proof.
  intros H. unfold Double.add, ofZ.
  replace (Qplus (inject_Z a) (inject_Z b)) with (inject_Z (a + b)).
  - by apply round64_inject_Z.
  - unfold Qplus, inject_Z. simpl. f_equal. lia.
Qed.

Lemma binade_le (sn : Z) (p : positive) (b : Z) :
  0 < sn -> 0 <= b -> sn < 2 ^ (b + 1) * Zpos p -> binade (Qmake sn p) <= b.
Proof.
  intros Hs Hb Hlt. unfold binade. cbn [Qnum Qden].
  set (e0 := Z.log2 sn - Z.log2 (Z.pos p)).
  assert (e0 <= b + 1) as He0.
  { subst e0.
    assert (Z.log2 sn <= Z.log2 (Z.pos p * 2 ^ (b + 1))) as H
      by (apply Z.log2_le_mono; lia).
    rewrite Z.log2_mul_pow2 in H by lia. lia. }
  destruct (Qle_bool (pow2 e0) (Qmake sn p)) eqn:E; [|lia].
  destruct (Z.eq_dec e0 (b + 1)) as [Heq | Hne]; [|lia].
  exfalso. apply Qle_bool_iff in E. rewrite Heq in E. unfold pow2 in E.
  rewrite (proj2 (Z.leb_le 0 (b + 1))) in E by lia.
  unfold Qle in E. cbn [Qnum Qden inject_Z] in E.
  lia.
Qed.

Lemma Qfloor_half (a : Z) (b : positive) :
  Qfloor (Qplus (Qmake a b) (Qmake 1 2)) = (2 * a + Zpos b) / (2 * Zpos b).
Proof.
  assert (Qeq (Qplus (Qmake a b) (Qmake 1 2))
              (Qmake (2 * a + Zpos b) (2 * b))) as ->.
  { unfold Qeq, Qplus. cbn [Qnum Qden]. lia. }
  reflexivity.
Qed.

(** The mean of integer scores: rounding the quotient to a double does not
    move it across a half. *)
Lemma round_round64 (sn : Z) (p : positive) :
  0 <= sn -> sn < 128 * Zpos p -> Zpos p < 2 ^ 46 ->
  Double.round (round64 (Qmake sn p))
  = ofZ ((2 * sn + Zpos p) / (2 * Zpos p)).
Proof.
  intros Hs Hlt Hp.
  destruct (Z.eq_dec sn 0) as [-> | Hnz].
  { replace (round64 (Qmake 0 p)) with (DFin 0) by reflexivity.
    unfold Double.round. f_equal. change (Qfloor (0 + (Qmake 1 2))) with 0.
    symmetry. apply Z.div_small. lia. }
  unfold round64.
  replace (Qeq_bool (Qmake sn p) 0) with false.
  2:{ symmetry. apply not_true_iff_false. intros E.
      apply Qeq_bool_eq in E. unfold Qeq in E. cbn [Qnum Qden] in E. lia. }
  replace (Qabs (Qmake sn p)) with (Qmake sn p)
    by (unfold Qabs; by rewrite Z.abs_eq by lia).
  pose proof (binade_le sn p 6 ltac:(lia) ltac:(lia) ltac:(simpl; lia)) as He.
  set (j := Z.max (binade (Qmake sn p)) (-1022) - 52).
  assert (j <= -46) as Hj by lia.
  unfold scaled. cbn [Qnum Qden].
  rewrite (proj2 (Z.leb_gt 0 j)) by lia.
  set (P := 2 ^ (- j)).
  assert (2 ^ 46 <= P) as HP by (apply Z.pow_le_mono_r; lia).
  assert (exists P', P = 2 * P') as (P' & HP').
  { exists (2 ^ (- j - 1)). subst P.
    rewrite <- (Z.pow_1_r 2) at 2. rewrite <- Z.pow_add_r by lia.
    f_equal. lia. }
  pose proof (roundHalfEven_spec (sn * P) (Zpos p) ltac:(lia)) as Hm.
  set (m := roundHalfEven (sn * P) (Z.pos p)) in *.
  set (k := (2 * sn + Z.pos p) / (2 * Z.pos p)).
  pose proof (Z.div_mod (2 * sn + Z.pos p) (2 * Z.pos p) ltac:(lia)) as Hk.
  pose proof (Z.mod_pos_bound (2 * sn + Z.pos p) (2 * Z.pos p) ltac:(lia)) as Hk'.
  fold k in Hk.
  assert (0 <= k) as Hk0 by (subst k; apply Z.div_pos; lia).
  assert (k <= 128) as Hk128.
  { subst k. apply Z.lt_succ_r. apply Z.div_lt_upper_bound; lia. }
  assert (0 < P) as HPpos by lia.
  assert (2 * m < P * (2 * k + 1)) as W2.
  { assert (2 * sn + 1 <= Z.pos p * (2 * k + 1)) as H1 by lia.
    assert ((2 * sn + 1) * P <= Z.pos p * (2 * k + 1) * P) as H2
      by (apply Z.mul_le_mono_nonneg_r; lia).
    assert (2 * (m * Z.pos p) < Z.pos p * (P * (2 * k + 1))) as H3 by lia.
    apply (Z.mul_lt_mono_pos_l (Z.pos p)); lia. }
  assert (P' * (2 * k - 1) <= m) as W1.
  { assert (Z.pos p * (2 * k - 1) <= 2 * sn) as H1 by lia.
    assert (Z.pos p * (2 * k - 1) * P <= 2 * sn * P) as H2
      by (apply Z.mul_le_mono_nonneg_r; lia).
    assert (Z.pos p * (P * (2 * k - 1) - 1) <= Z.pos p * (2 * m)) as H3 by lia.
    apply Z.mul_le_mono_pos_l in H3; [|lia].
    rewrite HP' in H3. lia. }
  assert (0 <= m) as Hm0.
  { destruct (Z.le_gt_cases 1 k) as [Hk1 | Hk1].
    - assert (0 <= P' * (2 * k - 1)) by (apply Z.mul_nonneg_nonneg; lia). lia.
    - assert (k = 0) as Hk00 by lia.
      destruct (Z.le_gt_cases 0 m) as [|Hneg]; [done|].
      assert (m * Z.pos p <= -1 * Z.pos p) by (apply Z.mul_le_mono_nonneg_r; lia).
      assert (0 < sn * P) by (apply Z.mul_pos_pos; lia).
      lia. }
  assert (Qeq (Qmult (inject_Z m) (pow2 j)) (Qmake m (Z.to_pos P))) as Hq.
  { unfold pow2. rewrite (proj2 (Z.leb_gt 0 j)) by lia. fold P.
    unfold Qeq, Qmult. cbn [Qnum Qden inject_Z]. rewrite Pos.mul_1_l. lia. }
  set (r := Qred (Qmult (inject_Z m) (pow2 j))).
  assert (Qeq r (Qmake m (Z.to_pos P))) as Hr
    by (subst r; rewrite Qred_correct; exact Hq).
  replace (Qle_bool (pow2 1024) (Qabs r)) with false.
  2:{ symmetry. apply not_true_iff_false. rewrite Qle_bool_iff.
      rewrite Hr. change (pow2 1024) with (inject_Z (2 ^ 1024)).
      unfold Qabs, Qle. cbn [Qnum Qden inject_Z].
      rewrite Z.abs_eq by done. rewrite Z2Pos.id by done.
      assert (2 ^ 8 * P <= 2 ^ 1024 * P).
      { apply Z.mul_le_mono_nonneg_r; [lia|]. apply Z.pow_le_mono_r; lia. }
      assert (2 * m < P * 257) by nia.
      change (2 ^ 8) with 256 in *.
      lia. }
  unfold Double.round. f_equal.
  rewrite (Qfloor_comp _ (Qplus (Qmake m (Z.to_pos P)) (Qmake 1 2)))
    by (by rewrite Hr).
  rewrite Qfloor_half. rewrite Z2Pos.id by done.
  symmetry. apply (Z.div_unique _ _ _ (2 * m + P - 2 * P * k)); [|lia].
  left. rewrite HP' in *. nia.
Qed.

Lemma round_divLength (s : Z) (n : nat) :
  0 <= s -> s < 128 * Z.of_nat n -> Z.of_nat n < 2 ^ 46 ->
  Double.round (Double.divLength (ofZ s) n)
  = ofZ ((2 * s + Z.of_nat n) / (2 * Z.of_nat n)).
Proof.
  intros Hs Hlt Hn. unfold Double.divLength, ofZ.
  destruct n as [|n]; [simpl in Hlt; lia|].
  cbn [Nat.eqb].
  replace (Qdiv (inject_Z s) (inject_Z (Z.of_nat (S n))))
    with (Qmake s (Pos.of_succ_nat n)).
  - rewrite round_round64; [|done|..].
    + by rewrite Zpos_P_of_succ_nat, <- Nat2Z.inj_succ.
    + by rewrite Zpos_P_of_succ_nat, <- Nat2Z.inj_succ.
    + by rewrite Zpos_P_of_succ_nat, <- Nat2Z.inj_succ.
  - unfold Qdiv, Qmult, Qinv, inject_Z. cbn [Qnum Qden Z.of_nat].
    rewrite Z.mul_1_r. reflexivity.
Qed.

Lemma ge_ofZ (a b : Z) : Double.ge (ofZ a) (ofZ b) = (b <=? a).
Proof.
  unfold Double.ge, Double.lt, ofZ, Qle_bool. simpl.
  rewrite !Z.mul_1_r. by destruct (b <=? a).
Qed.

Lemma lt_ofZ (a b : Z) : Double.lt (ofZ a) (ofZ b) = (a <? b).
Proof.
  unfold Double.lt, ofZ, Qle_bool. simpl.
  rewrite !Z.mul_1_r. apply eq_sym, Z.ltb_antisym.
Qed.

Lemma integerOf_ofZ (z : Z) : integerOf (ofZ z) = z.
Proof. unfold integerOf, ofZ. apply Qfloor_Z. Qed.

Lemma integral_ofZ (z : Z) : integral (ofZ z).
Proof. unfold integral. by rewrite integerOf_ofZ. Qed.

Lemma ofZ_inj (a b : Z) : ofZ a = ofZ b -> a = b.
Proof. intros [= H]. exact H. Qed.

End DoubleFacts.

(** [Math.min(100, Math.max(0, x))] *)
Lemma clamp_cases (x : double) :
  match x with
  | DNaN => Double.min (ofZ 100) (Double.max (ofZ 0) x) = DNaN
  | DInf negative =>
      Double.min (ofZ 100) (Double.max (ofZ 0) x)
      = if negative then ofZ 0 else ofZ 100
  | DFin q =>
      Double.min (ofZ 100) (Double.max (ofZ 0) x)
      = if Qle_bool q (inject_Z 0) then ofZ 0
        else if Qle_bool (inject_Z 100) q then ofZ 100 else DFin q
  end.
Proof.
  destruct x as [|[|]|q]; try reflexivity.
  unfold Double.min, Double.max, Double.lt, ofZ.
  cbn [isNaN orb].
  destruct (Qle_bool q (inject_Z 0)) eqn:E0; cbn [negb isNaN orb].
  - reflexivity.
  - destruct (Qle_bool (inject_Z 100) q) eqn:E1; cbn [negb]; reflexivity.
Qed.

Lemma ge_DFin (a b : Q) :
  Double.ge (DFin a) (DFin b) = Qle_bool b a.
Proof.
  unfold Double.ge, Double.lt. cbn [isNaN negb andb].
  by destruct (Qle_bool b a).
Qed.

Lemma Qle_bool_false (a b : Q) :
  Qle_bool a b = false -> Qle_bool b a = true.
Proof.
  unfold Qle_bool. intros H%Z.leb_gt. apply Z.leb_le. lia.
Qed.

(** A score that is a number lies between 0 and 100. *)
Lemma clamp_range (x : double) :
  x <> DNaN ->
  inScoreRange (Double.min (ofZ 100) (Double.max (ofZ 0) x)).
Proof.
  intros Hx. pose proof (clamp_cases x) as H.
  destruct x as [|[|]|q]; [done|rewrite H..]; try (by split).
  unfold inScoreRange.
  destruct (Qle_bool q (inject_Z 0)) eqn:E0; [by split|].
  destruct (Qle_bool (inject_Z 100) q) eqn:E1; [by split|].
  unfold ofZ. rewrite !ge_DFin.
  split; by apply Qle_bool_false.
Qed.

(** A score is [NaN] exactly when the raw score converts to [NaN]. *)
Lemma clamp_NaN (x : double) :
  Double.min (ofZ 100) (Double.max (ofZ 0) x) = DNaN <-> x = DNaN.
Proof.
  pose proof (clamp_cases x) as H.
  destruct x as [|[|]|q]; rewrite H; try (split; done).
  destruct (Qle_bool q (inject_Z 0)); [split; discriminate|].
  destruct (Qle_bool (inject_Z 100) q); split; discriminate.
Qed.

Lemma clamp_ofZ (z : Z) :
  Double.min (ofZ 100) (Double.max (ofZ 0) (ofZ z)) = ofZ (clamp 0 100 z).
Proof.
  pose proof (clamp_cases (ofZ z)) as H. cbn [ofZ] in H. fold (ofZ z) in H.
  rewrite H. unfold Qle_bool, clamp. cbn [Qnum Qden inject_Z].
  rewrite ?Z.mul_1_r.
  destruct (Z.leb_spec z 0); [f_equal; lia|].
  destruct (Z.leb_spec 100 z); f_equal; lia.
Qed.

(** An integer score lies between 0 and 100. *)
Lemma clamp_integer (x : double) (z : Z) :
  Double.min (ofZ 100) (Double.max (ofZ 0) x) = ofZ z -> (0 <= z <= 100)%Z.
Proof.
  pose proof (clamp_cases x) as H.
  destruct x as [|[|]|q]; rewrite H; try discriminate;
    try (intros Heq; apply ofZ_inj in Heq; lia).
  destruct (Qle_bool q (inject_Z 0)) eqn:E0; [intros Heq; apply ofZ_inj in Heq; lia|].
  destruct (Qle_bool (inject_Z 100) q) eqn:E1; [intros Heq; apply ofZ_inj in Heq; lia|].
  intros [= ->]. unfold Qle_bool in *. cbn [Qnum Qden inject_Z] in *.
  apply Z.leb_gt in E0, E1. lia.
Qed.

Lemma determineStatus_clamp (x : double) :
  determineStatus (Double.min (ofZ 100) (Double.max (ofZ 0) x))
  = determineStatus x.
Proof.
  pose proof (clamp_cases x) as H.
  destruct x as [|[|]|q]; rewrite H; try reflexivity.
  destruct (Qle_bool q (inject_Z 0)) eqn:E0.
  - unfold determineStatus, Double.ge, Double.lt, ofZ, Qle_bool in *.
    cbn [isNaN negb andb Qnum Qden inject_Z] in *.
    rewrite ?negb_involutive, ?Z.mul_1_r in *. apply Z.leb_le in E0.
    repeat match goal with
           | |- context [(?a <=? ?b)%Z] => destruct (Z.leb_spec a b)
           end; try reflexivity; lia.
  - destruct (Qle_bool (inject_Z 100) q) eqn:E1; [|reflexivity].
    unfold determineStatus, Double.ge, Double.lt, ofZ, Qle_bool in *.
    cbn [isNaN negb andb Qnum Qden inject_Z] in *.
    rewrite ?negb_involutive, ?Z.mul_1_r in *. apply Z.leb_le in E1.
    repeat match goal with
           | |- context [(?a <=? ?b)%Z] => destruct (Z.leb_spec a b)
           end; try reflexivity; lia.
Qed.

Lemma determineStatus_ofZ (z : Z) :
  determineStatus (ofZ z)
  = if (90 <=? z)%Z then "excellent"
    else if (75 <=? z)%Z then "good"
    else if (60 <=? z)%Z then "fair"
    else "poor".
Proof. unfold determineStatus. by rewrite !ge_ofZ. Qed.

Lemma score_normalizeCategory (cat : RawCategory) :
  score (normalizeCategory cat)
  = Double.min (ofZ 100) (Double.max (ofZ 0) (rawScore cat)).
Proof. reflexivity. Qed.

Lemma score_placeholder (e : RubricEntry) : score (placeholder e) = ofZ 0.
Proof. reflexivity. Qed.

(** The sum of integer scores between 0 and 100 is exact. *)
Lemma sum_integers (scores : list double) (acc : Z) :
  Forall (fun x => integral x /\ (0 <= integerOf x <= 100)%Z) scores ->
  (0 <= acc)%Z ->
  (acc + 100 * Z.of_nat (length scores) <= 2 ^ 53)%Z ->
  fold_left Double.add scores (ofZ acc)
  = ofZ (acc + foldr Z.add 0%Z (map integerOf scores))
  /\ (0 <= foldr Z.add 0%Z (map integerOf scores)
      <= 100 * Z.of_nat (length scores))%Z.
Proof.
  revert acc. induction scores as [|x scores IH]; intros acc Hall Hacc Hbound.
  - simpl. split; [f_equal; lia | lia].
  - apply Forall_cons in Hall as [[Hx Hr] Hall].
    cbn [fold_left map foldr length] in *. rewrite Hx.
    rewrite add_ofZ by lia. rewrite integerOf_ofZ.
    destruct (IH (acc + integerOf x)%Z Hall ltac:(lia) ltac:(lia))
      as [Hsum Hrange].
    rewrite Hsum. split; [f_equal; lia | lia].
Qed.

Lemma sumScores_fold (cats : list CategoryResult) :
  sumScores cats = fold_left Double.add (map score cats) (ofZ 0).
Proof.
  unfold sumScores. generalize (ofZ 0).
  induction cats as [|c cats IH]; intros acc; simpl; [done | apply IH].
Qed.

Lemma bound_of_length (n : nat) :
  (Z.of_nat n < 2 ^ 32)%Z -> (0 + 100 * Z.of_nat n <= 2 ^ 53)%Z.
Proof.
  intros H. change (2 ^ 32)%Z with 4294967296%Z in H.
  change (2 ^ 53)%Z with 9007199254740992%Z. lia.
Qed.

(** The sum and the rounded mean of scores that are integers between 0 and
    100, for an array of fewer than 2^32 elements. *)
Lemma integer_scores (scores : list double) :
  Forall (fun x => integral x /\ (0 <= integerOf x <= 100)%Z) scores ->
  (Z.of_nat (length scores) < 2 ^ 32)%Z ->
  let total := foldr Z.add 0%Z (map integerOf scores) in
  let count := Z.of_nat (length scores) in
  fold_left Double.add scores (ofZ 0) = ofZ total
  /\ (0 <= total <= 100 * count)%Z
  /\ (scores <> [] ->
      Double.round (Double.divLength (ofZ total) (length scores))
      = ofZ ((2 * total + count) / (2 * count))%Z).
Proof.
  intros Hall Hlen total count.
  destruct (sum_integers scores 0 Hall ltac:(lia) (bound_of_length _ Hlen))
    as [Hsum Hrange].
  split; [exact Hsum|]. split; [exact Hrange|]. intros Hne.
  assert (0 < count)%Z by (subst count; destruct scores; [done | simpl; lia]).
  apply round_divLength; [lia | lia |].
  change (2 ^ 32)%Z with 4294967296%Z in Hlen.
  change (2 ^ 46)%Z with 70368744177664%Z. lia.
Qed.

Lemma integerTotal_map (cats : list CategoryResult) :
  integerTotal cats = foldr Z.add 0%Z (map integerOf (map score cats)).
Proof. unfold integerTotal. by rewrite map_map. Qed.

Lemma sumScores_foldr (cats : list CategoryResult) :
  foldr Z.add 0%Z (map integerOf (map score cats)) = integerTotal cats.
Proof. by rewrite integerTotal_map. Qed.

(** [Math.round] of a quotient of integers, in integer arithmetic. *)
Lemma Math_round_div (s l : Z) :
  (0 < l)%Z ->
  Math_round (Qdiv (inject_Z s) (inject_Z l)) = ((2 * s + l) / (2 * l))%Z.
Proof.
  intros Hl. unfold Math_round.
  assert (Qeq (Qplus (Qdiv (inject_Z s) (inject_Z l)) (1 # 2))
              (Qmake (2 * s + l) (Z.to_pos (2 * l)))) as ->.
  { unfold Qeq, Qplus, Qdiv, Qmult, Qinv, inject_Z. simpl.
    destruct l as [|p|p]; try lia. simpl. lia. }
  unfold Qfloor. rewrite Z2Pos.id by lia. reflexivity.
Qed.

Lemma rounded_quotient_spec (s l : Z) :
  (0 < l)%Z ->
  let r := ((2 * s + l) / (2 * l))%Z in
  (2 * s - l < 2 * l * r <= 2 * s + l)%Z.
Proof.
  intros Hl r.
  pose proof (Z.div_mod (2 * s + l) (2 * l) ltac:(lia)) as Hd.
  pose proof (Z.mod_pos_bound (2 * s + l) (2 * l) ltac:(lia)) as Hm.
  fold r in Hd. lia.
Qed.

Lemma elem_of_processResults lc raw criteria (c : CategoryResult) :
  (c ∈ categories (processResults lc raw criteria)) <->
  (c ∈ mappedCategories raw
   \/ (exists e, e ∈ rubric_categories criteria
                 /\ (entry_id e ∉ map id (mappedCategories raw))
                 /\ c = placeholder e)).
Proof.
  rewrite processResults_Permutation, elem_of_app, map_fmap, list_elem_of_fmap.
  split; (intros [H | (e & H1 & H2)]; [by left | right; exists e]).
  - apply list_elem_of_filter in H2 as [H2 H3]. done.
  - destruct H2 as [H2 ->]. split; [done|]. by apply list_elem_of_filter.
Qed.

Lemma elem_of_mappedCategories (raw : RawResults) (c : CategoryResult) :
  c ∈ mappedCategories raw ->
  exists cat, c = normalizeCategory cat
              /\ cat ∈ default [] (raw_categories raw).
Proof.
  unfold mappedCategories. destruct (raw_categories raw) as [cats|]; simpl.
  - rewrite map_fmap. intros (cat & -> & Hcat)%list_elem_of_fmap. by exists cat.
  - intros H. by apply elem_of_nil in H.
Qed.

Lemma overallScore_processResults lc raw criteria :
  overallScore (processResults lc raw criteria)
  = recalculate (orZero (raw_overallScore raw)) (mappedCategories raw).
Proof. reflexivity. Qed.

Lemma orZero_truthy (v : jsValue) : isTruthy v = true -> orZero v = v.
Proof. unfold orZero. by intros ->. Qed.

Lemma orZero_falsy (v : jsValue) :
  isTruthy v = false -> orZero v = VNumber (ofZ 0).
Proof. unfold orZero. by intros ->. Qed.

Lemma recalculate_truthy (v : jsValue) (cats : list CategoryResult) :
  isTruthy v = true -> recalculate v cats = v.
Proof.
  intros Hv. unfold recalculate. rewrite Hv.
  replace (strictEqZero v) with false; [done|].
  destruct v as [| |b|x|s|s]; try done.
  simpl in *. by destruct (isNaN x), (isZero x).
Qed.

Lemma recalculate_zero (cats : list CategoryResult) :
  cats <> [] ->
  recalculate (VNumber (ofZ 0)) cats
  = VNumber (Double.round (Double.divLength (sumScores cats) (length cats))).
Proof.
  intros Hne. unfold recalculate. simpl.
  destruct cats as [|c cats]; [done|]. reflexivity.
Qed.

(** The scores of the categories that the raw output has are clamped, so an
    integer among them lies between 0 and 100. *)
Lemma mappedCategories_integers (raw : RawResults) :
  Forall (fun c => integral (score c)) (mappedCategories raw) ->
  Forall (fun x => integral x /\ (0 <= integerOf x <= 100)%Z)
         (map score (mappedCategories raw)).
Proof.
  intros Hall. rewrite Forall_forall in Hall. apply Forall_forall.
  intros x Hx. rewrite map_fmap in Hx.
  apply list_elem_of_fmap in Hx as (c & -> & Hc).
  split; [by apply Hall|].
  destruct (elem_of_mappedCategories raw c Hc) as (cat & -> & _).
  apply (clamp_integer (rawScore cat)). rewrite <- score_normalizeCategory.
  by apply Hall.
Qed.

Lemma integerOf_placeholders (l : list RubricEntry) :
  foldr Z.add 0%Z (map integerOf (map score (map placeholder l))) = 0%Z.
Proof. induction l; simpl; [done|]. rewrite IHl. reflexivity. Qed.

Lemma foldr_add_Permutation (l k : list Z) :
  l ≡ₚ k -> foldr Z.add 0%Z l = foldr Z.add 0%Z k.
Proof. induction 1; simpl; lia. Qed.

Lemma foldr_add_app (l k : list Z) :
  foldr Z.add 0%Z (l ++ k) = (foldr Z.add 0 l + foldr Z.add 0 k)%Z.
Proof. induction l; simpl; lia. Qed.

(** The integer scores of the result add up to those of the categories that
    the raw output has: a placeholder adds nothing. *)
Lemma processResults_sum lc raw criteria :
  integerTotal (categories (processResults lc raw criteria))
  = integerTotal (mappedCategories raw).
Proof.
  rewrite !integerTotal_map.
  rewrite (foldr_add_Permutation _ _
             (Permutation_map integerOf
                (Permutation_map score
                   (processResults_Permutation lc raw criteria)))).
  rewrite !map_app, foldr_add_app, integerOf_placeholders. lia.
Qed.

(** The overall score that is recomputed from integer scores. *)
Lemma recalculate_integers lc raw criteria :
  isTruthy (raw_overallScore raw) = false ->
  mappedCategories raw <> [] ->
  Forall (fun c => integral (score c)) (mappedCategories raw) ->
  (Z.of_nat (length (mappedCategories raw)) < 2 ^ 32)%Z ->
  let total := integerTotal (mappedCategories raw) in
  let count := Z.of_nat (length (mappedCategories raw)) in
  overallScore (processResults lc raw criteria)
  = VNumber (ofZ ((2 * total + count) / (2 * count))%Z)
  /\ (0 <= total <= 100 * count)%Z.
Proof.
  intros Hraw Hne Hint Hlen total count.
  rewrite overallScore_processResults, (orZero_falsy _ Hraw).
  rewrite recalculate_zero by done.
  pose proof (integer_scores (map score (mappedCategories raw))
                (mappedCategories_integers raw Hint)) as H.
  rewrite length_map in H. destruct (H Hlen) as (Hsum & Hrange & Hmean).
  rewrite sumScores_fold, Hsum, Hmean.
  - rewrite sumScores_foldr in *. by split.
  - intros Hnil. apply Hne. by destruct (mappedCategories raw).
Qed.

(** ** Claims about [processResults] *)

(** The scores that are numbers.  A score of the result is [NaN] exactly
    when the raw score converts to [NaN], and every other score lies between
    0 and 100:
    a missing score becomes 0, a score of -5 becomes 0, a score of 150
    becomes 100 and a score between 0 and 100 is kept.  When a raw category
    carries no status, the status of its result is the one that
    [determineStatus] derives from the score of the result; and
    [determineStatus] maps 90 to excellent, 89 and 75 to good, 74 and 60 to
    fair, 59 and 0 to poor. *)
Theorem processResults_scores_numeric
    (lc : string -> string -> Z) (raw : RawResults) (criteria : Rubric) :
  (forall c, c ∈ categories (processResults lc raw criteria) ->
             score c = DNaN \/ inScoreRange (score c))
  /\ (forall cats cat,
        raw_categories raw = Some cats -> cat ∈ cats ->
        normalizeCategory cat ∈ categories (processResults lc raw criteria)
        /\ (score (normalizeCategory cat) = DNaN <-> rawScore cat = DNaN)
        /\ (isTruthy (raw_score cat) = false ->
            score (normalizeCategory cat) = ofZ 0)
        /\ (raw_score cat = VNumber (ofZ (-5)) ->
            score (normalizeCategory cat) = ofZ 0)
        /\ (raw_score cat = VNumber (ofZ 150) ->
            score (normalizeCategory cat) = ofZ 100)
        /\ (forall s, raw_score cat = VNumber (ofZ s) -> (0 <= s <= 100)%Z ->
                      score (normalizeCategory cat) = ofZ s)
        /\ (raw_status cat = None ->
            status (normalizeCategory cat)
            = determineStatus (score (normalizeCategory cat))))
  /\ determineStatus (ofZ 90) = "excellent"
  /\ determineStatus (ofZ 89) = "good"
  /\ determineStatus (ofZ 75) = "good"
  /\ determineStatus (ofZ 74) = "fair"
  /\ determineStatus (ofZ 60) = "fair"
  /\ determineStatus (ofZ 59) = "poor"
  /\ determineStatus (ofZ 0) = "poor".
Proof.
  split; [|split; [|repeat split; reflexivity]].
  - intros c [Hc | (e & _ & _ & ->)]%elem_of_processResults.
    + destruct (elem_of_mappedCategories raw c Hc) as (cat & -> & _).
      rewrite score_normalizeCategory.
      destruct (rawScore cat) as [| |] eqn:E; [by left|right..];
        apply clamp_range; discriminate.
    + right. by split.
  - intros cats cat Hraw Hcat. split; [|split; [|repeat split]].
    + apply elem_of_processResults. left. unfold mappedCategories. rewrite Hraw.
      rewrite map_fmap. apply list_elem_of_fmap. by exists cat.
    + rewrite score_normalizeCategory. apply clamp_NaN.
    + intros H. rewrite score_normalizeCategory. unfold rawScore.
      by rewrite (orZero_falsy _ H).
    + intros H. rewrite score_normalizeCategory. unfold rawScore.
      by rewrite H.
    + intros H. rewrite score_normalizeCategory. unfold rawScore.
      by rewrite H.
    + intros s H Hs. rewrite score_normalizeCategory. unfold rawScore.
      rewrite H.
      destruct (Z.eq_dec s 0%Z) as [-> | Hnz]; [reflexivity|].
      replace (orZero (VNumber (ofZ s))) with (VNumber (ofZ s)).
      * cbn [ToNumber]. rewrite clamp_ofZ. f_equal. unfold clamp. lia.
      * symmetry. apply orZero_truthy. unfold isTruthy, isZero, ofZ, Qeq_bool.
        cbn [isNaN negb andb Qnum Qden inject_Z].
        rewrite Z.mul_1_r. change (0 * 1)%Z with 0%Z.
        destruct (Z.eqb_spec s 0); [lia | done].
    + intros H. cbn [status normalizeCategory]. rewrite H.
      cbn [orElseStr]. rewrite score_normalizeCategory.
      by rewrite determineStatus_clamp.
Qed.

(** C5, the code at the failing input.  The raw output gives the category 1a
    the score abc, a text that is no number.  [ToNumber] of it is [NaN],
    which [Math.max] and [Math.min] pass on: the score of the result is
    [NaN], for which neither [0 <= score] nor [score <= 100] holds; its
    status is poor, and the overall score recomputed from it is [NaN]. *)
Theorem processResults_score_not_clamped :
  map score
    (categories (processResults codeUnitCompare rawNotANumber (rubricOf ["1a"])))
  = [DNaN]
  /\ map Evaluator.status
       (categories (processResults codeUnitCompare rawNotANumber
                      (rubricOf ["1a"])))
     = ["poor"]
  /\ overallScore (processResults codeUnitCompare rawNotANumber (rubricOf ["1a"]))
     = VNumber DNaN
  /\ Double.ge DNaN (ofZ 0) = false
  /\ Double.ge (ofZ 100) DNaN = false
  /\ ~ inScoreRange DNaN.
Proof.
  repeat split; try (vm_compute; reflexivity).
  intros [H _]. discriminate.
Qed.

(** C6.  [processResults] takes the overall score from the raw output when it
    is truthy.  When it is missing, zero or falsy otherwise, the overall
    score is [Math.round] of the quotient of the sum of the scores of the
    normalised categories by their number, and it is 0 when there are no
    categories.  For scores that are integers the quotient is the exact
    mean: the overall score is the mean rounded to the nearest integer, a
    tie going up. *)
Theorem processResults_overallScore
    (lc : string -> string -> Z) (raw : RawResults) (criteria : Rubric) :
  let cats := mappedCategories raw in
  let total := integerTotal cats in
  let count := Z.of_nat (length cats) in
  let r := overallScore (processResults lc raw criteria) in
  (isTruthy (raw_overallScore raw) = true -> r = raw_overallScore raw)
  /\ (isTruthy (raw_overallScore raw) = false ->
      (cats <> [] ->
       r = VNumber (Double.round
                      (Double.divLength (sumScores cats) (length cats)))
       /\ (Forall (fun c => integral (score c)) cats ->
           (count < 2 ^ 32)%Z ->
           exists k,
             r = VNumber (ofZ k)
             /\ k = Math_round (Qdiv (inject_Z total) (inject_Z count))
             /\ (2 * total - count < 2 * count * k <= 2 * total + count)%Z))
      /\ (cats = [] -> r = VNumber (ofZ 0))).
Proof.
  intros cats total count r. subst r. rewrite overallScore_processResults.
  fold cats. split.
  - intros Hraw. rewrite (orZero_truthy _ Hraw). by apply recalculate_truthy.
  - intros Hraw. rewrite (orZero_falsy _ Hraw). split.
    + intros Hne. split; [by apply recalculate_zero|].
      intros Hint Hlen.
      assert (0 < count)%Z as Hpos
        by (subst count; destruct cats; [done | simpl; lia]).
      destruct (recalculate_integers lc raw criteria Hraw Hne Hint Hlen)
        as [Hr _].
      rewrite overallScore_processResults, (orZero_falsy _ Hraw) in Hr.
      fold cats total count in Hr.
      exists ((2 * total + count) / (2 * count))%Z.
      split; [exact Hr|]. split.
      * by rewrite Math_round_div.
      * by apply rounded_quotient_spec.
    + intros ->. reflexivity.
Qed.

(** C10.  The overall score that [processResults] returns does not depend on
    the rubric, hence not on the placeholders appended for it; when it is
    recomputed, the sum and the number are those of the categories that the
    raw output has.  For scores that are integers it is the sum of the
    scores of the whole result, to which a placeholder adds nothing, divided
    by the number of categories that the raw output has, and rounded. *)
Theorem overallScore_ignores_placeholders
    (lc : string -> string -> Z) (raw : RawResults) (criteria criteria' : Rubric) :
  overallScore (processResults lc raw criteria)
  = overallScore (processResults lc raw criteria')
  /\ (isTruthy (raw_overallScore raw) = false ->
      mappedCategories raw <> [] ->
      let r := overallScore (processResults lc raw criteria) in
      let total := integerTotal (categories (processResults lc raw criteria)) in
      let present := Z.of_nat (length (mappedCategories raw)) in
      r = VNumber (Double.round
                     (Double.divLength (sumScores (mappedCategories raw))
                        (length (mappedCategories raw))))
      /\ (Forall (fun c => integral (score c)) (mappedCategories raw) ->
          (present < 2 ^ 32)%Z ->
          exists k,
            r = VNumber (ofZ k)
            /\ (2 * total - present < 2 * present * k <= 2 * total + present)%Z)).
Proof.
  split; [reflexivity|].
  intros Hraw Hne r total present. subst r total. split.
  - rewrite overallScore_processResults, (orZero_falsy _ Hraw).
    by apply recalculate_zero.
  - intros Hint Hlen.
    destruct (recalculate_integers lc raw criteria Hraw Hne Hint Hlen)
      as [Hr _].
    rewrite processResults_sum. eexists. split; [exact Hr|].
    apply rounded_quotient_spec.
    subst present. destruct (mappedCategories raw); [done | simpl; lia].
Qed.

(** C1, as amended.  Every rubric entry whose id the raw output omits is in
    the result as its placeholder, and every rubric id is an id of the
    result.  When the ids of the rubric are pairwise distinct and the ids of
    the raw categories are pairwise distinct and all belong to the rubric,
    the result has as many entries as the rubric and its ids are the ids of
    the rubric, each once. *)
Theorem processResults_covers_rubric
    (lc : string -> string -> Z) (raw : RawResults) (criteria : Rubric) :
  let rubricIds := map entry_id (rubric_categories criteria) in
  let rawIds := map id (mappedCategories raw) in
  let out := categories (processResults lc raw criteria) in
  (forall e, e ∈ rubric_categories criteria -> (entry_id e ∉ rawIds) ->
             placeholder e ∈ out)
  /\ (forall i, i ∈ rubricIds -> i ∈ map id out)
  /\ (NoDup rubricIds -> NoDup rawIds -> (forall i, i ∈ rawIds -> i ∈ rubricIds) ->
      length out = length (rubric_categories criteria)
      /\ map id out ≡ₚ rubricIds).
Proof.
  intros rubricIds rawIds out.
  assert (forall e, e ∈ rubric_categories criteria -> (entry_id e ∉ rawIds) ->
                    placeholder e ∈ out) as Hfill.
  { intros e He Hmiss. apply elem_of_processResults. right. by exists e. }
  assert (forall i, i ∈ rubricIds -> i ∈ map id out) as Hcover.
  { intros i Hi. subst rubricIds. rewrite map_fmap in Hi.
    apply list_elem_of_fmap in Hi as (e & -> & He).
    rewrite map_fmap. apply list_elem_of_fmap.
    destruct (decide (entry_id e ∈ rawIds)) as [Hin | Hout].
    - subst rawIds. rewrite map_fmap in Hin.
      apply list_elem_of_fmap in Hin as (c & Hc & Hin).
      exists c. split; [done|]. apply elem_of_processResults. by left.
    - exists (placeholder e). split; [done|]. by apply Hfill. }
  split; [done|]. split; [done|].
  intros Hrub Hraw Hsub.
  assert (map id out ≡ₚ rubricIds) as Hperm.
  { apply NoDup_Permutation; [|done|].
    - subst out. rewrite (Permutation_map id (processResults_Permutation lc raw criteria)).
      rewrite map_app. apply NoDup_app. split; [done|]. split.
      + intros i Hi Hi'. rewrite !map_fmap in Hi'.
        apply list_elem_of_fmap in Hi' as (c & -> & Hc).
        apply list_elem_of_fmap in Hc as (e & -> & He).
        apply list_elem_of_filter in He as [He _]. by apply He.
      + rewrite map_map. simpl.
        change (map (fun x => entry_id x) ?l) with (map entry_id l).
        by apply NoDup_map_filter.
    - intros i. split; [|by apply Hcover].
      intros Hi. rewrite map_fmap in Hi.
      apply list_elem_of_fmap in Hi as (c & -> & Hc).
      apply elem_of_processResults in Hc as [Hc | (e & He & _ & ->)].
      + apply Hsub. subst rawIds. rewrite map_fmap. apply list_elem_of_fmap. by exists c.
      + simpl. subst rubricIds. rewrite map_fmap. apply list_elem_of_fmap. by exists e. }
  split; [|done].
  apply Permutation_length in Hperm. subst rubricIds.
  by rewrite !length_map in Hperm.
Qed.

(** ** The order of the result *)

Lemma StronglySorted_lookup {A} (R : A -> A -> Prop) (l : list A) :
  StronglySorted R l ->
  forall i j a b, (i < j)%nat -> l !! i = Some a -> l !! j = Some b -> R a b.
Proof.
  induction 1 as [|x l Hs IH Hx]; intros i j a b Hij Ha Hb.
  - by rewrite lookup_nil in Ha.
  - destruct j as [|j]; [lia|]. simpl in Hb.
    destruct i as [|i]; simpl in Ha.
    + injection Ha as <-. rewrite Forall_forall in Hx. apply Hx.
      by eapply list_elem_of_lookup_2.
    + apply (IH i j); [lia|done..].
Qed.

Section Collation.

Variable lc : string -> string -> Z.
Hypothesis lc_antisym : forall a b, Z.sgn (lc b a) = (- Z.sgn (lc a b))%Z.
Hypothesis lc_trans :
  forall a b c, (lc a b <= 0)%Z -> (lc b c <= 0)%Z -> (lc a c <= 0)%Z.

Lemma before_numeric (a b : CategoryResult) (x y : Z) :
  parseInt (id a) = Num x -> parseInt (id b) = Num y ->
  before (compareCategories lc) a b
  <-> (x < y \/ (x = y /\ lc (id a) (id b) <= 0))%Z.
Proof.
  intros Ha Hb. unfold before, sortCompare, compareCategories.
  rewrite Ha, Hb. simpl.
  destruct (Z.eqb_spec x y); simpl; lia.
Qed.

Lemma before_idOrder (a b : CategoryResult) :
  before (compareCategories lc) a b -> idOrder lc (id a) (id b).
Proof.
  intros H x y Ha Hb. by apply (before_numeric a b x y).
Qed.

Lemma numericId_inv (c : CategoryResult) :
  numericId c -> exists x, parseInt (id c) = Num x.
Proof.
  unfold numericId. destruct (parseInt (id c)); [done | eauto].
Qed.

Lemma before_total_numeric (a b : CategoryResult) :
  numericId a -> numericId b ->
  ~ before (compareCategories lc) a b -> before (compareCategories lc) b a.
Proof.
  intros [x Ha]%numericId_inv [y Hb]%numericId_inv.
  rewrite (before_numeric a b x y), (before_numeric b a y x) by done.
  pose proof (lc_antisym (id a) (id b)). lia.
Qed.

Lemma before_trans_numeric (a b c : CategoryResult) :
  numericId a -> numericId b -> numericId c ->
  before (compareCategories lc) a b -> before (compareCategories lc) b c ->
  before (compareCategories lc) a c.
Proof.
  intros [x Ha]%numericId_inv [y Hb]%numericId_inv [z Hc]%numericId_inv.
  rewrite (before_numeric a b x y), (before_numeric b c y z),
    (before_numeric a c x z) by done.
  pose proof (lc_trans (id a) (id b) (id c)). lia.
Qed.

Lemma sort_sortedById (l : list CategoryResult) :
  Forall numericId l -> sortedById lc (JS.sort (compareCategories lc) l).
Proof.
  intros Hl i j a b Hij Ha Hb. apply before_idOrder.
  eapply (StronglySorted_lookup _ _
            (sort_sorted (compareCategories lc) numericId
               before_total_numeric before_trans_numeric l Hl)); eauto.
Qed.

End Collation.

Lemma fillMissing_nothing (cats : list CategoryResult) (rubric : list RubricEntry) :
  (forall e, e ∈ rubric -> entry_id e ∈ map id cats) ->
  fillMissing (list_to_set (map id cats)) rubric cats = cats.
Proof.
  intros H. rewrite fillMissing_app.
  replace (filter _ rubric) with (@nil RubricEntry); [by rewrite app_nil_r|].
  symmetry. induction rubric as [|e rubric IH]; [done|].
  rewrite filter_cons, decide_False.
  - apply IH. intros e' He'. apply H. by right.
  - intros Hno. apply Hno. apply elem_of_list_to_set. apply H. by left.
Qed.

(** The order of the result on ids that begin with an integer.  When
    [localeCompare] is a consistent comparison and every id of the result
    begins with an integer, the categories that [processResults] returns are
    sorted ascending by that integer, ties broken by [localeCompare] on the
    whole id; and categories with the ids 10a, 2b, 1a, 2a, for a rubric that
    has no other id, come out in the order 1a, 2a, 2b, 10a. *)
Theorem processResults_sorted_by_id
    (lc : string -> string -> Z)
    (lc_antisym : forall a b, Z.sgn (lc b a) = (- Z.sgn (lc a b))%Z)
    (lc_trans :
       forall a b c, (lc a b <= 0)%Z -> (lc b c <= 0)%Z -> (lc a c <= 0)%Z)
    (raw : RawResults) (criteria : Rubric) :
  (Forall (fun c => parseInt (id c) <> NaN)
          (categories (processResults lc raw criteria)) ->
   sortedById lc (categories (processResults lc raw criteria)))
  /\ (map id (mappedCategories raw) = ["10a"; "2b"; "1a"; "2a"] ->
      (forall e, e ∈ rubric_categories criteria ->
                 entry_id e ∈ ["10a"; "2b"; "1a"; "2a"]) ->
      (lc "2a" "2b" < 0)%Z ->
      map id (categories (processResults lc raw criteria))
      = ["1a"; "2a"; "2b"; "10a"]).
Proof.
  split.
  - intros Hnum. unfold processResults in *. simpl in *.
    apply sort_sortedById; [done..|].
    by rewrite sort_Permutation in Hnum.
  - intros Hids Hrub Hlt. unfold processResults. simpl.
    rewrite fillMissing_nothing by (by rewrite Hids).
    destruct (mappedCategories raw) as [|a [|b [|c [|d [|]]]]]; try discriminate.
    injection Hids as Ha Hb Hc Hd.
    pose proof (lc_antisym "2a" "2b") as Hanti.
    assert (forall x y ix iy, id x = ix -> id y = iy ->
              sortCompare (compareCategories lc) x y
              = match (if strictNe (parseInt ix) (parseInt iy)
                       then sub (parseInt ix) (parseInt iy)
                       else Num (lc ix iy)) with
                | Num v => v
                | NaN => 0%Z
                end) as Hcmp.
    { intros x y ix iy <- <-. reflexivity. }
    assert (sortCompare (compareCategories lc) c d = (-1)%Z) as Hcd
      by (rewrite (Hcmp c d _ _ Hc Hd); reflexivity).
    assert (sortCompare (compareCategories lc) b c = 1%Z) as Hbc
      by (rewrite (Hcmp b c _ _ Hb Hc); reflexivity).
    assert (sortCompare (compareCategories lc) b d = lc "2b" "2a") as Hbd
      by (rewrite (Hcmp b d _ _ Hb Hd); reflexivity).
    assert (sortCompare (compareCategories lc) a c = 9%Z) as Hac
      by (rewrite (Hcmp a c _ _ Ha Hc); reflexivity).
    assert (sortCompare (compareCategories lc) a d = 8%Z) as Had
      by (rewrite (Hcmp a d _ _ Ha Hd); reflexivity).
    assert (sortCompare (compareCategories lc) a b = 8%Z) as Hab
      by (rewrite (Hcmp a b _ _ Ha Hb); reflexivity).
    cbn [JS.sort].
    rewrite (sortInsert_nil _ d).
    rewrite (sortInsert_le _ c d) by (rewrite Hcd; lia).
    rewrite (sortInsert_gt _ b c) by (rewrite Hbc; lia).
    rewrite (sortInsert_gt _ b d) by (rewrite Hbd; lia).
    rewrite (sortInsert_nil _ b).
    rewrite (sortInsert_gt _ a c) by (rewrite Hac; lia).
    rewrite (sortInsert_gt _ a d) by (rewrite Had; lia).
    rewrite (sortInsert_gt _ a b) by (rewrite Hab; lia).
    rewrite (sortInsert_nil _ a).
    simpl. by rewrite Ha, Hb, Hc, Hd.
Qed.

(** ** The collation by code units is a consistent comparison *)

Lemma String_lt_irrefl (a : string) : ~ String_as_OT.lt a a.
Proof. apply (StrictOrder_Irreflexive (R := String_as_OT.lt)). Qed.

Lemma String_lt_trans (a b c : string) :
  String_as_OT.lt a b -> String_as_OT.lt b c -> String_as_OT.lt a c.
Proof. apply (StrictOrder_Transitive (R := String_as_OT.lt)). Qed.

Lemma codeUnitCompare_antisym (a b : string) :
  Z.sgn (codeUnitCompare b a) = (- Z.sgn (codeUnitCompare a b))%Z.
Proof.
  unfold codeUnitCompare.
  destruct (String_as_OT.compare_spec a b) as [Hab | Hab | Hab];
    destruct (String_as_OT.compare_spec b a) as [Hba | Hba | Hba];
    try reflexivity; exfalso; unfold String_as_OT.eq in *; subst;
    match goal with
    | H : String_as_OT.lt ?x ?x |- _ => exact (String_lt_irrefl x H)
    | H1 : String_as_OT.lt ?x ?y, H2 : String_as_OT.lt ?y ?x |- _ =>
        exact (String_lt_irrefl x (String_lt_trans x y x H1 H2))
    end.
Qed.

Lemma codeUnitCompare_trans (a b c : string) :
  (codeUnitCompare a b <= 0)%Z -> (codeUnitCompare b c <= 0)%Z ->
  (codeUnitCompare a c <= 0)%Z.
Proof.
  unfold codeUnitCompare.
  destruct (String_as_OT.compare_spec a b) as [Hab | Hab | Hab];
    [unfold String_as_OT.eq in Hab; by subst| |lia].
  destruct (String_as_OT.compare_spec b c) as [Hbc | Hbc | Hbc]; [| |lia];
    intros _ _.
  - unfold String_as_OT.eq in Hbc. subst. destruct (String_as_OT.compare_spec a c) as [Hac | Hac | Hac]; [lia..|].
    exfalso. exact (String_lt_irrefl a (String_lt_trans a c a Hab Hac)).
  - destruct (String_as_OT.compare_spec a c) as [Hac | Hac | Hac]; [lia..|].
    exfalso.
    exact (String_lt_irrefl a
             (String_lt_trans a b a Hab (String_lt_trans b c a Hbc Hac))).
Qed.

(** ** The statements at concrete inputs *)

Lemma processResults_scores_numeric_example :
  score (normalizeCategory (rawCategory "2b" (-5))) = ofZ 0
  /\ score (normalizeCategory (rawCategory "10a" 150)) = ofZ 100
  /\ status (normalizeCategory (rawCategory "1a" 89))
     = determineStatus (score (normalizeCategory (rawCategory "1a" 89))).
Proof.
  destruct (processResults_scores_numeric codeUnitCompare rawShuffled
              (rubricOf ["3a"])) as (_ & H & _).
  assert (rawCategory "10a" 150
          ∈ [rawCategory "10a" 150; rawCategory "2b" (-5);
             rawCategory "1a" 89; rawCategory "2a" 74]) as H10a
    by left.
  assert (rawCategory "2b" (-5)
          ∈ [rawCategory "10a" 150; rawCategory "2b" (-5);
             rawCategory "1a" 89; rawCategory "2a" 74]) as H2b
    by (right; left).
  assert (rawCategory "1a" 89
          ∈ [rawCategory "10a" 150; rawCategory "2b" (-5);
             rawCategory "1a" 89; rawCategory "2a" 74]) as H1a
    by (right; right; left).
  destruct (H _ _ eq_refl H2b) as (_ & _ & _ & Hminus & _).
  destruct (H _ _ eq_refl H10a) as (_ & _ & _ & _ & Hover & _).
  destruct (H _ _ eq_refl H1a) as (_ & _ & _ & _ & _ & _ & Hstatus).
  split; [exact (Hminus eq_refl)|].
  split; [exact (Hover eq_refl) | exact (Hstatus eq_refl)].
Defined.

Lemma rawOmitting_integers :
  Forall (fun c => integral (score c)) (mappedCategories rawOmitting).
Proof. repeat constructor. Qed.

Lemma processResults_overallScore_witness :
  overallScore (processResults codeUnitCompare rawExtra (rubricOf ["1a"]))
  = VNumber (ofZ 70)
  /\ overallScore (processResults codeUnitCompare rawOmitting (rubricOf ["1a"; "1b"]))
     = VNumber (ofZ 80).
Proof.
  destruct (processResults_overallScore codeUnitCompare rawExtra
              (rubricOf ["1a"])) as (Htaken & _).
  destruct (processResults_overallScore codeUnitCompare rawOmitting
              (rubricOf ["1a"; "1b"])) as (_ & Hmean).
  split.
  - exact (Htaken eq_refl).
  - destruct (Hmean eq_refl) as (Hsome & _).
    destruct (Hsome ltac:(discriminate)) as (_ & Hint).
    destruct (Hint rawOmitting_integers ltac:(reflexivity))
      as (k & -> & -> & _).
    reflexivity.
Defined.

Lemma overallScore_ignores_placeholders_witness :
  overallScore (processResults codeUnitCompare rawOmitting (rubricOf ["1a"; "1b"]))
  = overallScore (processResults codeUnitCompare rawOmitting (rubricOf []))
  /\ exists k,
       overallScore (processResults codeUnitCompare rawOmitting
                       (rubricOf ["1a"; "1b"]))
       = VNumber (ofZ k)
       /\ (2 * 80 - 1 < 2 * 1 * k <= 2 * 80 + 1)%Z.
Proof.
  destruct (overallScore_ignores_placeholders codeUnitCompare rawOmitting
              (rubricOf ["1a"; "1b"]) (rubricOf [])) as (Hsame & Hmean).
  split; [exact Hsame|].
  destruct (Hmean eq_refl ltac:(discriminate)) as (_ & Hint).
  destruct (Hint rawOmitting_integers ltac:(reflexivity)) as (k & Hk & Hbounds).
  exists k. split; [exact Hk|].
  rewrite processResults_sum in Hbounds. exact Hbounds.
Defined.

Lemma processResults_covers_rubric_witness :
  length (categories (processResults codeUnitCompare rawOmitting
                        (rubricOf ["1a"; "1b"]))) = 2%nat
  /\ placeholder (rubricEntry "1a")
     ∈ categories (processResults codeUnitCompare rawOmitting
                     (rubricOf ["1a"; "1b"])).
Proof.
  destruct (processResults_covers_rubric codeUnitCompare rawOmitting
              (rubricOf ["1a"; "1b"])) as (Hfill & _ & Hcount).
  split.
  - apply Hcount.
    + apply NoDup_cons. split; [|apply NoDup_singleton].
      intros H. apply list_elem_of_singleton in H. discriminate.
    + apply NoDup_singleton.
    + intros i Hi. apply list_elem_of_singleton in Hi. subst i. right; left.
  - apply Hfill; [left|].
    intros H. apply list_elem_of_singleton in H. discriminate.
Defined.

(** C1, the claim as it stands, fails when the raw output has an id that the
    rubric does not have: the rubric has the one entry 1a, the raw output
    scores 1a and 9z, and the result has two entries. *)
Lemma processResults_covers_rubric_counterexample :
  ~ (length (categories (processResults codeUnitCompare rawExtra (rubricOf ["1a"])))
     = length (rubric_categories (rubricOf ["1a"]))
     /\ map id (categories (processResults codeUnitCompare rawExtra (rubricOf ["1a"])))
        ≡ₚ map entry_id (rubric_categories (rubricOf ["1a"]))).
Proof.
  intros [H _]. vm_compute in H. discriminate.
Qed.

Lemma rawShuffled_categories :
  categories (processResults codeUnitCompare rawShuffled (rubricOf ["2a"]))
  = map normalizeCategory
      [rawCategory "1a" 89; rawCategory "2a" 74;
       rawCategory "2b" (-5); rawCategory "10a" 150].
Proof. vm_compute. reflexivity. Qed.

Lemma processResults_sorted_by_id_example :
  sortedById codeUnitCompare
    (categories (processResults codeUnitCompare rawShuffled (rubricOf ["2a"])))
  /\ map id (categories (processResults codeUnitCompare rawShuffled (rubricOf ["2a"])))
     = ["1a"; "2a"; "2b"; "10a"].
Proof.
  destruct (processResults_sorted_by_id codeUnitCompare
              codeUnitCompare_antisym codeUnitCompare_trans
              rawShuffled (rubricOf ["2a"])) as (Hsorted & Hexample).
  split.
  - apply Hsorted. rewrite rawShuffled_categories.
    repeat constructor; by vm_compute.
  - apply Hexample; [reflexivity| |reflexivity].
    intros e He. apply list_elem_of_singleton in He. subst e.
    right; right; right; left.
Defined.

(** C9, the code at the failing input.  The raw output scores 2a and a
    category to which it gives no id, and the rubric has 1a.  The category
    without an id is given the id [unknown], for which [parseInt] is [NaN];
    the comparator then answers [NaN] for every pair that has it, the sort
    takes that for equality, and the result is 2a, unknown, 1a: the entry 2a
    stands before the entry 1a, so the list is not sorted by leading
    integer. *)
Theorem processResults_unsorted_without_id :
  map id (categories (processResults codeUnitCompare rawWithoutId (rubricOf ["1a"])))
  = ["2a"; "unknown"; "1a"]
  /\ ~ sortedById codeUnitCompare
         (categories (processResults codeUnitCompare rawWithoutId (rubricOf ["1a"]))).
Proof.
  split; [vm_compute; reflexivity|].
  intros H.
  specialize (H 0%nat 2%nat (normalizeCategory (rawCategory "2a" 80))
                (placeholder (rubricEntry "1a"))
                ltac:(lia)).
  assert (idOrder codeUnitCompare "2a" "1a") as Hord.
  { apply H; vm_compute; reflexivity. }
  destruct (Hord 2%Z 1%Z) as [Hlt | [Heq _]]; try (vm_compute; reflexivity); lia.
Qed.

(** ** Facts about the effect monad *)

Lemma bind_emit {B} (ev : event) (f : unit -> M B) :
  Eff.bind (emit ev) f = (ev :: trace (f tt), outcome (f tt)).
Proof. unfold Eff.bind, emit, trace, outcome. by destruct (f tt). Qed.

Lemma bind_ret {A B} (a : A) (f : A -> M B) : Eff.bind (ret a) f = f a.
Proof. unfold Eff.bind, ret. by destruct (f a). Qed.

Lemma bind_throw {A B} (e : Error) (f : A -> M B) :
  Eff.bind (throw e) f = throw e.
Proof. reflexivity. Qed.

Lemma trace_outcome {A} (m : M A) : m = (trace m, outcome m).
Proof. by destruct m. Qed.

Lemma attempts_Attempt (n : nat) (t : list event) :
  attempts (Attempt n :: t) = n :: attempts t.
Proof. reflexivity. Qed.

Lemma attempts_Delay (ms : Z) (t : list event) :
  attempts (Delay ms :: t) = attempts t.
Proof. reflexivity. Qed.

Lemma delays_Attempt (n : nat) (t : list event) :
  delays (Attempt n :: t) = delays t.
Proof. reflexivity. Qed.

Lemma delays_Delay (ms : Z) (t : list event) :
  delays (Delay ms :: t) = ms :: delays t.
Proof. reflexivity. Qed.

(** ** Facts about [retryWithBackoff] *)

Section RetryFacts.

Variable fetchFn : nat -> fetchResult.
Variable maxRetries : nat.
Variable initialDelay : Z.

Local Notation "'retryLoop'" :=
  (LLMService.retryFrom fetchFn maxRetries initialDelay).

(** A turn whose result is retried. *)
Lemma retryFrom_retry (turns attempt : nat) (lastError : option Error) (b : Z) :
  (attempt < maxRetries)%nat ->
  retryBase initialDelay (fetchFn attempt) = Some b ->
  exists lastError',
    retryLoop (S turns) attempt lastError
    = (Attempt attempt :: Delay (b * 2 ^ Z.of_nat attempt)
         :: trace (retryLoop turns (S attempt) lastError'),
       outcome (retryLoop turns (S attempt) lastError')).
Proof.
  intros Hlt Hbase. apply Nat.ltb_lt in Hlt.
  cbn [LLMService.retryFrom]. rewrite bind_emit. unfold retryBase in Hbase.
  destruct (fetchFn attempt) as [response | error].
  - exists lastError. rewrite Hlt, !andb_true_r.
    destruct (LLMService.ok response); [done|].
    destruct (500 <=? LLMService.status response)%Z.
    + injection Hbase as <-. by rewrite bind_emit.
    + destruct (LLMService.status response =? 429)%Z; [|done].
      injection Hbase as <-. by rewrite bind_emit.
  - exists (Some error). rewrite Hlt. injection Hbase as <-.
    by rewrite bind_emit.
Qed.

(** A turn that ends the loop with a response. *)
Lemma retryFrom_return (turns attempt : nat) (lastError : option Error)
    (response : Response) :
  fetchFn attempt = Responds response ->
  retryBase initialDelay (fetchFn attempt) = None \/ (maxRetries <= attempt)%nat ->
  retryLoop (S turns) attempt lastError = ([Attempt attempt], Normal response).
Proof.
  intros Hres Hend. cbn [LLMService.retryFrom]. rewrite bind_emit.
  unfold retryBase in Hend. rewrite Hres in *.
  destruct (LLMService.ok response); [done|].
  destruct Hend as [Hnone | Hlast].
  - destruct (500 <=? LLMService.status response)%Z; [done|].
    destruct (LLMService.status response =? 429)%Z; done.
  - apply Nat.ltb_ge in Hlast. rewrite Hlast, !andb_false_r. done.
Qed.

(** The last turn, when the call fails. *)
Lemma retryFrom_exhausted (attempt : nat) (lastError : option Error)
    (error : Error) :
  fetchFn attempt = Fails error ->
  (maxRetries <= attempt)%nat ->
  retryLoop 1 attempt lastError
  = ([Attempt attempt], Throw (allFailed (Some error))).
Proof.
  intros Hres Hlast. apply Nat.ltb_ge in Hlast.
  cbn [LLMService.retryFrom]. rewrite bind_emit, Hres, Hlast. reflexivity.
Qed.

(** The attempts are consecutive and at most as many as the turns. *)
Lemma retryFrom_attempts (turns attempt : nat) (lastError : option Error) :
  exists n, (n <= turns)%nat
            /\ attempts (trace (retryLoop turns attempt lastError)) = seq attempt n.
Proof.
  revert attempt lastError.
  induction turns as [|turns IH]; intros attempt lastError.
  - exists 0%nat. split; [lia | reflexivity].
  - cbn [LLMService.retryFrom]. rewrite bind_emit. cbn [trace fst]; rewrite ?attempts_Attempt, ?attempts_Delay.
    assert (forall le, exists n, (n <= S turns)%nat
              /\ Attempt attempt :: trace (retryLoop turns (S attempt) le)
                 = Attempt attempt :: trace (retryLoop turns (S attempt) le)
              /\ attempt :: attempts (trace (retryLoop turns (S attempt) le))
                 = seq attempt n) as Hrec.
    { intros le. destruct (IH (S attempt) le) as (n & Hn & Heq).
      exists (S n). repeat split; [lia|]. simpl. by rewrite Heq. }
    assert (exists n, (n <= S turns)%nat /\ [attempt] = seq attempt n) as Hone
      by (exists 1%nat; split; [lia | reflexivity]).
    destruct (fetchFn attempt) as [response | error].
    + destruct (LLMService.ok response); [exact Hone|].
      destruct ((500 <=? LLMService.status response)%Z && (attempt <? maxRetries)%nat).
      { rewrite bind_emit. destruct (Hrec lastError) as (n & Hn & _ & Heq).
        exists n. by split. }
      destruct ((LLMService.status response =? 429)%Z && (attempt <? maxRetries)%nat).
      { rewrite bind_emit. destruct (Hrec lastError) as (n & Hn & _ & Heq).
        exists n. by split. }
      exact Hone.
    + destruct (Hrec (Some error)) as (n & Hn & _ & Heq).
      exists n. split; [done|].
      destruct (attempt <? maxRetries)%nat.
      * rewrite bind_emit. exact Heq.
      * rewrite bind_ret. exact Heq.
Qed.

(** An error is thrown only by the turn after the last, which is reached
    only when the call of the last attempt fails. *)
Lemma retryFrom_throw (turns attempt : nat) (lastError : option Error)
    (e : Error) :
  (attempt + turns = maxRetries + 1)%nat -> (0 < turns)%nat ->
  outcome (retryLoop turns attempt lastError) = Throw e ->
  attempts (trace (retryLoop turns attempt lastError)) = seq attempt turns
  /\ exists error, fetchFn maxRetries = Fails error
                   /\ e = allFailed (Some error).
Proof.
  revert attempt lastError.
  induction turns as [|turns IH]; intros attempt lastError Hinv Hpos; [lia|].
  cbn [LLMService.retryFrom]. rewrite bind_emit. cbn [trace outcome fst snd]; rewrite ?attempts_Attempt, ?attempts_Delay, ?delays_Attempt, ?delays_Delay.
  destruct (fetchFn attempt) as [response | error] eqn:Hres.
  - destruct (LLMService.ok response); [discriminate|].
    destruct (Nat.ltb_spec attempt maxRetries) as [Hlt | Hge].
    + rewrite !andb_true_r.
      destruct (500 <=? LLMService.status response)%Z.
      { rewrite bind_emit. cbn [trace outcome fst snd]; rewrite ?attempts_Attempt, ?attempts_Delay, ?delays_Attempt, ?delays_Delay. intros Hthrow.
        destruct (IH (S attempt) lastError) as (Hatt & Herr); [lia..|done|].
        split; [|done]. simpl. by rewrite Hatt. }
      destruct (LLMService.status response =? 429)%Z; [|discriminate].
      rewrite bind_emit. cbn [trace outcome fst snd]; rewrite ?attempts_Attempt, ?attempts_Delay, ?delays_Attempt, ?delays_Delay. intros Hthrow.
      destruct (IH (S attempt) lastError) as (Hatt & Herr); [lia..|done|].
      split; [|done]. simpl. by rewrite Hatt.
    + rewrite !andb_false_r. discriminate.
  - destruct (Nat.ltb_spec attempt maxRetries) as [Hlt | Hge].
    + rewrite bind_emit. cbn [trace outcome fst snd]; rewrite ?attempts_Attempt, ?attempts_Delay, ?delays_Attempt, ?delays_Delay. intros Hthrow.
      destruct (IH (S attempt) (Some error)) as (Hatt & Herr); [lia..|done|].
      split; [|done]. simpl. by rewrite Hatt.
    + rewrite bind_ret. assert (turns = 0%nat) as -> by lia.
      assert (attempt = maxRetries) as -> by lia.
      simpl. intros [= <-]. split; [done|]. by exists error.
Qed.

(** After [n] results that are retried, the loop is at attempt [n]. *)
Lemma retryFrom_prefix (n turns : nat) (lastError : option Error) :
  (n <= maxRetries)%nat ->
  (forall k, (k < n)%nat -> retryBase initialDelay (fetchFn k) <> None) ->
  exists lastError',
    let rest := retryLoop turns n lastError' in
    attempts (trace (retryLoop (n + turns) 0 lastError))
    = seq 0 n ++ attempts (trace rest)
    /\ delays (trace (retryLoop (n + turns) 0 lastError))
       = map (fun k => (default 0 (retryBase initialDelay (fetchFn k))
                        * 2 ^ Z.of_nat k)%Z) (seq 0 n)
         ++ delays (trace rest)
    /\ outcome (retryLoop (n + turns) 0 lastError) = outcome rest.
Proof.
  revert turns.
  induction n as [|n IH]; intros turns Hn Hretried.
  - exists lastError. by repeat split.
  - destruct (IH (S turns) ltac:(lia) ltac:(intros; apply Hretried; lia))
      as (le1 & Hatt & Hdel & Hout).
    destruct (retryBase initialDelay (fetchFn n)) as [b|] eqn:Hbase;
      [|by destruct (Hretried n ltac:(lia))].
    destruct (retryFrom_retry turns n le1 b ltac:(lia) Hbase) as (le2 & Hstep).
    exists le2. cbv zeta in *.
    replace (S n + turns)%nat with (n + S turns)%nat by lia.
    rewrite Hatt, Hdel, Hout, Hstep. cbn [trace outcome fst snd attempts delays omap].
    rewrite !seq_S, !map_app, <- !app_assoc. simpl. rewrite Hbase. simpl.
    by repeat split.
Qed.

(** The trace after [n] results that are retried: each attempt and its
    delay, in turn. *)
Lemma retryFrom_prefix_trace (n turns : nat) (lastError : option Error) :
  (n <= maxRetries)%nat ->
  (forall k, (k < n)%nat -> retryBase initialDelay (fetchFn k) <> None) ->
  exists lastError',
    let rest := retryLoop turns n lastError' in
    trace (retryLoop (n + turns) 0 lastError)
    = flat_map (fun k => [Attempt k;
                          Delay (default 0 (retryBase initialDelay (fetchFn k))
                                 * 2 ^ Z.of_nat k)%Z]) (seq 0 n)
      ++ trace rest
    /\ outcome (retryLoop (n + turns) 0 lastError) = outcome rest.
Proof.
  revert turns.
  induction n as [|n IH]; intros turns Hn Hretried.
  - exists lastError. by split.
  - destruct (IH (S turns) ltac:(lia) ltac:(intros; apply Hretried; lia))
      as (le1 & Htr & Hout).
    destruct (retryBase initialDelay (fetchFn n)) as [b|] eqn:Hbase;
      [|by destruct (Hretried n ltac:(lia))].
    destruct (retryFrom_retry turns n le1 b ltac:(lia) Hbase) as (le2 & Hstep).
    exists le2. cbv zeta in *.
    replace (S n + turns)%nat with (n + S turns)%nat by lia.
    rewrite Htr, Hout, Hstep. cbn [trace outcome fst snd].
    rewrite seq_S, flat_map_app, <- app_assoc. simpl. rewrite Hbase. simpl.
    by split.
Qed.

End RetryFacts.

Lemma retryBase_retried (fetchFn : nat -> fetchResult) (n : nat) (b : Z) :
  retryBase 2000 (fetchFn n) = Some b ->
  delayAfter fetchFn n = (b * 2 ^ Z.of_nat n)%Z.
Proof. intros H. unfold delayAfter. by rewrite H. Qed.

(** The state of [retryWithBackoff] after [n] results that were retried. *)
Lemma retryWithBackoff_prefix (fetchFn : nat -> fetchResult) (n : nat) :
  (n <= 3)%nat ->
  (forall k, (k < n)%nat -> retryBase 2000 (fetchFn k) <> None) ->
  exists lastError,
    let rest := LLMService.retryFrom fetchFn 3 2000 (4 - n) n lastError in
    attempts (trace (retryWithBackoff fetchFn)) = seq 0 n ++ attempts (trace rest)
    /\ delays (trace (retryWithBackoff fetchFn))
       = map (delayAfter fetchFn) (seq 0 n) ++ delays (trace rest)
    /\ outcome (retryWithBackoff fetchFn) = outcome rest.
Proof.
  intros Hn Hretried.
  destruct (retryFrom_prefix fetchFn 3 2000 n (4 - n) None Hn Hretried)
    as (le & H).
  exists le. unfold retryWithBackoff, retryWithBackoff_with.
  replace (3 + 1)%nat with (n + (4 - n))%nat by lia. exact H.
Qed.

(** The trace of [retryWithBackoff] after [n] results that were retried. *)
Lemma retryWithBackoff_prefix_trace (fetchFn : nat -> fetchResult) (n : nat) :
  (n <= 3)%nat ->
  (forall k, (k < n)%nat -> retryBase 2000 (fetchFn k) <> None) ->
  exists lastError,
    let rest := LLMService.retryFrom fetchFn 3 2000 (4 - n) n lastError in
    trace (retryWithBackoff fetchFn) = retried fetchFn n ++ trace rest
    /\ outcome (retryWithBackoff fetchFn) = outcome rest.
Proof.
  intros Hn Hretried.
  destruct (retryFrom_prefix_trace fetchFn 3 2000 n (4 - n) None Hn Hretried)
    as (le & H).
  exists le. unfold retryWithBackoff, retryWithBackoff_with.
  replace (3 + 1)%nat with (n + (4 - n))%nat by lia. exact H.
Qed.

Lemma length_append (a b : string) :
  String.length (a ++ b)%string = (String.length a + String.length b)%nat.
Proof. induction a as [|c a IH]; simpl; [done | by rewrite IH]. Qed.

Lemma allFailed_message (error : Error) :
  allFailed (Some error) = mkError (exhaustedMessage error).
Proof.
  unfold allFailed, exhaustedMessage. simpl.
  by destruct (message error).
Qed.

(** C3, as amended.  [retryWithBackoff] makes at most four attempts,
    numbered from 0.  A response that is OK, or whose status is neither a
    server error nor 429, or that answers the last attempt, is returned at
    once: the trace is every earlier attempt followed by its delay, and then
    the attempt that is answered, with no further attempt.  The delay after
    attempt [n] is 2000 times 2 to the [n] for a server error and for a
    network failure, and 5000 times 2 to the [n] for the status 429.  A
    function that fails twice with the status 500 and then succeeds gives
    the successful response after attempt 0, the delay 2000, attempt 1, the
    delay 4000 and attempt 2.  An error is thrown only after the four
    attempts and the three delays between them, when the call of the last
    attempt failed; it is not the error of that failure but a new one, whose
    message is [All retry attempts failed. Last error: ] followed by the
    message of the failure, or by [Unknown error] when that is empty. *)
Theorem retryWithBackoff_policy (fetchFn : nat -> fetchResult) :
  let t := trace (retryWithBackoff fetchFn) in
  let o := outcome (retryWithBackoff fetchFn) in
  (exists n, (n <= 4)%nat /\ attempts t = seq 0 n)
  /\ (forall n response,
        (n <= 3)%nat ->
        (forall k, (k < n)%nat -> retryBase 2000 (fetchFn k) <> None) ->
        fetchFn n = Responds response ->
        LLMService.ok response = true
        \/ ((LLMService.status response < 500)%Z
            /\ LLMService.status response <> 429%Z)
        \/ n = 3%nat ->
        o = Normal response
        /\ t = retried fetchFn n ++ [Attempt n]
        /\ attempts t = seq 0 (S n)
        /\ delays t = map (delayAfter fetchFn) (seq 0 n))
  /\ (forall n,
        (n < 3)%nat ->
        (forall k, (k < n)%nat -> retryBase 2000 (fetchFn k) <> None) ->
        (forall response,
           fetchFn n = Responds response -> LLMService.ok response = false ->
           (500 <= LLMService.status response)%Z ->
           delays t !! n = Some (2000 * 2 ^ Z.of_nat n)%Z)
        /\ (forall error,
              fetchFn n = Fails error ->
              delays t !! n = Some (2000 * 2 ^ Z.of_nat n)%Z)
        /\ (forall response,
              fetchFn n = Responds response -> LLMService.ok response = false ->
              LLMService.status response = 429%Z ->
              delays t !! n = Some (5000 * 2 ^ Z.of_nat n)%Z))
  /\ (forall r0 r1 response,
        fetchFn 0%nat = Responds r0 -> LLMService.ok r0 = false ->
        LLMService.status r0 = 500%Z ->
        fetchFn 1%nat = Responds r1 -> LLMService.ok r1 = false ->
        LLMService.status r1 = 500%Z ->
        fetchFn 2%nat = Responds response -> LLMService.ok response = true ->
        o = Normal response
        /\ t = [Attempt 0; Delay 2000; Attempt 1; Delay 4000; Attempt 2]
        /\ delays t = [2000; 4000]%Z)
  /\ (forall e, o = Throw e ->
        (forall k, (k < 3)%nat -> retryBase 2000 (fetchFn k) <> None)
        /\ t = retried fetchFn 3 ++ [Attempt 3]
        /\ attempts t = [0; 1; 2; 3]%nat
        /\ exists error, fetchFn 3%nat = Fails error
                         /\ e = mkError (exhaustedMessage error)
                         /\ e <> error)
  /\ (forall error,
        (forall k, (k < 3)%nat -> retryBase 2000 (fetchFn k) <> None) ->
        fetchFn 3%nat = Fails error ->
        o = Throw (mkError (exhaustedMessage error))
        /\ t = retried fetchFn 3 ++ [Attempt 3]
        /\ delays t = map (delayAfter fetchFn) [0; 1; 2]%nat).
Proof.
  intros t o.
  assert (forall n response,
            (n <= 3)%nat ->
            (forall k, (k < n)%nat -> retryBase 2000 (fetchFn k) <> None) ->
            fetchFn n = Responds response ->
            retryBase 2000 (fetchFn n) = None \/ n = 3%nat ->
            o = Normal response
            /\ t = retried fetchFn n ++ [Attempt n]
            /\ attempts t = seq 0 (S n)
            /\ delays t = map (delayAfter fetchFn) (seq 0 n)) as Hreturn.
  { intros n response Hn Hretried Hres Hend.
    destruct (retryWithBackoff_prefix fetchFn n Hn Hretried)
      as (le & Hatt & Hdel & Hout).
    destruct (retryWithBackoff_prefix_trace fetchFn n Hn Hretried)
      as (le' & Htr & _).
    cbv zeta in *. subst t o.
    replace (4 - n)%nat with (S (3 - n)) in * by lia.
    rewrite (retryFrom_return fetchFn 3 2000 (3 - n) n le response Hres) in *
      by (destruct Hend; [by left | right; lia]).
    rewrite (retryFrom_return fetchFn 3 2000 (3 - n) n le' response Hres) in *
      by (destruct Hend; [by left | right; lia]).
    rewrite Hatt, Hdel, Hout, Htr. cbn [trace outcome fst snd].
    rewrite seq_S, app_nil_r. done. }
  assert (forall n b,
            (n < 3)%nat ->
            (forall k, (k < n)%nat -> retryBase 2000 (fetchFn k) <> None) ->
            retryBase 2000 (fetchFn n) = Some b ->
            delays t !! n = Some (b * 2 ^ Z.of_nat n)%Z) as Hdelay.
  { intros n b Hn Hretried Hbase.
    destruct (retryWithBackoff_prefix fetchFn (S n) ltac:(lia)) as (le & _ & Hdel & _).
    { intros k Hk. destruct (decide (k = n)) as [-> | Hne].
      - by rewrite Hbase.
      - apply Hretried. lia. }
    cbv zeta in Hdel. subst t. rewrite Hdel.
    rewrite lookup_app_l by (rewrite length_map, length_seq; lia).
    rewrite seq_S, map_app. simpl.
    rewrite lookup_app_r by (rewrite length_map, length_seq; lia).
    rewrite length_map, length_seq, Nat.sub_diag. simpl.
    by rewrite (retryBase_retried fetchFn n b Hbase). }
  assert (forall error,
            (forall k, (k < 3)%nat -> retryBase 2000 (fetchFn k) <> None) ->
            fetchFn 3%nat = Fails error ->
            o = Throw (mkError (exhaustedMessage error))
            /\ t = retried fetchFn 3 ++ [Attempt 3]
            /\ delays t = map (delayAfter fetchFn) [0; 1; 2]%nat) as Hexhausted.
  { intros error Hretried Hres.
    destruct (retryWithBackoff_prefix fetchFn 3 ltac:(lia) Hretried)
      as (le & _ & Hdel & Hout).
    destruct (retryWithBackoff_prefix_trace fetchFn 3 ltac:(lia) Hretried)
      as (le' & Htr & _).
    cbv zeta in *. subst t o.
    change (4 - 3)%nat with 1%nat in *.
    rewrite (retryFrom_exhausted fetchFn 3 2000 3 le error Hres) in * by lia.
    rewrite (retryFrom_exhausted fetchFn 3 2000 3 le' error Hres) in * by lia.
    rewrite Hdel, Hout, Htr. cbn [trace outcome fst snd].
    by rewrite app_nil_r, allFailed_message. }
  split; [|split; [|split; [|split; [|split]]]].
  - subst t. apply retryFrom_attempts.
  - intros n response Hn Hretried Hres Hend.
    apply Hreturn; [done..|].
    destruct Hend as [Hok | [[Hlow Hnot] | ->]]; [left | left | by right];
      unfold retryBase; rewrite Hres.
    + by rewrite Hok.
    + destruct (LLMService.ok response); [done|].
      destruct (Z.leb_spec 500 (LLMService.status response)); [lia|].
      destruct (Z.eqb_spec (LLMService.status response) 429); [lia | done].
  - intros n Hn Hretried. repeat split.
    + intros response Hres Hok Hstatus. apply Hdelay; [done..|].
      unfold retryBase. rewrite Hres, Hok.
      by rewrite (proj2 (Z.leb_le _ _) Hstatus).
    + intros error Hres. apply Hdelay; [done..|].
      unfold retryBase. by rewrite Hres.
    + intros response Hres Hok Hstatus. apply Hdelay; [done..|].
      unfold retryBase. by rewrite Hres, Hok, Hstatus.
  - intros r0 r1 response H0 Hok0 Hs0 H1 Hok1 Hs1 H2 Hok2.
    destruct (Hreturn 2%nat response) as (Hout & Htr & _ & Hdel); [lia| |done| |].
    + intros k Hk. destruct k as [|[|k]]; [| |lia]; unfold retryBase.
      * by rewrite H0, Hok0, Hs0.
      * by rewrite H1, Hok1, Hs1.
    + left. unfold retryBase. by rewrite H2, Hok2.
    + split; [done|].
      assert (delayAfter fetchFn 0 = 2000%Z /\ delayAfter fetchFn 1 = 4000%Z)
        as [Hd0 Hd1].
      { unfold delayAfter, retryBase.
        by rewrite H0, H1, Hok0, Hok1, Hs0, Hs1. }
      split.
      * rewrite Htr. unfold retried. simpl. by rewrite Hd0, Hd1.
      * rewrite Hdel. simpl. by rewrite Hd0, Hd1.
  - intros e Hthrow.
    assert (forall k, (k < 3)%nat -> retryBase 2000 (fetchFn k) <> None)
      as Hretried.
    { assert (forall n, (n < 3)%nat ->
                (forall k, (k < n)%nat -> retryBase 2000 (fetchFn k) <> None) ->
                retryBase 2000 (fetchFn n) <> None) as Hstep.
      { intros n Hn Hbefore Hnone.
        destruct (fetchFn n) as [response | error] eqn:Hres; [|discriminate].
        destruct (Hreturn n response ltac:(lia) Hbefore Hres) as (Hout & _).
        - left. by rewrite Hres.
        - rewrite Hout in Hthrow. discriminate. }
      assert (retryBase 2000 (fetchFn 0%nat) <> None) as H0
        by (apply Hstep; [lia|]; intros k Hk; lia).
      assert (retryBase 2000 (fetchFn 1%nat) <> None) as H1.
      { apply Hstep; [lia|]. intros k Hk. by assert (k = 0%nat) as -> by lia. }
      assert (retryBase 2000 (fetchFn 2%nat) <> None) as H2.
      { apply Hstep; [lia|]. intros k Hk.
        destruct k as [|[|k]]; [done | done | lia]. }
      intros k Hk. destruct k as [|[|[|k]]]; [done | done | done | lia]. }
    split; [exact Hretried|].
    assert (exists error, fetchFn 3%nat = Fails error
                          /\ e = allFailed (Some error)) as (error & Hres & ->).
    { subst t o. unfold retryWithBackoff, retryWithBackoff_with in *.
      by destruct (retryFrom_throw fetchFn 3 2000 4 0 None e eq_refl
                     ltac:(lia) Hthrow) as [_ Herr]. }
    destruct (Hexhausted error Hretried Hres) as (_ & Htr & _).
    split; [exact Htr|]. split.
    + rewrite Htr. reflexivity.
    + exists error. split; [done|]. split; [apply allFailed_message|].
      rewrite allFailed_message. unfold exhaustedMessage.
      destruct error as [m]. cbn [message]. intros [= Heq].
      apply (f_equal String.length) in Heq. rewrite length_append in Heq.
      destruct (String.eqb_spec m "") as [-> | _]; simpl in Heq; lia.
  - exact Hexhausted.
Qed.

Lemma retryWithBackoff_policy_witness :
  outcome (retryWithBackoff failsTwice) = Normal okResponse
  /\ trace (retryWithBackoff failsTwice)
     = [Attempt 0; Delay 2000; Attempt 1; Delay 4000; Attempt 2]
  /\ delays (trace (retryWithBackoff failsTwice)) !! 1%nat = Some 4000%Z
  /\ outcome (retryWithBackoff alwaysOffline)
     = Throw (mkError "All retry attempts failed. Last error: Failed to fetch")
  /\ trace (retryWithBackoff alwaysOffline)
     = [Attempt 0; Delay 2000; Attempt 1; Delay 4000; Attempt 2; Delay 8000;
        Attempt 3].
Proof.
  destruct (retryWithBackoff_policy failsTwice)
    as (_ & _ & Hdelay & Hexample & _).
  destruct (Hexample _ _ okResponse eq_refl eq_refl eq_refl eq_refl eq_refl
              eq_refl eq_refl eq_refl) as (Hout & Htr & _).
  split; [exact Hout|]. split; [exact Htr|]. split.
  - destruct (Hdelay 1%nat ltac:(lia)) as (H5xx & _).
    + intros k Hk. assert (k = 0%nat) as -> by lia. discriminate.
    + exact (H5xx _ eq_refl eq_refl ltac:(simpl; lia)).
  - destruct (retryWithBackoff_policy alwaysOffline)
      as (_ & _ & _ & _ & _ & Hexhausted).
    destruct (Hexhausted networkError) as (Hthrow & Htrace & _);
      [discriminate | reflexivity |].
    split; [exact Hthrow | exact Htrace].
Defined.

(** C3, the claim as it stands, fails where it says that the network-level
    error is re-thrown: when every call fails with the error of the network,
    what [retryWithBackoff] throws after the four attempts is another error,
    with another message. *)
Lemma retryWithBackoff_rethrow_counterexample :
  ~ (forall fetchFn error,
       (forall n, fetchFn n = Fails error) ->
       outcome (retryWithBackoff fetchFn) = Throw error).
Proof.
  intros H. specialize (H alwaysOffline networkError (fun _ => eq_refl)).
  vm_compute in H. discriminate.
Qed.

(** ** Facts about [parseSSEStream] *)

Lemma startsWith_data (data : string) :
  startsWith ("data: " ++ data)%string "data: " = true.
Proof. unfold startsWith. simpl. by destruct data. Qed.

Lemma substring_all (s : string) : String.substring 0 (String.length s) s = s.
Proof. induction s as [|c s IH]; simpl; [done | by rewrite IH]. Qed.

Lemma substringFrom_data (data : string) :
  substringFrom ("data: " ++ data)%string 6 = data.
Proof. unfold substringFrom. simpl. rewrite Nat.sub_0_r. apply substring_all. Qed.

Section SSEFacts.

Variable JSON_parse : string -> option json.
Variable onChunk : bool.

(** The line [data: [DONE]] leaves the loop over the lines of the chunk, and
    the lines of the chunk that follow it are not read. *)
Lemma processLine_DONE (st : sseState) (line : string) :
  JS.trim line = "data: [DONE]" ->
  processLine JSON_parse onChunk st line = (st, true).
Proof. intros H. unfold processLine. rewrite H. reflexivity. Qed.

Lemma processLines_DONE (st : sseState) (before after : list string)
    (line : string) :
  JS.trim line = "data: [DONE]" ->
  processLines JSON_parse onChunk st (before ++ line :: after)
  = processLines JSON_parse onChunk st before.
Proof.
  intros H. revert st.
  induction before as [|l before IH]; intros st; simpl.
  - by rewrite (processLine_DONE st line H).
  - destruct (processLine JSON_parse onChunk st l) as [st' []]; [done|].
    apply IH.
Qed.

(** A data line whose payload [JSON.parse] rejects changes nothing and does
    not leave the loop. *)
Lemma processLine_malformed (st : sseState) (line data : string) :
  JS.trim line = ("data: " ++ data)%string ->
  JSON_parse data = None ->
  data <> "[DONE]" ->
  processLine JSON_parse onChunk st line = (st, false).
Proof.
  intros Hline Hparse Hdata. unfold processLine. rewrite Hline.
  rewrite startsWith_data, substringFrom_data.
  change (String.eqb ("data: " ++ data) "") with false. cbv iota.
  apply String.eqb_neq in Hdata. by rewrite Hdata, Hparse.
Qed.

(** What [parseSSEStream] returns when the reader ends without an error: the
    content accumulated, or the reasoning accumulated when there is no
    content. *)
Lemma parseSSEStream_returns (stream : Stream) :
  readError stream = None ->
  let st := fold_left (processChunk JSON_parse onChunk) (chunks stream)
              initialState in
  outcome (parseSSEStream JSON_parse onChunk stream)
  = Normal (if String.eqb (accumulatedContent st) ""
            then accumulatedReasoning st else accumulatedContent st).
Proof. intros H. unfold parseSSEStream. by rewrite H. Qed.

End SSEFacts.

(** C4, the code at the failing input.  The reader delivers the line
    [data: [DONE]] in a first chunk and an event with the content X in a
    second one.  The [break] at [DONE] leaves the loop over the lines of the
    first chunk only: the reader is read again, the event of the second
    chunk is parsed, [onChunk] is called with X, and X is returned. *)
Theorem parseSSEStream_reads_past_DONE :
  parseSSEStream Json.parse true doneThenContent
  = ([StreamChunk "X" false], Normal "X").
Proof. vm_compute. reflexivity. Qed.

(** A line that is not JSON between two events is skipped: the contents of
    the two events are accumulated. *)
Lemma parseSSEStream_skips_malformed :
  parseSSEStream Json.parse true malformedBetween
  = ([StreamChunk "A" false; StreamChunk "B" false], Normal "AB").
Proof. vm_compute. reflexivity. Qed.

(** ** Facts about [extractCriteria] *)

Lemma indexOf_absent (text needle : string) :
  (forall m, String.substring m (String.length needle) text <> needle) ->
  indexOf text needle 0 = (-1)%Z.
Proof.
  intros H. unfold indexOf.
  destruct (String.index 0 needle text) as [m|] eqn:E; [|done].
  by destruct (H m (String.index_correct1 _ _ _ _ E)).
Qed.

Lemma default_ids (phase : string) :
  map entry_id (rubric_categories (getDefaultCriteria phase)) = defaultIds.
Proof. reflexivity. Qed.

Lemma defaultIds_NoDup : NoDup defaultIds.
Proof.
  apply (bool_decide_unpack _). vm_compute. exact I.
Qed.

(** C7.  When the text has no occurrence of the table marker, and when the
    table yields no category, [extractCriteria] returns the default rubric of
    the phase; the default rubric has the sixteen ids 1a to 6b; and
    [extractCriteria] never returns a rubric without categories. *)
Theorem extractCriteria_default (text phase : string) :
  ((forall m, String.substring m 7 text <> "Table 2") ->
   extractCriteria text phase = getDefaultCriteria phase)
  /\ (rubric_categories
        (parseTableRows
           (tableTextOf text (Z.to_nat (indexOf text "Table 2" 0))) phase) = [] ->
      extractCriteria text phase = getDefaultCriteria phase)
  /\ map entry_id (rubric_categories (getDefaultCriteria phase))
     = ["1a"; "1b"; "2a"; "2b"; "3a"; "3b"; "3c"; "4a"; "4b"; "4c";
        "5a"; "5b"; "5c"; "5d"; "6a"; "6b"]
  /\ length (rubric_categories (getDefaultCriteria phase)) = 16%nat
  /\ rubric_categories (extractCriteria text phase) <> [].
Proof.
  repeat split.
  - intros Hno. unfold extractCriteria.
    by rewrite (indexOf_absent text "Table 2" Hno).
  - intros Hempty. unfold extractCriteria.
    destruct (indexOf text "Table 2" 0 =? -1)%Z; [done|].
    by rewrite Hempty.
  - unfold extractCriteria.
    destruct (indexOf text "Table 2" 0 =? -1)%Z; [done|].
    destruct (rubric_categories (parseTableRows _ phase)) eqn:E; [done|].
    simpl. by rewrite E.
Qed.

Lemma extractCriteria_default_witness :
  extractCriteria "A plan without a table" "mid" = getDefaultCriteria "mid"
  /\ extractCriteria "Table 2 is announced here but has no row" "end"
     = getDefaultCriteria "end".
Proof.
  destruct (extractCriteria_default "A plan without a table" "mid")
    as (Hmarker & _).
  destruct (extractCriteria_default
              "Table 2 is announced here but has no row" "end")
    as (_ & Hempty & _).
  split.
  - apply Hmarker. intros m.
    do 23 (destruct m as [|m]; [vm_compute; discriminate|]).
    vm_compute. discriminate.
  - apply Hempty. vm_compute. reflexivity.
Defined.

Lemma appendToLast_ids (categories : list RubricEntry) (cur text : string) :
  map entry_id (appendToLast categories cur text) = map entry_id categories.
Proof.
  induction categories as [|c [|c' rest] IH]; [done| |].
  - simpl. by destruct (String.eqb (entry_id c) cur).
  - change (map entry_id (appendToLast (c :: c' :: rest) cur text))
      with (entry_id c :: map entry_id (appendToLast (c' :: rest) cur text)).
    by rewrite IH.
Qed.

(** A line adds at most the id that it carries, at the end. *)
Lemma parseLine_ids (columnIndex : nat) (st : rowState) (line : string) :
  exists added,
    map entry_id (fst (parseLine columnIndex st line))
    = map entry_id (fst st) ++ added
    /\ added `sublist_of` option_list (rowId line).
Proof.
  destruct st as [categories current]. unfold parseLine, rowId.
  assert (exists added : list string,
            map entry_id categories = map entry_id categories ++ added
            /\ added `sublist_of` option_list (@None string)) as Hsame
    by (exists []; by rewrite app_nil_r).
  destruct (includes line "Proposal/Early Stage" || isSeparatorRow line);
    [exact Hsame|].
  destruct (negb (startsWith line "|")); [exact Hsame|].
  destruct (length (rowCells line) <? 3)%nat; [exact Hsame|].
  destruct (matchCategoryId (default ""%string (rowCells line !! 0%nat)))
    as [m|]; simpl option_list.
  - destruct (10 <? String.length _)%nat; simpl fst.
    + exists [toLowerCase m]. split; [|done]. by rewrite map_app.
    + exists []. split; [by rewrite app_nil_r | apply sublist_nil_l].
  - destruct current as [cur|]; [|exact Hsame].
    destruct (rowCells line !! columnIndex) as [cell|]; [|exact Hsame].
    destruct (10 <? String.length _)%nat; [|exact Hsame].
    simpl fst. exists []. split; [|done].
    by rewrite appendToLast_ids, app_nil_r.
Qed.

Lemma parseLines_ids (columnIndex : nat) (lines : list string) (st : rowState) :
  exists added,
    map entry_id (fst (fold_left (parseLine columnIndex) lines st))
    = map entry_id (fst st) ++ added
    /\ added `sublist_of` omap rowId lines.
Proof.
  revert st. induction lines as [|line lines IH]; intros st; simpl.
  - exists []. by rewrite app_nil_r.
  - destruct (IH (parseLine columnIndex st line)) as (l2 & Heq2 & Hsub2).
    destruct (parseLine_ids columnIndex st line) as (l1 & Heq1 & Hsub1).
    exists (l1 ++ l2). split.
    + by rewrite Heq2, Heq1, app_assoc.
    + change (omap rowId (line :: lines))
        with (match rowId line with
              | Some y => y :: omap rowId lines
              | None => omap rowId lines
              end).
      destruct (rowId line) as [y|]; simpl in Hsub1.
      * by apply (sublist_app l1 [y] l2 (omap rowId lines)).
      * apply sublist_nil_r in Hsub1 as ->. done.
Qed.

Lemma parseTableRows_ids (tableText phase : string) :
  map entry_id (rubric_categories (parseTableRows tableText phase))
  `sublist_of` omap rowId (JS.split "010" tableText).
Proof.
  unfold parseTableRows.
  destruct (parseLines_ids (default 0%nat (lookup phaseColumnMap phase))
              (JS.split "010" tableText) ([], None)) as (added & Heq & Hsub).
  destruct (fold_left _ _ _) as [categories current]. simpl in *.
  by rewrite Heq.
Qed.

(** C8, as amended.  The default rubric has pairwise distinct ids, and the
    rubric that [extractCriteria] returns has pairwise distinct ids when no
    id is carried by two rows of the table. *)
Theorem extractCriteria_ids_distinct (text phase : string) :
  NoDup (map entry_id (rubric_categories (getDefaultCriteria phase)))
  /\ (NoDup (tableRowIds text) ->
      NoDup (map entry_id (rubric_categories (extractCriteria text phase)))).
Proof.
  split; [rewrite default_ids; apply defaultIds_NoDup|].
  unfold tableRowIds, extractCriteria.
  destruct (indexOf text "Table 2" 0 =? -1)%Z.
  - intros _. rewrite default_ids. apply defaultIds_NoDup.
  - intros Hrows.
    destruct (length (rubric_categories (parseTableRows _ phase)) =? 0)%nat.
    + rewrite default_ids. apply defaultIds_NoDup.
    + exact (sublist_NoDup _ _ Hrows (parseTableRows_ids _ phase)).
Qed.

Lemma extractCriteria_ids_distinct_witness :
  NoDup (map entry_id (rubric_categories (extractCriteria distinctRowText "end"))).
Proof.
  destruct (extractCriteria_ids_distinct distinctRowText "end") as (_ & H).
  apply H. apply (bool_decide_unpack _). vm_compute. exact I.
Defined.

(** C8, the claim as it stands, fails on a table with two rows for one id:
    for the phase mid, the rubric extracted has two entries with the id
    1a. *)
Lemma extractCriteria_ids_distinct_counterexample :
  map entry_id (rubric_categories (extractCriteria repeatedRowText "mid"))
  = ["1a"; "1a"]
  /\ ~ NoDup (map entry_id
                (rubric_categories (extractCriteria repeatedRowText "mid"))).
Proof.
  assert (map entry_id (rubric_categories (extractCriteria repeatedRowText "mid"))
          = ["1a"; "1a"]) as H by (vm_compute; reflexivity).
  split; [exact H|]. rewrite H.
  intros [Hin _]%NoDup_cons. apply Hin. left.
Qed.

(** ** Facts about [evaluate] *)

Lemma bind_Normal {A B} (m : M A) (f : A -> M B) (t : list event) (a : A) :
  m = (t, Normal a) ->
  Eff.bind m f = (t ++ trace (f a), outcome (f a)).
Proof. intros ->. unfold Eff.bind, trace, outcome. by destruct (f a). Qed.

Lemma bind_Throw {A B} (m : M A) (f : A -> M B) (t : list event) (e : Error) :
  m = (t, Throw e) -> Eff.bind m f = (t, Throw e).
Proof. by intros ->. Qed.

(** A handler that returns: the [try] statement never throws. *)
Lemma tryCatch_returns {A} (m : M A) (h : Error -> A) :
  tryCatch m (fun e => ret (h e))
  = (trace m,
     Normal (match outcome m with Normal a => a | Throw e => h e end)).
Proof.
  destruct m as [t [a | e]]; simpl; [done|]. by rewrite app_nil_r.
Qed.

(** The requests of a trace. *)
Lemma fetches_app (t1 t2 : list event) :
  List.filter isFetch (t1 ++ t2)
  = List.filter isFetch t1 ++ List.filter isFetch t2.
Proof. apply List.filter_app. Qed.

Lemma updateProgress_quiet (onProgress : callback) (msg : string) :
  (forall f m, onProgress = Some f -> f m = Normal tt) ->
  exists t, updateProgress onProgress msg = (t, Normal tt)
            /\ List.filter isFetch t = [].
Proof.
  intros Hquiet. destruct onProgress as [f|].
  - exists [Progress msg]. unfold updateProgress. rewrite bind_emit.
    unfold lift. rewrite (Hquiet f msg eq_refl). done.
  - by exists [].
Qed.

Lemma noFetch_ret {A} (a : A) : noFetch (ret a).
Proof. reflexivity. Qed.

Lemma noFetch_throw {A} (e : Error) : noFetch (@throw A e).
Proof. reflexivity. Qed.

Lemma noFetch_lift {A} (c : completion A) : noFetch (lift c).
Proof. reflexivity. Qed.

Lemma noFetch_bind {A B} (m : M A) (f : A -> M B) :
  noFetch m -> (forall a, noFetch (f a)) -> noFetch (Eff.bind m f).
Proof.
  unfold noFetch. destruct m as [t [a | e]]; simpl; intros Hm Hf; [|done].
  specialize (Hf a). destruct (f a) as [t' r]. simpl in *.
  by rewrite fetches_app, Hm, Hf.
Qed.

Lemma noFetch_tryCatch {A} (m : M A) (h : Error -> M A) :
  noFetch m -> (forall e, noFetch (h e)) -> noFetch (tryCatch m h).
Proof.
  unfold noFetch. destruct m as [t [a | e]]; simpl; intros Hm Hh; [done|].
  specialize (Hh e). destruct (h e) as [t' r]. simpl in *.
  by rewrite fetches_app, Hm, Hh.
Qed.

Lemma noFetch_parseTextFile (file : File) : noFetch (parseTextFile file).
Proof. unfold parseTextFile. by destruct (data file). Qed.

(** Decoding a file makes a request only for a Word document. *)
Lemma parseFile_fetches (p : Platform) (file : File) :
  let extension := extensionOf (toLowerCase (FileParser.name file)) in
  extension <> "doc" -> extension <> "docx" ->
  noFetch (parseFile p (Some file)).
Proof.
  intros extension Hdoc Hdocx. unfold parseFile. fold extension.
  apply String.eqb_neq in Hdoc, Hdocx. rewrite Hdoc, Hdocx. simpl orb.
  apply noFetch_bind; [|intros; apply noFetch_ret].
  repeat match goal with
         | |- context [String.eqb extension ?s] =>
             destruct (String.eqb extension s); simpl orb; cbv iota
         end;
    try (apply noFetch_bind; [|intros; apply noFetch_ret]);
    try apply noFetch_throw.
  - apply noFetch_parseTextFile.
  - unfold parseJsonFile.
    apply noFetch_bind; [apply noFetch_parseTextFile|].
    intros text. destruct (jsonReformat p text);
      [apply noFetch_ret | apply noFetch_throw].
  - unfold parsePdfFile.
    destruct (pdfjs p); [|apply noFetch_throw].
    destruct (data file); [|apply noFetch_throw].
    apply noFetch_tryCatch; [|intros; apply noFetch_throw].
    apply noFetch_bind; [apply noFetch_lift | intros; apply noFetch_ret].
  - unfold parseHtmlFile.
    apply noFetch_bind; [apply noFetch_parseTextFile | intros; apply noFetch_ret].
  - unfold parseHtmlFile.
    apply noFetch_bind; [apply noFetch_parseTextFile | intros; apply noFetch_ret].
  - apply noFetch_parseTextFile.
  - apply noFetch_parseTextFile.
Qed.

Section OrchestratorFacts.

Variable lc : string -> string -> Z.
Variable platform : Platform.
Variable formatFileSize : Z -> string.
Variable buildEvaluationPrompt : Rubric -> string -> string -> string * string.
Variable evaluateDMP : string -> string -> (string -> M unit) -> M RawResults.
Variable now selectedModel : string.

Local Notation "'run'" :=
  (evaluate lc platform formatFileSize buildEvaluationPrompt evaluateDMP
     now selectedModel).
Local Notation "'body'" :=
  (evaluateBody lc platform formatFileSize buildEvaluationPrompt evaluateDMP
     now selectedModel).

Lemma evaluate_unfold criteriaFile dmpFile phase onProgress :
  run criteriaFile dmpFile phase onProgress
  = (trace (body criteriaFile dmpFile phase onProgress),
     Normal (match outcome (body criteriaFile dmpFile phase onProgress) with
             | Normal r => r
             | Throw e => failureOf now criteriaFile dmpFile phase (message e)
             end)).
Proof. unfold evaluate. apply tryCatch_returns. Qed.

(** The block of [try] on a document that decodes to a short text. *)
Lemma evaluateBody_short criteriaFile dmpFile phase onProgress
    t1 criteriaData t2 dmpData :
  (forall f m, onProgress = Some f -> f m = Normal tt) ->
  parseFile platform criteriaFile = (t1, Normal criteriaData) ->
  fst (validateCriteria (extractCriteria (text criteriaData) phase)) = true ->
  parseFile platform dmpFile = (t2, Normal dmpData) ->
  (String.length (text dmpData) < 100)%nat ->
  outcome (body criteriaFile dmpFile phase onProgress) = Throw (mkError tooShort)
  /\ List.filter isFetch (trace (body criteriaFile dmpFile phase onProgress))
     = List.filter isFetch t1 ++ List.filter isFetch t2.
Proof.
  intros Hquiet Hcriteria Hvalid Hdmp Hshort.
  destruct criteriaFile as [cf|]; [|discriminate].
  destruct dmpFile as [df|]; [|discriminate].
  unfold evaluateBody. cbn [nameOf]. rewrite bind_ret.
  destruct (updateProgress_quiet onProgress
              (if endsWith (toLowerCase (FileParser.name cf)) ".doc"
               then "Extracting .doc file with AI..."
               else "Parsing evaluation criteria...") Hquiet) as (p1 & -> & Hp1).
  rewrite (bind_Normal _ _ p1 tt eq_refl).
  rewrite (bind_Normal _ _ t1 criteriaData Hcriteria).
  rewrite Hvalid. cbn [negb]. rewrite bind_ret.
  destruct (updateProgress_quiet onProgress
              ("Criteria loaded: "
               ++ pretty (length (rubric_categories
                                    (extractCriteria (text criteriaData) phase)))
               ++ " categories")%string Hquiet) as (p2 & -> & Hp2).
  rewrite (bind_Normal _ _ p2 tt eq_refl). rewrite bind_ret.
  destruct (updateProgress_quiet onProgress
              (if endsWith (toLowerCase (FileParser.name df)) ".doc"
               then "Extracting .doc file with AI..."
               else "Parsing DMP document...") Hquiet) as (p3 & -> & Hp3).
  rewrite (bind_Normal _ _ p3 tt eq_refl).
  rewrite (bind_Normal _ _ t2 dmpData Hdmp).
  destruct (updateProgress_quiet onProgress
              ("DMP document parsed: "
               ++ formatFileSize (fileSize dmpData))%string Hquiet)
    as (p4 & -> & Hp4).
  rewrite (bind_Normal _ _ p4 tt eq_refl).
  rewrite (proj2 (Nat.ltb_lt _ _) Hshort). rewrite bind_throw.
  cbn [trace outcome fst snd throw]. split; [done|].
  rewrite !fetches_app, Hp1, Hp2, Hp3, Hp4. cbn [List.filter app].
  by rewrite !app_nil_r.
Qed.

End OrchestratorFacts.

(** C2, as amended.  [evaluate] never throws: it returns an object, and when
    a stage throws, the object is the failure that carries the message of
    the error and the metadata.  When the two documents are decoded, the
    rubric is valid and the text of the DMP has fewer than 100 characters,
    [evaluate] returns the failure whose message says that the document is
    too short; the only requests made until then are those made while
    decoding the two documents, so that no prompt is built and the
    evaluation request is not sent; and no request at all is made when
    neither document is a Word document. *)
Theorem evaluate_never_throws
    (lc : string -> string -> Z) (platform : Platform)
    (formatFileSize : Z -> string)
    (buildEvaluationPrompt : Rubric -> string -> string -> string * string)
    (evaluateDMP : string -> string -> (string -> M unit) -> M RawResults)
    (now selectedModel : string)
    (criteriaFile dmpFile : option File) (phase : string)
    (onProgress : callback) :
  let run :=
    evaluate lc platform formatFileSize buildEvaluationPrompt evaluateDMP
      now selectedModel criteriaFile dmpFile phase onProgress in
  let body :=
    evaluateBody lc platform formatFileSize buildEvaluationPrompt evaluateDMP
      now selectedModel criteriaFile dmpFile phase onProgress in
  (exists r, outcome run = Normal r)
  /\ (forall e, outcome body = Throw e ->
        outcome run
        = Normal (failureOf now criteriaFile dmpFile phase (message e)))
  /\ (forall t1 criteriaData t2 dmpData,
        (forall f m, onProgress = Some f -> f m = Normal tt) ->
        parseFile platform criteriaFile = (t1, Normal criteriaData) ->
        fst (validateCriteria (extractCriteria (text criteriaData) phase)) = true ->
        parseFile platform dmpFile = (t2, Normal dmpData) ->
        (String.length (text dmpData) < 100)%nat ->
        outcome run = Normal (failureOf now criteriaFile dmpFile phase tooShort)
        /\ success (failureOf now criteriaFile dmpFile phase tooShort) = false
        /\ List.filter isFetch (trace run)
           = List.filter isFetch t1 ++ List.filter isFetch t2
        /\ ((forall file,
               criteriaFile = Some file \/ dmpFile = Some file ->
               extensionOf (toLowerCase (FileParser.name file)) <> "doc"
               /\ extensionOf (toLowerCase (FileParser.name file)) <> "docx") ->
            List.filter isFetch (trace run) = [])).
Proof.
  intros run body. subst run body. rewrite evaluate_unfold.
  cbn [trace outcome fst snd]. split; [eauto|]. split.
  - intros e He. by rewrite He.
  - intros t1 criteriaData t2 dmpData Hquiet Hcriteria Hvalid Hdmp Hshort.
    destruct (evaluateBody_short lc platform formatFileSize
                buildEvaluationPrompt evaluateDMP now selectedModel
                criteriaFile dmpFile phase onProgress
                t1 criteriaData t2 dmpData Hquiet Hcriteria Hvalid Hdmp Hshort)
      as (Hout & Hfetch).
    rewrite Hout. split; [done|]. split; [done|]. split; [exact Hfetch|].
    intros Hext. rewrite Hfetch.
    destruct criteriaFile as [cf|]; [|discriminate].
    destruct dmpFile as [df|]; [|discriminate].
    destruct (Hext cf (or_introl eq_refl)) as [Hc1 Hc2].
    destruct (Hext df (or_intror eq_refl)) as [Hd1 Hd2].
    pose proof (parseFile_fetches platform cf Hc1 Hc2) as Hqc.
    pose proof (parseFile_fetches platform df Hd1 Hd2) as Hqd.
    unfold noFetch in *. rewrite Hcriteria in Hqc. rewrite Hdmp in Hqd.
    simpl in *. by rewrite Hqc, Hqd.
Qed.

Lemma criteriaMd_decoded :
  parseFile cleanupPlatform (Some criteriaMd)
  = ([], Normal {| text := "Criteria: see the guideline"; type := "md";
                   isJson := false; fileSize := 27;
                   fileName := "criteria.md" |}).
Proof. vm_compute. reflexivity. Qed.

Lemma shortTxt_decoded :
  parseFile cleanupPlatform (Some shortTxt)
  = ([], Normal {| text := "Our data will be stored on the institute's server.";
                   type := "txt"; isJson := false; fileSize := 50;
                   fileName := "plan.txt" |}).
Proof. vm_compute. reflexivity. Qed.

Lemma evaluate_never_throws_witness :
  outcome (evaluateIn cleanupPlatform (Some criteriaMd) (Some shortTxt))
  = Normal (failureOf "2026-01-01T00:00:00.000Z" (Some criteriaMd)
              (Some shortTxt) "proposal" tooShort)
  /\ List.filter isFetch
       (trace (evaluateIn cleanupPlatform (Some criteriaMd) (Some shortTxt)))
     = [].
Proof.
  destruct (evaluate_never_throws codeUnitCompare cleanupPlatform
              (fun _ => "128 Bytes") (fun _ _ _ => ("system", "user"))
              (fun _ _ _ => ret emptyRaw) "2026-01-01T00:00:00.000Z" "model"
              (Some criteriaMd) (Some shortTxt) "proposal" None)
    as (_ & _ & Hshort).
  destruct (Hshort _ _ _ _ ltac:(discriminate) criteriaMd_decoded
              ltac:(vm_compute; reflexivity) shortTxt_decoded
              ltac:(vm_compute; lia))
    as (Hout & _ & _ & Hquiet).
  split; [exact Hout|].
  apply Hquiet. intros file [[= <-] | [= <-]]; split; vm_compute; discriminate.
Defined.

(** C2, the claim as it stands, fails for a legacy Word document: decoding
    it sends its text to the model to be cleaned, the answer has fewer than
    100 characters, and [evaluate] returns the failure for a short document
    after that request. *)
Lemma evaluate_short_document_counterexample :
  (exists t dmpData,
     parseFile cleanupPlatform (Some legacyDoc) = (t, Normal dmpData)
     /\ (String.length (text dmpData) < 100)%nat)
  /\ outcome (evaluateIn cleanupPlatform (Some criteriaMd) (Some legacyDoc))
     = Normal (failureOf "2026-01-01T00:00:00.000Z" (Some criteriaMd)
                 (Some legacyDoc) "proposal" tooShort)
  /\ ~ (forall ev,
          ev ∈ trace (evaluateIn cleanupPlatform (Some criteriaMd) (Some legacyDoc)) ->
          isFetch ev = false).
Proof.
  split; [|split].
  - eexists _, _. split; [vm_compute; reflexivity|]. vm_compute. lia.
  - vm_compute. reflexivity.
  - intros Hnone.
    assert (List.filter isFetch
              (trace (evaluateIn cleanupPlatform (Some criteriaMd) (Some legacyDoc)))
            <> []) as Hsome by (vm_compute; discriminate).
    apply Hsome. clear Hsome.
    induction (trace _) as [|ev t IH]; [done|]. simpl.
    rewrite (Hnone ev) by left. apply IH. intros ev' Hev'. apply Hnone. by right.
Qed.


(** * Further properties of the code *)

Import ExportService.

(** ** The bands of a score *)

(** X1.  The functions that present a score cut it at the same
    thresholds as [determineStatus]: the colour class of a score is
    [score-] followed by its status, the badge class of the status of a
    score is the class of its progress bar, and the label and the colour of
    the report are those of the status, the label of the status poor being
    Needs Improvement. *)
Theorem score_bands_agree (score : double) :
  getScoreColorClass score = ("score-" ++ determineStatus score)%string
  /\ getStatusBadgeClass (determineStatus score) = getProgressBarClass score
  /\ CriteriaExtractor.lookup
       [ ("excellent", "Excellent"); ("good", "Good"); ("fair", "Fair");
         ("poor", "Needs Improvement") ]
       (determineStatus score)
     = Some (getStatusLabel score)
  /\ CriteriaExtractor.lookup
       [ ("excellent", [25; 135; 84]%Z); ("good", [13; 202; 240]%Z);
         ("fair", [255; 193; 7]%Z); ("poor", [220; 53; 69]%Z) ]
       (determineStatus score)
     = Some (getScoreColor score).
Proof.
  unfold getScoreColorClass, getStatusBadgeClass, getProgressBarClass,
    getStatusLabel, getScoreColor, determineStatus.
  destruct (Double.ge score (ofZ 90)); [by repeat split|].
  destruct (Double.ge score (ofZ 75)); [by repeat split|].
  destruct (Double.ge score (ofZ 60)); by repeat split.
Qed.

(** ** The summary of a result *)

Lemma countStatus_cons (label : string) (c : CategoryResult) (l : list CategoryResult) :
  countStatus label (c :: l)
  = ((if decide (Evaluator.status c = label) then 1 else 0) + countStatus label l)%nat.
Proof.
  unfold countStatus. rewrite filter_cons.
  by destruct (decide (Evaluator.status c = label)).
Qed.

Lemma countStatus_known (l : list CategoryResult) :
  (countStatus "excellent" l + countStatus "good" l
   + countStatus "fair" l + countStatus "poor" l)%nat
  = length (filter knownStatus l).
Proof.
  induction l as [|c l IH]; [done|].
  rewrite !countStatus_cons, filter_cons.
  unfold knownStatus at 1.
  destruct (decide (Evaluator.status c ∈ ["excellent"; "good"; "fair"; "poor"]))
    as [Hin | Hout].
  - simpl length. rewrite <- IH.
    rewrite !elem_of_cons, elem_of_nil in Hin.
    destruct Hin as [-> | [-> | [-> | [-> | []]]]]; simpl; lia.
  - rewrite <- IH.
    repeat match goal with
           | |- context [decide (Evaluator.status c = ?s)] =>
               destruct (decide (Evaluator.status c = s)) as [Heq | _];
               [exfalso; apply Hout; rewrite Heq;
                rewrite !elem_of_cons; tauto|]
           end.
    lia.
Qed.

Lemma filter_length_all {A} (P : A -> Prop) `{!forall x, Decision (P x)}
    (l : list A) :
  length (filter P l) = length l <-> Forall P l.
Proof.
  induction l as [|x l IH]; [by split|].
  rewrite filter_cons, Forall_cons.
  pose proof (length_filter P l) as Hle.
  destruct (decide (P x)); simpl.
  - rewrite <- IH. split; [intros; split; [done|lia] | intros [_ ->]; done].
  - split; [lia | tauto].
Qed.

(** X2.  The four counts of the summary never add up to more than the
    number of categories, and they add up to it exactly when every status
    is one of excellent, good, fair and poor: a category whose status is
    another text is counted in none of them. *)
Theorem generateSummary_statusCounts (results : EvaluationResult) :
  exists s,
    generateSummary (Some results) = Some s
    /\ totalCategories s = length (categories results)
    /\ (excellent (statusCounts s) + good (statusCounts s)
        + fair (statusCounts s) + poor (statusCounts s)
        <= totalCategories s)%nat
    /\ ((excellent (statusCounts s) + good (statusCounts s)
         + fair (statusCounts s) + poor (statusCounts s))%nat
        = totalCategories s
        <-> Forall (fun c => Evaluator.status c
                             ∈ ["excellent"; "good"; "fair"; "poor"])
                   (categories results)).
Proof.
  eexists. split; [reflexivity|]. cbn [totalCategories statusCounts
    excellent good fair poor].
  rewrite countStatus_known.
  split; [done|]. split; [apply length_filter|].
  apply (filter_length_all knownStatus).
Qed.

Lemma sum_bounds (l : list Z) (lo hi : Z) :
  Forall (fun y => (lo <= y <= hi)%Z) l ->
  (Z.of_nat (length l) * lo <= foldr Z.add 0 l <= Z.of_nat (length l) * hi)%Z.
Proof.
  induction 1 as [|y l Hy _ IH]; simpl length; simpl foldr; [lia|].
  rewrite Nat2Z.inj_succ. lia.
Qed.

Lemma rounded_quotient_between (s n lo hi : Z) :
  (0 < n)%Z -> (n * lo <= s <= n * hi)%Z ->
  (lo <= (2 * s + n) / (2 * n) <= hi)%Z.
Proof.
  intros Hn Hs. split.
  - apply Z.div_le_lower_bound; lia.
  - apply Z.lt_succ_r. apply Z.div_lt_upper_bound; lia.
Qed.

(** [NaN] is absorbing for the three operations that [generateSummary]
    folds over the scores. *)
Lemma fold_left_NaN (f : double -> double -> double) (l : list double)
    (acc : double) :
  (forall x, f DNaN x = DNaN) -> (forall a, f a DNaN = DNaN) ->
  acc = DNaN \/ DNaN ∈ l -> fold_left f l acc = DNaN.
Proof.
  intros Hl Hr. revert acc.
  induction l as [|x l IH]; intros acc [Hacc | Hin]; simpl.
  - done.
  - by apply elem_of_nil in Hin.
  - apply IH. left. by rewrite Hacc, Hl.
  - apply IH. apply elem_of_cons in Hin as [<- | Hin]; [left; apply Hr | by right].
Qed.

Lemma add_NaN_r (a : double) : Double.add a DNaN = DNaN.
Proof. by destruct a. Qed.

Lemma max_NaN_r (a : double) : Double.max a DNaN = DNaN.
Proof. by destruct a. Qed.

Lemma min_NaN_r (a : double) : Double.min a DNaN = DNaN.
Proof. by destruct a. Qed.

(** The order of the numbers that are not [NaN]. *)
Lemma ge_refl (a : double) : isNaN a = false -> Double.ge a a = true.
Proof.
  destruct a as [|[|]|q]; try done. intros _.
  rewrite ge_DFin. apply Qle_bool_iff, Qle_refl.
Qed.

Lemma ge_trans (a b c : double) :
  Double.ge a b = true -> Double.ge b c = true -> Double.ge a c = true.
Proof.
  destruct a as [|[|]|qa], b as [|[|]|qb], c as [|[|]|qc]; try done.
  rewrite !ge_DFin, !Qle_bool_iff. intros H1 H2. by apply Qle_trans with qb.
Qed.

Lemma ge_total (a b : double) :
  isNaN a = false -> isNaN b = false ->
  Double.lt a b = true -> Double.ge b a = true.
Proof.
  destruct a as [|[|]|qa], b as [|[|]|qb]; try done. intros _ _.
  rewrite ge_DFin. cbn [Double.lt]. intros H%negb_true_iff.
  by apply Qle_bool_false.
Qed.

Lemma ge_of_not_lt (a b : double) :
  isNaN a = false -> isNaN b = false ->
  Double.lt a b = false -> Double.ge a b = true.
Proof. unfold Double.ge. by intros -> -> ->. Qed.

Lemma max_cases (a b : double) :
  isNaN a = false -> isNaN b = false ->
  (Double.max a b = a \/ Double.max a b = b)
  /\ isNaN (Double.max a b) = false
  /\ Double.ge (Double.max a b) a = true
  /\ Double.ge (Double.max a b) b = true.
Proof.
  intros Ha Hb. unfold Double.max. rewrite Ha, Hb. cbn [orb].
  destruct (Double.lt a b) eqn:Hlt.
  - split; [by right|]. split; [done|].
    split; [by apply ge_total | by apply ge_refl].
  - split; [by left|]. split; [done|].
    split; [by apply ge_refl | by apply ge_of_not_lt].
Qed.

Lemma min_cases (a b : double) :
  isNaN a = false -> isNaN b = false ->
  (Double.min a b = a \/ Double.min a b = b)
  /\ isNaN (Double.min a b) = false
  /\ Double.ge a (Double.min a b) = true
  /\ Double.ge b (Double.min a b) = true.
Proof.
  intros Ha Hb. unfold Double.min. rewrite Ha, Hb. cbn [orb].
  destruct (Double.lt b a) eqn:Hlt.
  - split; [by right|]. split; [done|].
    split; [by apply ge_total | by apply ge_refl].
  - split; [by left|]. split; [done|].
    split; [by apply ge_refl | by apply ge_of_not_lt].
Qed.

Lemma fold_left_max_spec (l : list double) (x : double) :
  isNaN x = false -> Forall (fun y => isNaN y = false) l ->
  Double.ge (fold_left Double.max l x) x = true
  /\ Forall (fun y => Double.ge (fold_left Double.max l x) y = true) l
  /\ fold_left Double.max l x ∈ x :: l.
Proof.
  revert x. induction l as [|y l IH]; intros x Hx Hl; simpl.
  - split; [by apply ge_refl|]. split; [constructor | left].
  - apply Forall_cons in Hl as [Hy Hl].
    destruct (max_cases x y Hx Hy) as (Hc & Hn & Hgx & Hgy).
    destruct (IH (Double.max x y) Hn Hl) as (H1 & H2 & H3).
    split; [by apply ge_trans with (Double.max x y)|].
    split; [constructor; [by apply ge_trans with (Double.max x y) | done]|].
    apply elem_of_cons in H3 as [H3 | H3]; [|right; by right].
    rewrite H3. destruct Hc as [-> | ->]; [left | right; left].
Qed.

Lemma fold_left_min_spec (l : list double) (x : double) :
  isNaN x = false -> Forall (fun y => isNaN y = false) l ->
  Double.ge x (fold_left Double.min l x) = true
  /\ Forall (fun y => Double.ge y (fold_left Double.min l x) = true) l
  /\ fold_left Double.min l x ∈ x :: l.
Proof.
  revert x. induction l as [|y l IH]; intros x Hx Hl; simpl.
  - split; [by apply ge_refl|]. split; [constructor | left].
  - apply Forall_cons in Hl as [Hy Hl].
    destruct (min_cases x y Hx Hy) as (Hc & Hn & Hgx & Hgy).
    destruct (IH (Double.min x y) Hn Hl) as (H1 & H2 & H3).
    split; [by apply ge_trans with (Double.min x y)|].
    split; [constructor; [by apply ge_trans with (Double.min x y) | done]|].
    apply elem_of_cons in H3 as [H3 | H3]; [|right; by right].
    rewrite H3. destruct Hc as [-> | ->]; [left | right; left].
Qed.

(** [Math.max] and [Math.min] of numbers none of which is [NaN]. *)
Lemma Math_max_spec (l : list double) :
  l <> [] -> Forall (fun y => isNaN y = false) l ->
  Math_max l ∈ l /\ Forall (fun y => Double.ge (Math_max l) y = true) l.
Proof.
  intros Hne Hl. unfold Math_max.
  destruct (fold_left_max_spec l (DInf true) eq_refl Hl) as (_ & H2 & H3).
  split; [|done].
  apply elem_of_cons in H3 as [H3 | H3]; [|done].
  destruct l as [|y l]; [done|]. rewrite H3 in *.
  apply Forall_cons in H2 as [H2 _].
  destruct y as [|[|]|q]; try done. left.
Qed.

Lemma Math_min_spec (l : list double) :
  l <> [] -> Forall (fun y => isNaN y = false) l ->
  Math_min l ∈ l /\ Forall (fun y => Double.ge y (Math_min l) = true) l.
Proof.
  intros Hne Hl. unfold Math_min.
  destruct (fold_left_min_spec l (DInf false) eq_refl Hl) as (_ & H2 & H3).
  split; [|done].
  apply elem_of_cons in H3 as [H3 | H3]; [|done].
  destruct l as [|y l]; [done|]. rewrite H3 in *.
  apply Forall_cons in H2 as [H2 _].
  destruct y as [|[|]|q]; try done. left.
Qed.

Lemma not_NaN_iff (l : list double) :
  DNaN ∉ l <-> Forall (fun y => isNaN y = false) l.
Proof.
  rewrite Forall_forall. split.
  - intros Hnot y Hy. by destruct y.
  - intros Hall Hin. by specialize (Hall _ Hin).
Qed.

Lemma inScoreRange_integer (x : double) :
  integral x -> inScoreRange x -> (0 <= integerOf x <= 100)%Z.
Proof.
  intros Hx [H0 H100]. rewrite Hx in H0, H100.
  rewrite ge_ofZ in H0, H100. apply Z.leb_le in H0, H100. lia.
Qed.

Lemma integral_not_NaN (x : double) : integral x -> isNaN x = false.
Proof. by intros ->. Qed.

Lemma averageOf_integers (scores : list double) :
  scores <> [] ->
  Forall (fun x => integral x /\ (0 <= integerOf x <= 100)%Z) scores ->
  (Z.of_nat (length scores) < 2 ^ 32)%Z ->
  let total := foldr Z.add 0%Z (map integerOf scores) in
  let count := Z.of_nat (length scores) in
  averageOf scores = ofZ ((2 * total + count) / (2 * count))%Z.
Proof.
  intros Hne Hall Hlen total count. unfold averageOf.
  destruct (integer_scores scores Hall Hlen) as (Hsum & _ & Hround).
  rewrite Hsum. by apply Hround.
Qed.

(** X3.  The summary of a result without categories has the
    average [NaN], the highest score minus infinity and the lowest score
    plus infinity.  When one of the scores is [NaN], so are the three.
    When none is, the lowest and the highest score are scores of the result
    and every score lies between them.  For scores that are integers
    between 0 and 100 the average lies between the two as well; it need
    not for other scores: of the single score 72.5 the average is 73, above
    the highest score. *)
Theorem generateSummary_extremes (results : EvaluationResult) :
  let scores := map score (categories results) in
  exists s,
    generateSummary (Some results) = Some s
    /\ (scores = [] ->
        averageScore s = DNaN /\ maxScore s = DInf true
        /\ minScore s = DInf false)
    /\ (DNaN ∈ scores ->
        averageScore s = DNaN /\ maxScore s = DNaN /\ minScore s = DNaN)
    /\ (scores <> [] -> DNaN ∉ scores ->
        minScore s ∈ scores /\ maxScore s ∈ scores
        /\ Forall (fun x => Double.ge x (minScore s) = true
                            /\ Double.ge (maxScore s) x = true) scores)
    /\ (scores <> [] ->
        Forall (fun x => integral x /\ inScoreRange x) scores ->
        (Z.of_nat (length scores) < 2 ^ 32)%Z ->
        exists lo avg hi,
          minScore s = ofZ lo /\ averageScore s = ofZ avg
          /\ maxScore s = ofZ hi /\ (lo <= avg <= hi)%Z)
    /\ (exists s',
          generateSummary
            (Some (processResults codeUnitCompare rawFractional
                     (rubricOf ["1a"])))
          = Some s'
          /\ maxScore s' = DFin (Qmake 145 2)
          /\ averageScore s' = ofZ 73
          /\ Double.lt (maxScore s') (averageScore s') = true).
Proof.
  intros scores. eexists. split; [reflexivity|].
  cbn [averageScore maxScore minScore]. fold scores.
  split; [by intros ->|]. split.
  { intros Hin. unfold averageOf, Math_max, Math_min.
    rewrite (fold_left_NaN Double.add), (fold_left_NaN Double.max),
      (fold_left_NaN Double.min);
      auto using add_NaN_r, max_NaN_r, min_NaN_r. }
  split.
  { intros Hne Hnot. apply not_NaN_iff in Hnot.
    destruct (Math_max_spec scores Hne Hnot) as [Hx1 Hx2].
    destruct (Math_min_spec scores Hne Hnot) as [Hn1 Hn2].
    split; [done|]. split; [done|].
    rewrite Forall_forall in Hx2, Hn2 |- *. intros x Hx.
    split; [by apply Hn2 | by apply Hx2]. }
  split; [|by eexists].
  intros Hne Hall Hlen.
  assert (Forall (fun x => integral x /\ (0 <= integerOf x <= 100)%Z) scores)
    as Hint.
  { eapply Forall_impl; [exact Hall|]. intros x [Hx Hr].
    split; [done | by apply inScoreRange_integer]. }
  assert (Forall (fun y => isNaN y = false) scores) as Hnot.
  { eapply Forall_impl; [exact Hall|]. intros x [Hx _].
    by apply integral_not_NaN. }
  destruct (Math_max_spec scores Hne Hnot) as [Hx1 Hx2].
  destruct (Math_min_spec scores Hne Hnot) as [Hn1 Hn2].
  rewrite Forall_forall in Hall, Hx2, Hn2.
  pose proof (proj1 (Hall _ Hx1)) as Hhi.
  pose proof (proj1 (Hall _ Hn1)) as Hlo.
  set (total := foldr Z.add 0%Z (map integerOf scores)).
  set (count := Z.of_nat (length scores)).
  exists (integerOf (Math_min scores)),
    ((2 * total + count) / (2 * count))%Z, (integerOf (Math_max scores)).
  split; [exact Hlo|]. split; [by apply averageOf_integers|].
  split; [exact Hhi|].
  apply rounded_quotient_between.
  { unfold count. destruct scores; [done | simpl length; lia]. }
  unfold total, count. rewrite <- (length_map integerOf scores).
  apply sum_bounds. apply Forall_forall. intros z Hz.
  rewrite map_fmap in Hz. apply list_elem_of_fmap in Hz as (x & -> & Hx).
  pose proof (Hn2 _ Hx) as Hge1. pose proof (Hx2 _ Hx) as Hge2.
  rewrite (proj1 (Hall _ Hx)) in Hge1, Hge2. rewrite Hlo in Hge1.
  rewrite Hhi in Hge2. rewrite ge_ofZ in Hge1, Hge2.
  apply Z.leb_le in Hge1, Hge2. lia.
Qed.

Lemma orElseStr_empty (x : option string) (d : string) :
  orElseStr x "" = "" -> orElseStr x d = d.
Proof. destruct x as [[|]|]; simpl; congruence. Qed.

Lemma processResults_status_derived lc raw criteria (c : CategoryResult) :
  statusesDerived raw ->
  c ∈ categories (processResults lc raw criteria) ->
  Evaluator.status c = determineStatus (score c).
Proof.
  intros Hder Hc. apply elem_of_processResults in Hc as [Hc | (e & _ & _ & ->)];
    [|reflexivity].
  unfold mappedCategories in Hc. unfold statusesDerived in Hder.
  destruct (raw_categories raw) as [cats|]; [|by apply elem_of_nil in Hc].
  rewrite map_fmap in Hc. apply list_elem_of_fmap in Hc as (cat & -> & Hcat).
  simpl. rewrite (orElseStr_empty _ _ (Hder cat Hcat)).
  by rewrite determineStatus_clamp.
Qed.

(** The comparisons of [determineStatus] for a finite number, in integer
    arithmetic. *)
Ltac status_cases :=
  unfold determineStatus, Double.ge, Double.lt, ofZ, Qle_bool;
  cbn [isNaN negb andb Qnum Qden inject_Z];
  rewrite ?negb_involutive, ?Z.mul_1_r;
  repeat match goal with
         | |- context [(?a <=? ?b)%Z] => destruct (Z.leb_spec a b)
         end.

Lemma determineStatus_poor (x : double) :
  Double.lt x (ofZ 60) = true
  <-> determineStatus x = "poor" /\ isNaN x = false.
Proof.
  destruct x as [|[|]|q]; try (split; [done | by intros []]).
  status_cases; cbn [negb]; split; try done; try (by intros []); lia.
Qed.

Lemma determineStatus_strength (x : double) :
  Double.ge x (ofZ 80) = true ->
  determineStatus x = "excellent" \/ determineStatus x = "good".
Proof.
  destruct x as [|[|]|q]; try done; [by left|].
  status_cases; cbn [negb]; auto; try done; lia.
Qed.

Lemma determineStatus_known (x : double) :
  determineStatus x ∈ ["excellent"; "good"; "fair"; "poor"].
Proof.
  unfold determineStatus.
  repeat match goal with
         | |- context [if ?b then _ else _] => destruct b
         end; rewrite !elem_of_cons; tauto.
Qed.

Lemma filter_ext_in {A} (P Q : A -> Prop) `{!forall x, Decision (P x)}
    `{!forall x, Decision (Q x)} (l : list A) :
  (forall x, x ∈ l -> P x <-> Q x) -> filter P l = filter Q l.
Proof.
  induction l as [|x l IH]; intros Hext; [done|].
  rewrite !filter_cons.
  assert (P x <-> Q x) as Hx by (apply Hext; left).
  rewrite IH by (intros y Hy; apply Hext; by right).
  destruct (decide (P x)), (decide (Q x)); tauto.
Qed.

Lemma filter_and_length {A} (P Q : A -> Prop) `{!forall x, Decision (P x)}
    `{!forall x, Decision (Q x)} (l : list A) :
  (length (filter (fun x => P x /\ Q x) l) <= length (filter P l))%nat
  /\ (length (filter (fun x => P x /\ Q x) l) = length (filter P l)
      <-> Forall (fun x => P x -> Q x) l).
Proof.
  induction l as [|x l [IH1 IH2]]; [by split|].
  rewrite !filter_cons, Forall_cons.
  destruct (decide (P x)) as [Hp | Hp], (decide (P x /\ Q x)) as [Hpq | Hpq];
    simpl length.
  - split; [lia|]. rewrite <- IH2.
    split; [intros; split; [tauto | lia] | intros [_ ->]; done].
  - split; [lia|]. split; [lia | tauto].
  - tauto.
  - split; [done|]. rewrite <- IH2. tauto.
Qed.

(** X4.  When the raw output gives no status, so that
    [processResults] derives every status from a score, the weaknesses of
    the summary are the categories with the status poor whose score is not
    [NaN]: a score that is not a number has the status poor and is no
    weakness.  So the weaknesses are at most as many as the count of poor,
    and as many exactly when no score is [NaN].  Every strength has the
    status excellent or good, and the four counts add up to the number of
    categories. *)
Theorem generateSummary_derived_statuses lc raw criteria :
  statusesDerived raw ->
  let cats := categories (processResults lc raw criteria) in
  exists s,
    generateSummary (Some (processResults lc raw criteria)) = Some s
    /\ weaknesses s
       = filter (fun c => Evaluator.status c = "poor"
                          /\ isNaN (score c) = false) cats
    /\ (length (weaknesses s) <= poor (statusCounts s))%nat
    /\ (length (weaknesses s) = poor (statusCounts s)
        <-> DNaN ∉ map score cats)
    /\ Forall (fun c => Evaluator.status c = "excellent"
                        \/ Evaluator.status c = "good") (strengths s)
    /\ (excellent (statusCounts s) + good (statusCounts s)
        + fair (statusCounts s) + poor (statusCounts s))%nat
       = totalCategories s.
Proof.
  intros Hder cats. eexists. split; [reflexivity|].
  cbn [weaknesses strengths statusCounts excellent good fair poor totalCategories].
  fold cats.
  assert (forall c, c ∈ cats -> Evaluator.status c = determineStatus (score c))
    as Hst
    by (intros c Hc; by apply (processResults_status_derived lc raw criteria)).
  assert (filter (fun c => Double.lt (score c) (ofZ 60) = true) cats
          = filter (fun c => Evaluator.status c = "poor"
                             /\ isNaN (score c) = false) cats) as Hw.
  { apply filter_ext_in. intros c Hc. rewrite (Hst c Hc).
    apply determineStatus_poor. }
  destruct (filter_and_length (fun c => Evaluator.status c = "poor")
              (fun c => isNaN (score c) = false) cats) as [Hle Heq].
  split; [done|]. rewrite Hw. unfold countStatus at 1 2.
  split; [done|]. split.
  { rewrite Heq, not_NaN_iff, Forall_map. split.
    - intros Hall. apply Forall_forall. intros c Hc.
      rewrite Forall_forall in Hall.
      specialize (Hall c Hc). rewrite (Hst c Hc) in Hall.
      destruct (score c); try done. by apply Hall.
    - intros Hall. eapply Forall_impl; [exact Hall|]. by intros c Hc _. }
  split.
  - apply Forall_forall. intros c Hc.
    apply list_elem_of_filter in Hc as [Hs Hc].
    rewrite (Hst c Hc). by apply determineStatus_strength.
  - rewrite countStatus_known.
    apply (filter_length_all knownStatus).
    apply Forall_forall. intros c Hc. unfold knownStatus.
    rewrite (Hst c Hc). apply determineStatus_known.
Qed.

Lemma rounded_quotient_antitone (s n m : Z) :
  (0 <= s)%Z -> (0 < n <= m)%Z ->
  ((2 * s + m) / (2 * m) <= (2 * s + n) / (2 * n))%Z.
Proof.
  intros Hs Hnm.
  pose proof (rounded_quotient_spec s m ltac:(lia)) as Hq. simpl in Hq.
  set (q := ((2 * s + m) / (2 * m))%Z) in *.
  apply Z.div_le_lower_bound; [lia|].
  destruct (Z.le_gt_cases q 0); nia.
Qed.

Lemma processResults_integers lc raw criteria :
  Forall (fun c => integral (score c)) (mappedCategories raw) ->
  Forall (fun x => integral x /\ (0 <= integerOf x <= 100)%Z)
         (map score (categories (processResults lc raw criteria))).
Proof.
  intros Hall. apply mappedCategories_integers in Hall.
  rewrite Forall_forall in Hall. apply Forall_forall. intros x Hx.
  rewrite map_fmap in Hx. apply list_elem_of_fmap in Hx as (c & -> & Hc).
  apply elem_of_processResults in Hc as [Hc | (e & _ & _ & ->)].
  - apply Hall. rewrite map_fmap. by apply list_elem_of_fmap_2.
  - change (score (placeholder e)) with (ofZ 0).
    split; [apply integral_ofZ | rewrite integerOf_ofZ; lia].
Qed.

(** X5.  When the raw output has categories whose scores are
    integers and no overall score, the average of the summary is at most
    the overall score of the result: the average counts the placeholders,
    which the overall score leaves out.  The two are equal when the raw
    output covers the rubric. *)
Theorem summary_average_le_overallScore lc raw criteria :
  isTruthy (raw_overallScore raw) = false ->
  mappedCategories raw <> [] ->
  Forall (fun c => integral (score c)) (mappedCategories raw) ->
  (Z.of_nat (length (categories (processResults lc raw criteria))) < 2 ^ 32)%Z ->
  exists s avg overall,
    generateSummary (Some (processResults lc raw criteria)) = Some s
    /\ averageScore s = ofZ avg
    /\ overallScore (processResults lc raw criteria) = VNumber (ofZ overall)
    /\ (avg <= overall)%Z
    /\ ((forall e, e ∈ rubric_categories criteria ->
                   entry_id e ∈ map id (mappedCategories raw)) ->
        avg = overall).
Proof.
  intros Hzero Hne Hint Hlen.
  set (res := processResults lc raw criteria) in *.
  set (cats := categories res) in *.
  set (s0 := integerTotal (mappedCategories raw)).
  set (n0 := Z.of_nat (length (mappedCategories raw))).
  set (n1 := Z.of_nat (length cats)) in *.
  assert (0 < n0)%Z as Hn0.
  { unfold n0. destruct (mappedCategories raw); [done | simpl length; lia]. }
  assert (n0 <= n1)%Z as Hn01.
  { unfold n0, n1, cats, res.
    rewrite (Permutation_length (processResults_Permutation lc raw criteria)).
    rewrite length_app. lia. }
  destruct (recalculate_integers lc raw criteria Hzero Hne Hint
              ltac:(fold n0; lia)) as [Hov Hs0].
  fold res s0 n0 in Hov, Hs0.
  assert (averageOf (map score cats) = ofZ ((2 * s0 + n1) / (2 * n1))%Z) as Hav.
  { rewrite averageOf_integers.
    - rewrite length_map, sumScores_foldr. fold n1.
      unfold cats, res. by rewrite processResults_sum.
    - intros Hnil. apply (f_equal length) in Hnil.
      rewrite length_map in Hnil. simpl in Hnil. unfold n1 in Hn01. lia.
    - by apply processResults_integers.
    - by rewrite length_map. }
  eexists. exists ((2 * s0 + n1) / (2 * n1))%Z, ((2 * s0 + n0) / (2 * n0))%Z.
  split; [reflexivity|]. cbn [averageScore]. fold res. fold cats.
  split; [done|]. split; [done|]. split.
  - apply rounded_quotient_antitone; lia.
  - intros Hcov. unfold n1, cats, res, processResults. cbn [categories].
    rewrite (Permutation_length (sort_Permutation _ _)).
    by rewrite fillMissing_nothing.
Qed.

Lemma rawOmitting_scores :
  map score
    (categories
       (processResults codeUnitCompare rawOmitting (rubricOf ["1a"; "1b"])))
  = [ofZ 0; ofZ 80].
Proof. vm_compute. reflexivity. Qed.

Lemma generateSummary_extremes_witness :
  exists s,
    generateSummary
      (Some (processResults codeUnitCompare rawOmitting (rubricOf ["1a"; "1b"])))
    = Some s
    /\ exists lo avg hi,
         minScore s = ofZ lo /\ averageScore s = ofZ avg
         /\ maxScore s = ofZ hi /\ (lo <= avg <= hi)%Z.
Proof.
  destruct (generateSummary_extremes
              (processResults codeUnitCompare rawOmitting
                 (rubricOf ["1a"; "1b"])))
    as (s & Hs & _ & _ & _ & Hintegers & _).
  exists s. split; [exact Hs|].
  rewrite rawOmitting_scores in Hintegers.
  apply Hintegers; [discriminate | | reflexivity].
  repeat constructor.
Defined.

Lemma statusesDerived_rawNotANumber : statusesDerived rawNotANumber.
Proof.
  intros cat Hcat. simpl in Hcat.
  apply list_elem_of_singleton in Hcat. by subst cat.
Qed.

Lemma generateSummary_derived_statuses_witness :
  exists s,
    generateSummary
      (Some (processResults codeUnitCompare rawNotANumber (rubricOf ["1a"])))
    = Some s
    /\ length (weaknesses s) = 0%nat
    /\ poor (statusCounts s) = 1%nat
    /\ (length (weaknesses s) <= poor (statusCounts s))%nat.
Proof.
  destruct (generateSummary_derived_statuses codeUnitCompare rawNotANumber
              (rubricOf ["1a"]) statusesDerived_rawNotANumber)
    as (s & Hs & _ & Hle & _).
  exists s. split; [exact Hs|].
  injection Hs as <-. split; [reflexivity|]. split; [reflexivity|].
  exact Hle.
Defined.

Lemma summary_average_le_overallScore_witness :
  exists s avg overall,
    generateSummary
      (Some (processResults codeUnitCompare rawOmitting (rubricOf ["1a"; "1b"])))
    = Some s
    /\ averageScore s = ofZ avg
    /\ overallScore
         (processResults codeUnitCompare rawOmitting (rubricOf ["1a"; "1b"]))
       = VNumber (ofZ overall)
    /\ (avg <= overall)%Z.
Proof.
  destruct (summary_average_le_overallScore codeUnitCompare rawOmitting
              (rubricOf ["1a"; "1b"]) eq_refl ltac:(discriminate)
              rawOmitting_integers eq_refl)
    as (s & avg & overall & Hs & Havg & Hov & Hle & _).
  exists s, avg, overall. split; [exact Hs|]. split; [exact Havg|].
  split; [exact Hov | exact Hle].
Defined.

(** ** Validation and decoding of files *)

Lemma validateFile_valid (file : File) (allowedExtensions : list string) :
  valid (validateFile (Some file) allowedExtensions) = true
  <-> getFileExtension file = "doc"
      \/ (getFileExtension file ∈ allowedExtensions
          /\ (FileParser.size file <= 50 * 1024 * 1024)%Z).
Proof.
  unfold validateFile, getFileExtension.
  set (extension := extensionOf (toLowerCase (FileParser.name file))).
  destruct (String.eqb_spec extension "doc") as [Hdoc | Hdoc];
    [split; [by left | done]|].
  destruct (bool_decide_reflect (extension ∈ allowedExtensions)) as [Hin | Hout];
    simpl negb; cbv iota.
  - destruct (Z.ltb_spec (50 * 1024 * 1024) (FileParser.size file)); simpl.
    + split; [done | intros [? | [_ ?]]; [done | lia]].
    + split; [intros _; right; split; [done | lia] | done].
  - simpl. split; [done | intros [? | [? _]]; done].
Qed.

(** X6.  [validateFile] accepts a file exactly when its extension
    is doc, or its extension is in the list of allowed extensions and its
    size is at most 50 MB: a file with the extension doc is accepted
    whatever the list and whatever its size.  The warning is set exactly
    for the extension doc. *)
Theorem validateFile_accepts (file : File) (allowedExtensions : list string) :
  (valid (validateFile (Some file) allowedExtensions) = true
   <-> getFileExtension file = "doc"
       \/ (getFileExtension file ∈ allowedExtensions
           /\ (FileParser.size file <= 50 * 1024 * 1024)%Z))
  /\ (warning (validateFile (Some file) allowedExtensions) = true
      <-> getFileExtension file = "doc").
Proof.
  split; [apply validateFile_valid|].
  unfold validateFile, getFileExtension.
  set (extension := extensionOf (toLowerCase (FileParser.name file))).
  destruct (String.eqb_spec extension "doc") as [Hdoc | Hdoc]; [done|].
  destruct (negb (bool_decide (extension ∈ allowedExtensions))); [done|].
  by destruct (50 * 1024 * 1024 <? FileParser.size file)%Z.
Qed.

Lemma outcome_bind_ret {A B} (m : M A) (g : A -> B) (e : Error) :
  outcome (do x <- m; ret (g x)) = Throw e -> outcome m = Throw e.
Proof. destruct m as [t [a | e']]; simpl; [discriminate | congruence]. Qed.

Lemma outcome_bind_throw {A B} (m : M A) (f : A -> M B) (e : Error) :
  outcome m = Throw e -> outcome (Eff.bind m f) = Throw e.
Proof. destruct m as [t [a | e']]; simpl; [discriminate | congruence]. Qed.

Lemma outcome_tryCatch_throw {A} (m : M A) (h : Error -> M A) (e : Error) :
  outcome (tryCatch m h) = Throw e ->
  exists e', outcome m = Throw e' /\ outcome (h e') = Throw e.
Proof.
  destruct m as [t [a | e']]; simpl; [discriminate|].
  destruct (h e') as [t' r] eqn:Hh. simpl. intros ->.
  exists e'. by rewrite Hh.
Qed.

(** The errors of the decoders. *)
Lemma parseTextFile_error (file : File) (e : Error) :
  outcome (parseTextFile file) = Throw e -> message e = "Text file read failed".
Proof.
  unfold parseTextFile, outcome, ret, throw.
  destruct (data file); simpl; [discriminate|]. by intros [= <-].
Qed.

Lemma parseJsonFile_error (p : Platform) (file : File) (e : Error) :
  outcome (parseJsonFile p file) = Throw e ->
  message e = "Text file read failed" \/ message e = "Invalid JSON format".
Proof.
  unfold parseJsonFile, parseTextFile, outcome, Eff.bind, ret, throw.
  destruct (data file) as [bytes|]; simpl.
  - destruct (jsonReformat p bytes); simpl; [discriminate|]. intros [= <-]. by right.
  - intros [= <-]. by left.
Qed.

Lemma parseDocxFile_error (p : Platform) (file : File) (e : Error) :
  outcome (parseDocxFile p file) = Throw e ->
  JS.startsWith (message e) "Unsupported file type" = false.
Proof.
  unfold parseDocxFile.
  destruct (mammoth p) as [extract|]; [|by intros [= <-]].
  destruct (data file) as [bytes|]; [|by intros [= <-]].
  destruct (isZip bytes); simpl negb; cbv iota.
  - intros H. apply outcome_tryCatch_throw in H as (e' & _ & H).
    destruct (JS.includes (message e') "end of central directory");
      by injection H as <-.
  - intros H. apply outcome_tryCatch_throw in H as (e' & _ & H).
    by injection H as <-.
Qed.

Lemma parsePdfFile_error (p : Platform) (file : File) (e : Error) :
  outcome (parsePdfFile p file) = Throw e ->
  JS.startsWith (message e) "Unsupported file type" = false.
Proof.
  unfold parsePdfFile.
  destruct (pdfjs p) as [pages|]; [|by intros [= <-]].
  destruct (data file) as [bytes|]; [|by intros [= <-]].
  intros H. apply outcome_tryCatch_throw in H as (e' & _ & H).
  by injection H as <-.
Qed.

Lemma parseHtmlFile_error (p : Platform) (file : File) (e : Error) :
  outcome (parseHtmlFile p file) = Throw e -> message e = "Text file read failed".
Proof.
  unfold parseHtmlFile. intros H. apply outcome_bind_ret in H.
  by apply parseTextFile_error in H.
Qed.

Lemma elem_of_defaultAllowedExtensions (extension : string) :
  extension ∈ defaultAllowedExtensions
  <-> (String.eqb extension "txt" || String.eqb extension "json"
       || (String.eqb extension "docx" || String.eqb extension "doc")
       || String.eqb extension "pdf"
       || (String.eqb extension "html" || String.eqb extension "htm")
       || (String.eqb extension "md" || String.eqb extension "markdown")) = true.
Proof.
  unfold defaultAllowedExtensions.
  rewrite !elem_of_cons, elem_of_nil, !orb_true_iff, !String.eqb_eq. tauto.
Qed.

(** X7.  The validator and the decoder agree on the extensions:
    [parseFile] fails for want of a decoder exactly when the extension of
    the file is not in the default list of [validateFile], so a file that
    [validateFile] accepts with that list is never refused by [parseFile] as
    an unsupported type. *)
Theorem parseFile_unsupported (p : Platform) (file : File) :
  (unsupported (parseFile p (Some file))
   <-> getFileExtension file ∉ defaultAllowedExtensions)
  /\ (valid (validateFile (Some file) defaultAllowedExtensions) = true ->
      ~ unsupported (parseFile p (Some file))).
Proof.
  assert (unsupported (parseFile p (Some file))
          <-> getFileExtension file ∉ defaultAllowedExtensions) as Hiff.
  { rewrite elem_of_defaultAllowedExtensions.
    unfold getFileExtension, parseFile, unsupported.
    set (extension := extensionOf (toLowerCase (FileParser.name file))).
    split.
    - intros (e & He & Hmsg) Hsupp.
      apply outcome_bind_ret in He.
      destruct (String.eqb extension "txt").
      { apply outcome_bind_ret, parseTextFile_error in He.
        by rewrite He in Hmsg. }
      destruct (String.eqb extension "json").
      { apply outcome_bind_ret, parseJsonFile_error in He as [He | He];
          by rewrite He in Hmsg. }
      destruct (String.eqb extension "docx" || String.eqb extension "doc").
      { apply outcome_bind_ret, parseDocxFile_error in He. congruence. }
      destruct (String.eqb extension "pdf").
      { apply outcome_bind_ret, parsePdfFile_error in He. congruence. }
      destruct (String.eqb extension "html" || String.eqb extension "htm").
      { apply outcome_bind_ret, parseHtmlFile_error in He.
        by rewrite He in Hmsg. }
      destruct (String.eqb extension "md" || String.eqb extension "markdown").
      { apply outcome_bind_ret, parseTextFile_error in He.
        by rewrite He in Hmsg. }
      done.
    - intros Hno.
      destruct (String.eqb extension "txt"); [done|].
      destruct (String.eqb extension "json"); [done|].
      destruct (String.eqb extension "docx" || String.eqb extension "doc");
        [done|].
      destruct (String.eqb extension "pdf"); [done|].
      destruct (String.eqb extension "html" || String.eqb extension "htm");
        [done|].
      destruct (String.eqb extension "md" || String.eqb extension "markdown");
        [done|].
      eexists. split; [reflexivity|]. reflexivity. }
  split; [exact Hiff|].
  intros Hvalid Huns. apply Hiff in Huns.
  apply validateFile_valid in Hvalid as [Hdoc | [Hin _]]; [|done].
  apply Huns. rewrite Hdoc. unfold defaultAllowedExtensions.
  rewrite !elem_of_cons. tauto.
Qed.

Lemma split_nonempty (sep : ascii) (s : string) : JS.split sep s <> [].
Proof.
  destruct s as [|c s]; simpl; [done|].
  destruct (Ascii.eqb c sep); [done|]. by destruct (JS.split sep s).
Qed.

Lemma last_split_cons (sep c : ascii) (s : string) :
  last (JS.split sep (String c s))
  = if Ascii.eqb c sep then last (JS.split sep s)
    else match JS.split sep s with
         | [w] => Some (String c w)
         | _ => last (JS.split sep s)
         end.
Proof.
  simpl. destruct (Ascii.eqb c sep).
  - pose proof (split_nonempty sep s).
    by destruct (JS.split sep s) as [|w ws].
  - pose proof (split_nonempty sep s).
    destruct (JS.split sep s) as [|w [|w' ws]]; done.
Qed.

Lemma split_dotFree (s : string) : dotFree s -> JS.split "." s = [s].
Proof.
  unfold dotFree. induction s as [|c s IH]; simpl; [done|].
  intros H. apply Forall_cons in H as [Hc Hs].
  destruct (Ascii.eqb_spec c "."); [done|]. by rewrite IH.
Qed.

Lemma extensionOf_append (base ext : string) :
  dotFree ext ->
  extensionOf (base ++ String "." ext)%string = ext.
Proof.
  intros Hext. unfold extensionOf.
  induction base as [|c base IH].
  - simpl. rewrite (split_dotFree ext Hext). done.
  - change ((String c base ++ String "." ext)%string)
      with (String c (base ++ String "." ext)%string).
    rewrite last_split_cons.
    destruct (Ascii.eqb c "."); [done|].
    destruct (JS.split "." (base ++ String "." ext)%string) as [|w [|w' ws]] eqn:Hs;
      [done| |done].
    exfalso. clear IH.
    (* a text with a dot splits in two pieces or more *)
    revert w Hs. induction base as [|d base IHb]; intros w Hs.
    + simpl in Hs. injection Hs as _ Hs. by apply split_nonempty in Hs.
    + change ((String d base ++ String "." ext)%string)
        with (String d (base ++ String "." ext)%string) in Hs.
      simpl in Hs. destruct (Ascii.eqb d ".").
      * injection Hs as _ Hs. by apply split_nonempty in Hs.
      * destruct (JS.split "." (base ++ String "." ext)%string) as [|v [|v' vs]] eqn:Hv;
          [by apply split_nonempty in Hv | | discriminate].
        by apply (IHb v).
Qed.

Lemma toLowerCase_append (a b : string) :
  toLowerCase (a ++ b)%string = (toLowerCase a ++ toLowerCase b)%string.
Proof. induction a as [|c a IH]; simpl; [done | by rewrite IH]. Qed.

Lemma lowerChar_dot (c : ascii) : c <> "."%char -> lowerChar c <> "."%char.
Proof.
  intros Hc. unfold lowerChar, inRange, code.
  destruct c as [[] [] [] [] [] [] [] []]; vm_compute; congruence.
Qed.

Lemma dotFree_toLowerCase (s : string) : dotFree s -> dotFree (toLowerCase s).
Proof.
  unfold dotFree. induction s as [|c s IH]; simpl; [done|].
  intros H. apply Forall_cons in H as [Hc Hs].
  constructor; [by apply lowerChar_dot | by apply IH].
Qed.

(** X8.  The extension of a file is the text after the last dot of
    its name, in lower case; a name without a dot is its own extension. *)
Theorem getFileExtension_after_last_dot (base ext : string) (size : Z)
    (data : option string) :
  dotFree ext ->
  getFileExtension
    {| FileParser.name := (base ++ String "." ext)%string;
       FileParser.size := size; FileParser.data := data |}
  = toLowerCase ext
  /\ getFileExtension
       {| FileParser.name := ext; FileParser.size := size;
          FileParser.data := data |}
     = toLowerCase ext.
Proof.
  intros Hext. unfold getFileExtension. cbn [FileParser.name].
  apply dotFree_toLowerCase in Hext. split.
  - rewrite toLowerCase_append.
    change (toLowerCase (String "." ext)) with (String "." (toLowerCase ext)).
    by apply extensionOf_append.
  - unfold extensionOf. by rewrite split_dotFree.
Qed.

Lemma getFileExtension_after_last_dot_witness :
  getFileExtension
    {| FileParser.name := "Plan.final.PDF"; FileParser.size := 1;
       FileParser.data := None |} = "pdf"
  /\ getFileExtension
       {| FileParser.name := "PDF"; FileParser.size := 1;
          FileParser.data := None |} = "pdf".
Proof.
  apply (getFileExtension_after_last_dot "Plan.final" "PDF" 1 None).
  repeat constructor; discriminate.
Defined.

Lemma trace_bind {A B} (m : M A) (f : A -> M B) :
  trace (Eff.bind m f)
  = trace m ++ match outcome m with
               | Normal a => trace (f a)
               | Throw _ => []
               end.
Proof.
  destruct m as [t [a | e]]; simpl; [|by rewrite app_nil_r].
  by destruct (f a).
Qed.

Lemma trace_tryCatch {A} (m : M A) (h : Error -> M A) :
  trace (tryCatch m h)
  = trace m ++ match outcome m with
               | Normal _ => []
               | Throw e => trace (h e)
               end.
Proof.
  destruct m as [t [a | e]]; simpl; [by rewrite app_nil_r|].
  by destruct (h e).
Qed.

Lemma requests_app (t1 t2 : list event) :
  requests (t1 ++ t2) = requests t1 ++ requests t2.
Proof. unfold requests. apply omap_app. Qed.

Lemma requests_noFetch {A} (m : M A) : noFetch m -> requests (trace m) = [].
Proof.
  unfold noFetch, requests. induction (trace m) as [|ev t IH]; [done|].
  simpl. destruct ev; simpl; try done. 
Qed.

(** Whether [cleanTextWithAI] is given a key, and a profile from which
    [generateFetchConfig] makes a request. *)
Lemma cleanTextWithAI_trace (p : Platform) (rawText : string) :
  requests (trace (cleanTextWithAI p rawText))
  = if negb (String.eqb (orElseStr (apiKey p) "") "")
       && bool_decide (is_Some (activeAuthHeaderTemplate p))
    then [cleanupRequest rawText] else [].
Proof.
  unfold cleanTextWithAI.
  destruct (apiKey p) as [[|c key]|]; [done| |done].
  change (String.eqb (orElseStr (Some (String c key)) "") "") with false.
  cbv iota. simpl negb. simpl andb.
  destruct (activeAuthHeaderTemplate p) as [template|]; [|done].
  rewrite bool_decide_true by done. cbn [generateFetchConfig].
  change (lift (Normal tt)) with (ret tt). rewrite bind_ret.
  rewrite trace_bind. cbn [emit trace outcome fst snd].
  rewrite requests_app. change (requests [Fetch (cleanupRequest rawText)])
    with [cleanupRequest rawText].
  fold (cleanupRequest rawText).
  destruct (fetch p (cleanupRequest rawText)) as [response | err]; [|done].
  destruct (LLMService.ok response); simpl negb; cbv iota; [|done].
  rewrite trace_bind. simpl trace at 1.
  destruct (LLMService.content response) as [[[|c' cleaned]|] | err]; done.
Qed.

Lemma extractDocTextWithAI_trace (p : Platform) (file : File) (bytes : string) :
  FileParser.data file = Some bytes ->
  requests (trace (extractDocTextWithAI p file))
  = if (100 <=? String.length (docText bytes))%nat && negb (testMode p)
       && negb (String.eqb (orElseStr (apiKey p) "") "")
       && bool_decide (is_Some (activeAuthHeaderTemplate p))
    then [cleanupRequest (docText bytes)] else [].
Proof.
  intros Hdata. unfold extractDocTextWithAI. rewrite Hdata.
  fold (docText bytes).
  destruct (Nat.ltb_spec (String.length (docText bytes)) 100) as [Hlt | Hge].
  - destruct (Nat.leb_spec 100 (String.length (docText bytes))); [lia | done].
  - destruct (Nat.leb_spec 100 (String.length (docText bytes))); [|lia].
    destruct (testMode p); simpl negb; cbv iota; [done|].
    rewrite trace_tryCatch, requests_app, cleanTextWithAI_trace.
    simpl andb.
    destruct (negb (String.eqb (orElseStr (apiKey p) "") "")
              && bool_decide (is_Some (activeAuthHeaderTemplate p)));
      cbv iota.
    + by destruct (outcome (cleanTextWithAI p (docText bytes))).
    + by destruct (outcome (cleanTextWithAI p (docText bytes))).
Qed.

Lemma parseDocxFile_trace (p : Platform) (file : File) :
  requests (trace (parseDocxFile p file))
  = match mammoth p, FileParser.data file with
    | Some _, Some bytes =>
        if negb (isZip bytes)
           && (100 <=? String.length (docText bytes))%nat
           && negb (testMode p)
           && negb (String.eqb (orElseStr (apiKey p) "") "")
           && bool_decide (is_Some (activeAuthHeaderTemplate p))
        then [cleanupRequest (docText bytes)] else []
    | _, _ => []
    end.
Proof.
  unfold parseDocxFile.
  destruct (mammoth p) as [extract|]; [|done].
  destruct (FileParser.data file) as [bytes|] eqn:Hdata; [|done].
  destruct (isZip bytes); simpl negb; cbv iota.
  - rewrite trace_tryCatch. simpl andb. cbv iota.
    unfold lift. cbn [trace outcome fst snd]. simpl app.
    destruct (extract bytes) as [t | err]; [done|].
    by destruct (JS.includes (message err) "end of central directory").
  - rewrite trace_tryCatch, requests_app.
    rewrite (extractDocTextWithAI_trace p file bytes Hdata).
    simpl andb.
    destruct (outcome (extractDocTextWithAI p file));
      cbn [throw trace fst]; by rewrite app_nil_r.
Qed.

Lemma parseFile_requests_eq (p : Platform) (file : File) :
  requests (trace (parseFile p (Some file)))
  = match mammoth p, FileParser.data file with
    | Some _, Some bytes =>
        if bool_decide (getFileExtension file ∈ ["docx"; "doc"])
           && negb (isZip bytes)
           && (100 <=? String.length (docText bytes))%nat
           && negb (testMode p)
           && negb (String.eqb (orElseStr (apiKey p) "") "")
           && bool_decide (is_Some (activeAuthHeaderTemplate p))
        then [cleanupRequest (docText bytes)] else []
    | _, _ => []
    end.
Proof.
  unfold getFileExtension.
  set (extension := extensionOf (toLowerCase (FileParser.name file))).
  destruct (bool_decide_reflect (extension ∈ ["docx"; "doc"])) as [Hin | Hout].
  - assert (parseFile p (Some file)
            = do text_isJson <- (do t <- parseDocxFile p file; ret (t, false));
              ret {| text := fst text_isJson; type := extension;
                     isJson := snd text_isJson;
                     fileSize := FileParser.size file;
                     fileName := FileParser.name file |}) as ->.
    { unfold parseFile. fold extension.
      rewrite !elem_of_cons, elem_of_nil in Hin.
      destruct Hin as [-> | [-> | []]]; reflexivity. }
    rewrite !trace_bind, !requests_app, parseDocxFile_trace.
    simpl andb.
    assert (forall A (c : completion A) (f : A -> list event),
              (forall a, requests (f a) = []) ->
              requests match c with Normal a => f a | Throw _ => [] end = [])
      as Hnone by (intros A [a | e] f Hf; [apply Hf | done]).
    rewrite !Hnone, !app_nil_r; [done| |].
    + intros a. reflexivity.
    + intros a. reflexivity.
  - rewrite requests_noFetch.
    + simpl andb. by destruct (mammoth p), (FileParser.data file).
    + apply parseFile_fetches; fold extension; intros ->; apply Hout;
        rewrite !elem_of_cons; tauto.
Qed.

(** X9.  The requests that decoding a file makes.  [parseFile] sends
    one request, the clean-up request for the text taken out of the bytes,
    when the extension is doc or docx, the Word library is loaded, the file
    is readable and is not a ZIP archive, the text has 100 characters or
    more, test mode is off, an API key is set and the active profile has the
    property [authHeaderTemplate], without which [generateFetchConfig]
    throws before the request; in every other case it sends none. *)
Theorem parseFile_requests (p : Platform) (file : File) :
  requests (trace (parseFile p (Some file)))
  = match mammoth p, FileParser.data file with
    | Some _, Some bytes =>
        if bool_decide (getFileExtension file ∈ ["docx"; "doc"])
           && negb (isZip bytes)
           && (100 <=? String.length (docText bytes))%nat
           && negb (testMode p)
           && negb (String.eqb (orElseStr (apiKey p) "") "")
           && bool_decide (is_Some (activeAuthHeaderTemplate p))
        then [cleanupRequest (docText bytes)] else []
    | _, _ => []
    end.
Proof. exact (parseFile_requests_eq p file). Qed.

Lemma cleanTextWithAI_outcome (p : Platform) (rawText t : string) :
  outcome (cleanTextWithAI p rawText) = Normal t ->
  t = rawText
  \/ (t <> ""
      /\ exists response,
           fetch p (cleanupRequest rawText) = Responds response
           /\ LLMService.ok response = true
           /\ LLMService.content response = Normal (Some t)).
Proof.
  unfold cleanTextWithAI.
  destruct (apiKey p) as [[|c key]|];
    [intros [= <-]; by left | | intros [= <-]; by left].
  fold (cleanupRequest rawText).
  destruct (activeAuthHeaderTemplate p) as [template|]; [|discriminate].
  cbn [generateFetchConfig]. change (lift (Normal tt)) with (ret tt).
  rewrite bind_ret, bind_emit. cbn [outcome snd].
  destruct (fetch p (cleanupRequest rawText)) as [response | err];
    [|discriminate].
  destruct (LLMService.ok response) eqn:Hok; simpl negb; cbv iota;
    [|discriminate].
  destruct (LLMService.content response) as [[[|c' cleaned]|] | err] eqn:Hc;
    try discriminate.
  intros [= <-]. right. split; [done|]. by exists response.
Qed.

(** X10.  A Word document that is not a ZIP archive.  When fewer than
    100 characters can be taken out of its bytes, [parseDocxFile] fails with
    the advice to save the file as docx.  Otherwise it returns a text,
    whatever the endpoint does: the text taken out of the bytes, or, outside
    test mode, the content that an OK response gave for the clean-up
    request. *)
Theorem parseDocxFile_legacy (p : Platform) (file : File) (bytes : string)
    (extractRawText : string -> completion string) :
  mammoth p = Some extractRawText ->
  FileParser.data file = Some bytes ->
  isZip bytes = false ->
  if (String.length (docText bytes) <? 100)%nat then
    outcome (parseDocxFile p file)
    = Throw (mkError
        ("DOC file could not be parsed. Try: Save as .docx or use "
         ++ String "034" "Paste Text Instead" ++ String "034" "."))
  else
    exists t,
      outcome (parseDocxFile p file) = Normal t
      /\ (t = docText bytes
          \/ (testMode p = false /\ t <> ""
              /\ exists response,
                   fetch p (cleanupRequest (docText bytes)) = Responds response
                   /\ LLMService.ok response = true
                   /\ LLMService.content response = Normal (Some t))).
Proof.
  intros Hm Hdata Hzip. unfold parseDocxFile. rewrite Hm, Hdata, Hzip.
  simpl negb. cbv iota. unfold extractDocTextWithAI. rewrite Hdata.
  fold (docText bytes).
  destruct (String.length (docText bytes) <? 100)%nat; [reflexivity|].
  destruct (testMode p); simpl negb; cbv iota.
  { exists (docText bytes). split; [reflexivity | by left]. }
  destruct (cleanTextWithAI p (docText bytes)) as [t [cleaned | err]] eqn:Hclean.
  - exists cleaned. split; [reflexivity|].
    destruct (cleanTextWithAI_outcome p (docText bytes) cleaned) as [-> | H];
      [by rewrite Hclean | by left | right; by split].
  - exists (docText bytes). split; [|by left].
    unfold tryCatch, ret. simpl. reflexivity.
Qed.

Lemma parseDocxFile_legacy_witness :
  exists t,
    outcome (parseDocxFile cleanupPlatform legacyDoc) = Normal t
    /\ (t = docText (default "" (FileParser.data legacyDoc))
        \/ (testMode cleanupPlatform = false /\ t <> ""
            /\ exists response,
                 fetch cleanupPlatform
                   (cleanupRequest (docText (default "" (FileParser.data legacyDoc))))
                 = Responds response
                 /\ LLMService.ok response = true
                 /\ LLMService.content response = Normal (Some t))).
Proof.
  exact (parseDocxFile_legacy cleanupPlatform legacyDoc
           (default "" (FileParser.data legacyDoc)) (fun _ => Normal "")
           eq_refl eq_refl eq_refl).
Defined.

Lemma length_substring_le (s : string) (a n : nat) :
  (String.length (String.substring a n s) <= n)%nat.
Proof.
  revert a n. induction s as [|c s IH]; intros a n.
  - destruct a, n; simpl; lia.
  - destruct a as [|a]; destruct n as [|n]; simpl; try lia.
    + specialize (IH 0%nat n). lia.
    + apply IH.
    + apply IH.
Qed.

(** X11.  The clean-up request carries at most the first 15000
    characters of the text: its user prompt is never longer than the
    introduction of 87 characters, 15000 characters and the truncation mark
    of 26, and a text of at most 15000 characters is sent whole. *)
Theorem cleanupRequest_bounded (rawText : string) :
  systemPrompt (cleanupRequest rawText) = cleanupSystemPrompt
  /\ (Z.of_nat (String.length (userPrompt (cleanupRequest rawText)))
      <= 87 + 15000 + 26)%Z
  /\ ((Z.of_nat (String.length rawText) <= 15000)%Z ->
      exists intro, userPrompt (cleanupRequest rawText) = (intro ++ rawText)%string
                    /\ String.length intro = 87%nat).
Proof.
  split; [reflexivity|].
  unfold cleanupRequest, cleanupUserPrompt. cbn [userPrompt].
  set (n := Z.to_nat 15000).
  set (intro := "Clean up this text extracted from a .doc file and return only the meaningful content:

").
  assert (String.length intro = 87%nat) as Hintro by reflexivity.
  split.
  - rewrite !length_append, Hintro.
    pose proof (length_substring_le rawText 0 (n - 0)) as Hsub.
    unfold JS.substring.
    assert (Z.of_nat (n - 0) = 15000%Z) as Hn by (unfold n; lia).
    destruct (15000 <? Z.of_nat (String.length rawText))%Z.
    + change (String.length (String "010" (String "010" "[... text truncated ...]")))
        with 26%nat. lia.
    + change (String.length "") with 0%nat. lia.
  - intros Hlen. exists intro. split; [|done].
    destruct (Z.ltb_spec 15000 (Z.of_nat (String.length rawText))); [lia|].
    f_equal. unfold JS.substring.
    assert (forall s k, (String.length s <= k)%nat -> String.substring 0 k s = s)
      as Hall.
    { induction s as [|c s IH]; intros k Hk; destruct k; simpl in *;
        try done; try lia. f_equal. apply IH. lia. }
    rewrite Hall by (unfold n; lia).
    clear. induction rawText as [|c s IH]; [done|].
    change (String c (s ++ "")%string = String c s). by f_equal.
Qed.

Section CharsOf.

Variable P : ascii -> Prop.

Lemma all_nil : allChars P "".
Proof. constructor. Qed.

Lemma all_String (c : ascii) (s : string) : allChars P (String c s) <-> P c /\ allChars P s.
Proof. unfold allChars. simpl. apply Forall_cons. Qed.

Lemma all_append (a b : string) : allChars P a -> allChars P b -> allChars P (a ++ b)%string.
Proof.
  intros Ha Hb. induction a as [|c a IH]; [done|].
  change (allChars P (String c (a ++ b)%string)).
  apply all_String in Ha as [Hc Ha]. apply all_String. auto.
Qed.

Lemma all_filterString (q : ascii -> bool) (s : string) :
  allChars P s -> allChars P (filterString q s).
Proof.
  induction s as [|c s IH]; [done|]. intros H.
  apply all_String in H as [Hc Hs]. simpl.
  destruct (q c); [apply all_String|]; auto.
Qed.

Lemma all_concat (l : list string) :
  Forall (allChars P) l -> allChars P (String.concat "" l).
Proof.
  induction 1 as [|s l Hs Hl IH]; [apply all_nil|].
  simpl. destruct l as [|s' l']; [done|].
  apply all_append; [done|]. apply all_append; [apply all_nil | done].
Qed.

Lemma all_spaceRuns (s : string) :
  allChars P s -> Forall (fun br => allChars P (snd br)) (spaceRuns s).
Proof.
  induction s as [|c s IH]; [by constructor|]. intros H.
  apply all_String in H as [Hc Hs]. specialize (IH Hs). simpl.
  destruct (spaceRuns s) as [|[b r] rest].
  - constructor; [|done]. simpl. apply all_String. split; [done | apply all_nil].
  - apply Forall_cons in IH as [Hr Hrest]. simpl in Hr.
    destruct (Bool.eqb b (isWhiteSpace c)).
    + constructor; [|done]. simpl. by apply all_String.
    + constructor; [|by constructor]. simpl. apply all_String.
      split; [done | apply all_nil].
Qed.

Lemma all_charRuns (s : string) :
  allChars P s -> Forall (fun cn => P (fst cn)) (charRuns s).
Proof.
  induction s as [|c s IH]; [by constructor|]. intros H.
  apply all_String in H as [Hc Hs]. specialize (IH Hs). simpl.
  destruct (charRuns s) as [|[d n] rest].
  - by constructor.
  - apply Forall_cons in IH as [Hd Hrest]. simpl in Hd.
    destruct (Ascii.eqb c d); constructor; try done. by constructor.
Qed.

Lemma all_repeatChar (c : ascii) (n : nat) : P c -> allChars P (repeatChar c n).
Proof.
  intros Hc. induction n as [|n IH]; [apply all_nil|].
  simpl. by apply all_String.
Qed.

Lemma all_trimStart (s : string) : allChars P s -> allChars P (trimStart s).
Proof.
  induction s as [|c s IH]; [done|]. intros H. simpl.
  destruct (isWhiteSpace c); [|done].
  apply all_String in H as [_ Hs]. auto.
Qed.

Lemma all_trimEnd (s : string) : allChars P s -> allChars P (trimEnd s).
Proof.
  induction s as [|c s IH]; [done|]. intros H.
  apply all_String in H as [Hc Hs]. specialize (IH Hs). simpl.
  destruct (trimEnd s) as [|d t].
  - destruct (isWhiteSpace c); [apply all_nil|].
    apply all_String. split; [done | apply all_nil].
  - by apply all_String.
Qed.

Lemma all_docText (bytes : string) :
  P "010"%char -> allChars P (filterString keepByte bytes) -> allChars P (docText bytes).
Proof.
  intros Hnl Hkept. unfold docText, JS.trim.
  apply all_trimEnd, all_trimStart.
  unfold dropRepetitions. apply all_concat.
  apply Forall_forall. intros r Hr. rewrite map_fmap in Hr.
  apply list_elem_of_fmap in Hr as ([c n] & -> & Hcn).
  assert (P c) as Hc.
  { pose proof (all_charRuns
                  (breakParagraphs
                     (filterString (fun c => negb (isControl c))
                        (filterString keepByte bytes)))) as Hruns.
    assert (allChars P
              (breakParagraphs
                 (filterString (fun c => negb (isControl c))
                    (filterString keepByte bytes)))) as Hbroken; [|
      rewrite Forall_forall in Hruns; by apply (Hruns Hbroken (c, n))].
    unfold breakParagraphs. apply all_concat.
    apply Forall_forall. intros r Hr. rewrite map_fmap in Hr.
    apply list_elem_of_fmap in Hr as ([b w] & -> & Hbw).
    pose proof (all_spaceRuns
                  (filterString (fun c => negb (isControl c))
                     (filterString keepByte bytes))
                  (all_filterString _ _ Hkept)) as Hsp.
    rewrite Forall_forall in Hsp. specialize (Hsp _ Hbw). simpl in Hsp.
    destruct (b && (3 <=? String.length w)%nat); [|done].
    apply all_String. split; [done|]. apply all_String. split; [done | apply all_nil]. }
  destruct (negb (isLineTerminator c) && (11 <=? n)%nat).
  - apply all_String. split; [done | apply all_nil].
  - by apply all_repeatChar.
Qed.

End CharsOf.

Lemma filterString_all (q : ascii -> bool) (s : string) :
  Forall (fun c => q c = true) (list_ascii_of_string (filterString q s)).
Proof.
  induction s as [|c s IH]; [apply all_nil|]. simpl.
  destruct (q c) eqn:Hq; [|done]. simpl. by constructor.
Qed.

(** X12.  In test mode the text that [extractDocTextWithAI] returns
    is taken out of the bytes without any request; it has 100 characters or
    more, and each of them is a printable ASCII character, a TAB, a line
    feed, a carriage return or a byte from 128. *)
Theorem extractDocTextWithAI_test_mode (p : Platform) (file : File) (t : string) :
  testMode p = true ->
  outcome (extractDocTextWithAI p file) = Normal t ->
  trace (extractDocTextWithAI p file) = []
  /\ allChars (fun c => keepByte c = true) t
  /\ (100 <= String.length t)%nat.
Proof.
  intros Htest. unfold extractDocTextWithAI. rewrite Htest.
  destruct (FileParser.data file) as [bytes|]; [|discriminate].
  fold (docText bytes).
  destruct (Nat.ltb_spec (String.length (docText bytes)) 100); [discriminate|].
  simpl. intros [= <-]. split; [done|]. split; [|done].
  apply all_docText; [reflexivity | apply filterString_all].
Qed.

Lemma extractDocTextWithAI_test_mode_witness :
  trace (extractDocTextWithAI testPlatform legacyDoc) = []
  /\ allChars (fun c => keepByte c = true)
       (docText (default "" (FileParser.data legacyDoc)))
  /\ (100 <= String.length (docText (default "" (FileParser.data legacyDoc))))%nat.
Proof.
  exact (extractDocTextWithAI_test_mode testPlatform legacyDoc
           (docText (default "" (FileParser.data legacyDoc))) eq_refl eq_refl).
Defined.

(** ** The entries of an extracted rubric *)

Lemma span_spec (p : ascii -> bool) (s a b : string) :
  JS.span p s = (a, b) ->
  s = (a ++ b)%string /\ allChars (fun c => p c = true) a.
Proof.
  revert a b. induction s as [|c s IH]; intros a b; simpl.
  - intros [= <- <-]. split; [done | constructor].
  - destruct (p c) eqn:Hc.
    + destruct (JS.span p s) as [a' b'] eqn:Hs. intros [= <- <-].
      destruct (IH a' b' eq_refl) as [-> Ha]. split; [done|].
      by apply all_String.
    + intros [= <- <-]. split; [done | constructor].
Qed.

Lemma matchCategoryId_shape (cell m : string) :
  matchCategoryId cell = Some m ->
  exists digits letter,
    m = (digits ++ String letter "")%string
    /\ digits <> ""
    /\ allChars (fun c => isDigit c = true) digits
    /\ isLetter letter = true.
Proof.
  induction cell as [|c cell IH]; [discriminate|].
  cbn [matchCategoryId].
  destruct (isDigit c) eqn:Hc; [|exact IH].
  destruct (JS.span isDigit (String c cell)) as [digits rest] eqn:Hspan.
  destruct rest as [|l rest]; [exact IH|].
  destruct (isLetter l) eqn:Hl; [|exact IH].
  intros [= <-]. exists digits, l. split; [done|].
  destruct (span_spec _ _ _ _ Hspan) as [_ Hdigits].
  split; [|done].
  simpl in Hspan. rewrite Hc in Hspan.
  destruct (JS.span isDigit cell). by injection Hspan as <- _.
Qed.

Lemma lowerChar_digit (c : ascii) : isDigit c = true -> lowerChar c = c.
Proof.
  destruct c as [[] [] [] [] [] [] [] []]; vm_compute; congruence.
Qed.

Lemma lowerChar_letter (c : ascii) :
  isLetter c = true -> inRange 97 122 (lowerChar c) = true.
Proof.
  destruct c as [[] [] [] [] [] [] [] []]; vm_compute; congruence.
Qed.

Lemma toLowerCase_digits (s : string) :
  allChars (fun c => isDigit c = true) s -> toLowerCase s = s.
Proof.
  induction s as [|c s IH]; [done|]. intros H.
  apply all_String in H as [Hc Hs]. simpl.
  by rewrite lowerChar_digit, IH.
Qed.

Lemma matchCategoryId_idShape (cell m : string) :
  matchCategoryId cell = Some m -> idShape (toLowerCase m).
Proof.
  intros H. apply matchCategoryId_shape in H as (digits & l & -> & Hne & Hd & Hl).
  exists digits, (lowerChar l).
  rewrite toLowerCase_append, (toLowerCase_digits _ Hd). split; [done|].
  split; [done|]. split; [done|]. by apply lowerChar_letter.
Qed.

Lemma appendToLast_tableEntry (categories : list RubricEntry) (cur text : string) :
  Forall tableEntry categories ->
  Forall tableEntry (appendToLast categories cur text).
Proof.
  induction categories as [|c [|c' rest] IH]; [done| |].
  - intros H. apply Forall_cons in H as [[Hid Hlen] _]. simpl.
    destruct (String.eqb (entry_id c) cur); [|by repeat constructor].
    constructor; [|constructor]. split; [done|]. simpl.
    rewrite length_append. lia.
  - intros H. apply Forall_cons in H as [Hc Hrest].
    change (appendToLast (c :: c' :: rest) cur text)
      with (c :: appendToLast (c' :: rest) cur text).
    constructor; [done | by apply IH].
Qed.

Lemma parseLine_tableEntry (columnIndex : nat) (st : rowState) (line : string) :
  Forall tableEntry (fst st) ->
  Forall tableEntry (fst (parseLine columnIndex st line)).
Proof.
  destruct st as [categories current]. intros H. unfold parseLine.
  destruct (includes line "Proposal/Early Stage" || isSeparatorRow line);
    [done|].
  destruct (negb (JS.startsWith line "|")); [done|].
  destruct (length (rowCells line) <? 3)%nat; [done|].
  destruct (matchCategoryId (default "" (rowCells line !! 0%nat))) as [m|] eqn:Hm.
  - match goal with
    | |- context [(10 <? String.length ?d)%nat] =>
        destruct (Nat.ltb_spec 10 (String.length d)) as [Hlen | Hlen]
    end; [|done].
    cbn [fst]. apply Forall_app. split; [done|].
    constructor; [|constructor]. split; [|done].
    cbn [entry_id]. by apply (matchCategoryId_idShape _ _ Hm).
  - destruct current as [cur|]; [|done].
    destruct (rowCells line !! columnIndex) as [cell|]; [|done].
    destruct (10 <? String.length (cleanDescription cell None))%nat; [|done].
    cbn [fst]. by apply appendToLast_tableEntry.
Qed.

Lemma parseTableRows_tableEntry (tableText phase : string) :
  Forall tableEntry (rubric_categories (parseTableRows tableText phase)).
Proof.
  unfold parseTableRows.
  set (columnIndex := default 0%nat (CriteriaExtractor.lookup phaseColumnMap phase)).
  assert (forall lines st, Forall tableEntry (fst st) ->
            Forall tableEntry (fst (fold_left (parseLine columnIndex) lines st)))
    as Hfold.
  { induction lines as [|line lines IH]; intros st Hst; [done|].
    simpl. apply IH. by apply parseLine_tableEntry. }
  specialize (Hfold (JS.split "010" tableText) ([], None) ltac:(constructor)).
  by destruct (fold_left _ _ _).
Qed.

Lemma getDefaultCriteria_tableEntry (phase : string) :
  Forall tableEntry (rubric_categories (getDefaultCriteria phase)).
Proof.
  unfold getDefaultCriteria. cbn [rubric_categories].
  assert (forall d, (10 < String.length (defaultDescription phase d))%nat) as Hlen.
  { intros d. unfold defaultDescription.
    change ("Evaluate the " ++ ?x)%string with ("Evaluate th" ++ ("e " ++ x))%string.
    rewrite length_append. simpl. lia. }
  assert (forall digit letter,
            isDigit digit = true -> inRange 97 122 letter = true ->
            idShape (String digit (String letter ""))) as Hshape.
  { intros digit letter Hd Hl. exists (String digit ""), letter.
    split; [done|]. split; [done|]. split; [|done].
    apply all_String. split; [done | constructor]. }
  unfold CATEGORY_DEFINITIONS. cbn [map fst snd].
  repeat (constructor; [split; [by apply Hshape | apply Hlen]|]).
  constructor.
Qed.

Lemma extractCriteria_tableEntry (text phase : string) :
  Forall tableEntry (rubric_categories (extractCriteria text phase)).
Proof.
  unfold extractCriteria.
  destruct (indexOf text "Table 2" 0 =? -1)%Z;
    [apply getDefaultCriteria_tableEntry|].
  destruct (length _ =? 0)%nat;
    [apply getDefaultCriteria_tableEntry | apply parseTableRows_tableEntry].
Qed.

Lemma extractCriteria_nonempty (text phase : string) :
  rubric_categories (extractCriteria text phase) <> [].
Proof.
  unfold extractCriteria.
  destruct (indexOf text "Table 2" 0 =? -1)%Z; [done|].
  destruct (rubric_categories (parseTableRows _ phase)) eqn:E; [done|].
  simpl. by rewrite E.
Qed.

(** X13.  Every entry of the rubric that [extractCriteria] returns has
    an id made of one digit or more and one lower-case letter, and a
    description of more than ten characters.  So [validateCriteria] accepts
    the rubric exactly when no entry has an empty name, which is the case
    of a row whose id is not one of the sixteen known ids and whose first
    cell has no text after the id. *)
Theorem extractCriteria_entries (text phase : string) :
  Forall (fun e => idShape (entry_id e)
                   /\ (10 < String.length (entry_description e))%nat)
         (rubric_categories (extractCriteria text phase))
  /\ (fst (validateCriteria (extractCriteria text phase)) = true
      <-> Forall (fun e => entry_name e <> "")
                 (rubric_categories (extractCriteria text phase)))
  /\ fst (validateCriteria (extractCriteria unnamedRow "end")) = false.
Proof.
  pose proof (extractCriteria_tableEntry text phase) as Hall.
  split; [exact Hall|]. split; [|reflexivity].
  pose proof (extractCriteria_nonempty text phase) as Hne.
  unfold validateCriteria.
  set (cats := rubric_categories (extractCriteria text phase)) in *.
  destruct (Nat.eqb_spec (length cats) 0) as [Hlen | _];
    [by destruct cats|].
  destruct (forallb _ cats) eqn:Hf; simpl.
  - split; [intros _|done]. rewrite forallb_forall in Hf.
    apply Forall_forall. intros e He Hname.
    apply list_elem_of_In in He. specialize (Hf e He).
    rewrite Hname in Hf. by rewrite andb_false_r in Hf.
  - split; [done|]. intros Hnames. exfalso.
    assert (forallb
              (fun cat => negb (String.eqb (entry_id cat) "")
                          && negb (String.eqb (entry_name cat) "")
                          && negb (String.eqb (entry_description cat) "")) cats
            = true) as Ht; [|congruence].
    apply forallb_forall. intros e He. apply list_elem_of_In in He.
    rewrite Forall_forall in Hall, Hnames.
    destruct (Hall e He) as [(digits & l & Hid & Hd & _) Hlen].
    specialize (Hnames e He).
    rewrite !andb_true_iff, !negb_true_iff, !String.eqb_neq.
    split; [split|]; [| done |].
    + rewrite Hid. by destruct digits.
    + intros Hdesc. rewrite Hdesc in Hlen. simpl in Hlen. lia.
Qed.

Lemma digitsValue_some (radix acc : Z) (s : string) :
  (0 <= radix)%Z -> (0 <= acc)%Z ->
  exists v, digitsValue radix (Some acc) s = Some v /\ (0 <= v)%Z.
Proof.
  intros Hr. revert acc. induction s as [|c s IH]; intros acc Hacc; simpl.
  - by exists acc.
  - destruct (digitValue radix c) as [d|] eqn:Hd; [|by exists acc].
    apply IH. simpl.
    assert (0 <= d)%Z; [|nia].
    unfold digitValue in Hd.
    destruct (isDigit c) eqn:Hc.
    + injection Hd as <-. unfold isDigit, inRange in Hc.
      apply andb_true_iff in Hc as [Hlo _]. apply N.leb_le in Hlo. lia.
    + destruct ((radix =? 16)%Z && inRange 97 102 c) eqn:H1.
      * injection Hd as <-. apply andb_true_iff in H1 as [_ H1].
        unfold inRange in H1. apply andb_true_iff in H1 as [Hlo _].
        apply N.leb_le in Hlo. lia.
      * destruct ((radix =? 16)%Z && inRange 65 70 c) eqn:H2; [|done].
        injection Hd as <-. apply andb_true_iff in H2 as [_ H2].
        unfold inRange in H2. apply andb_true_iff in H2 as [Hlo _].
        apply N.leb_le in Hlo. lia.
Qed.

Lemma digitsValue_digit_first (c : ascii) (s : string) :
  isDigit c = true ->
  exists v, digitsValue 10 None (String c s) = Some v /\ (0 <= v)%Z.
Proof.
  intros Hc. simpl. unfold digitValue. rewrite Hc.
  apply digitsValue_some; [lia|]. simpl.
  unfold isDigit, inRange in Hc.
  apply andb_true_iff in Hc as [Hlo _]. apply N.leb_le in Hlo. lia.
Qed.

(** [parseInt] on a text whose first character is a digit, when no prefix
    [0x] selects the radix 16. *)
Lemma parseInt_digit_first (d : ascii) (rest : string) :
  isDigit d = true ->
  (forall r, String d rest <> String "0" (String "x" r)) ->
  (forall r, String d rest <> String "0" (String "X" r)) ->
  exists n, parseInt (String d rest) = Num n /\ (0 <= n)%Z.
Proof.
  intros Hd Hx HX.
  destruct (digitsValue_digit_first d rest Hd) as (v & Hv & Hpos).
  assert (parseInt (String d rest) = Num (1 * v)) as ->; [|exists (1 * v)%Z; split; [done | lia]].
  unfold parseInt.
  assert (trimStart (String d rest) = String d rest) as ->.
  { simpl. destruct d as [[] [] [] [] [] [] [] []]; try discriminate Hd;
      reflexivity. }
  assert (d = "0"%char \/ (d <> "0"%char /\ d <> "-"%char /\ d <> "+"%char))
    as [-> | (H0 & Hm & Hp)].
  { destruct d as [[] [] [] [] [] [] [] []]; try discriminate Hd;
      first [left; reflexivity | right; repeat split; discriminate]. }
  - destruct rest as [|c r]; [by rewrite Hv|].
    assert (c <> "x"%char) as Hcx by (intros ->; by apply (Hx r)).
    assert (c <> "X"%char) as HcX by (intros ->; by apply (HX r)).
    destruct c as [[] [] [] [] [] [] [] []];
      try (exfalso; by apply Hcx); try (exfalso; by apply HcX);
      by rewrite Hv.
  - destruct d as [[] [] [] [] [] [] [] []]; try discriminate Hd;
      try (exfalso; by apply H0); by rewrite Hv.
Qed.

Lemma idShape_parseInt (s : string) :
  idShape s -> s <> "0x" -> exists n, parseInt s = Num n /\ (0 <= n)%Z.
Proof.
  intros (digits & l & -> & Hne & Hd & Hl) H0x.
  destruct digits as [|d ds]; [done|].
  apply all_String in Hd as [Hd Hds].
  change ((String d ds ++ String l "")%string)
    with (String d (ds ++ String l "")%string) in *.
  apply parseInt_digit_first; [done| |].
  - intros r [= -> Hr]. destruct ds as [|d' ds'].
    + injection Hr as -> _. done.
    + injection Hr as -> _. by apply all_String in Hds as [Hds _].
  - intros r [= -> Hr]. destruct ds as [|d' ds'].
    + injection Hr as -> _. done.
    + injection Hr as -> _. by apply all_String in Hds as [Hds _].
Qed.

(** X14.  Every id of the rubric that [extractCriteria] returns begins
    with an integer that [parseInt] reads, and the integer is not negative;
    the one exception is the id 0x, which [parseInt] takes for the prefix of
    a hexadecimal number without digits. *)
Theorem extractCriteria_ids_numeric (text phase : string) (e : RubricEntry) :
  e ∈ rubric_categories (extractCriteria text phase) ->
  entry_id e <> "0x" ->
  (exists n, parseInt (entry_id e) = Num n /\ (0 <= n)%Z)
  /\ parseInt "0x" = NaN.
Proof.
  intros He H0x. split; [|reflexivity]. apply idShape_parseInt; [|done].
  pose proof (extractCriteria_tableEntry text phase) as Hall.
  rewrite Forall_forall in Hall. by destruct (Hall e He).
Qed.

Lemma extractCriteria_ids_numeric_witness :
  (exists n, parseInt "2b" = Num n /\ (0 <= n)%Z) /\ parseInt "0x" = NaN.
Proof.
  apply (extractCriteria_ids_numeric distinctRowText "end"
           {| entry_id := "2b"; entry_name := "Data Quality Control Measures";
              entry_description := "Checks are explained" |}).
  - assert (rubric_categories (extractCriteria distinctRowText "end")
            = [ {| entry_id := "1a";
                   entry_name := "Data Description and Collection or Re-use";
                   entry_description := "Data are described" |};
                {| entry_id := "2b";
                   entry_name := "Data Quality Control Measures";
                   entry_description := "Checks are explained" |} ])
      as -> by (vm_compute; reflexivity).
    right; left.
  - discriminate.
Defined.

(** ** The column that a phase selects *)

Lemma parseLine_first_cell (st : rowState) (line line' : string) :
  sameFirstCell line line' -> parseLine 0 st line = parseLine 0 st line'.
Proof.
  unfold sameFirstCell, tableRow, parseLine. destruct st as [categories current].
  destruct (includes line "Proposal/Early Stage" || isSeparatorRow line);
    destruct (includes line' "Proposal/Early Stage" || isSeparatorRow line');
    try done.
  - destruct (negb (JS.startsWith line' "|")); [done|].
    by destruct (length (rowCells line') <? 3)%nat.
  - destruct (negb (JS.startsWith line "|")); [done|].
    by destruct (length (rowCells line) <? 3)%nat.
  - destruct (negb (JS.startsWith line "|"));
      destruct (negb (JS.startsWith line' "|")).
    + done.
    + by destruct (length (rowCells line') <? 3)%nat.
    + by destruct (length (rowCells line) <? 3)%nat.
    + destruct (length (rowCells line) <? 3)%nat;
        destruct (length (rowCells line') <? 3)%nat; try done.
      by intros ->.
Qed.

(** X15.  For the phase proposal the description of an entry is read
    from the first cell of its row, the cell that carries the id: two tables
    whose rows agree on their first cells give the same entries, whatever
    their other cells hold. *)
Theorem parseTableRows_proposal_column (tableText tableText' : string) :
  Forall2 sameFirstCell (JS.split "010" tableText) (JS.split "010" tableText') ->
  rubric_categories (parseTableRows tableText "proposal")
  = rubric_categories (parseTableRows tableText' "proposal").
Proof.
  intros Hrows. unfold parseTableRows.
  change (default 0%nat (CriteriaExtractor.lookup phaseColumnMap "proposal"))
    with 0%nat.
  assert (forall st,
            fold_left (parseLine 0) (JS.split "010" tableText) st
            = fold_left (parseLine 0) (JS.split "010" tableText') st) as Hfold.
  { induction Hrows as [|line line' lines lines' Hline _ IH]; intros st; [done|].
    simpl. by rewrite (parseLine_first_cell st line line' Hline), IH. }
  rewrite Hfold. by destruct (fold_left _ _ _).
Qed.

Lemma parseTableRows_proposal_column_witness :
  rubric_categories (parseTableRows planRows "proposal")
  = rubric_categories (parseTableRows otherRows "proposal").
Proof.
  apply (parseTableRows_proposal_column planRows otherRows).
  assert (JS.split "010" planRows
          = ["| 1a Describe the data collected | Data are listed | Data were listed |";
             "| and the methods used to collect them | Methods | Results |"])
    as -> by (vm_compute; reflexivity).
  assert (JS.split "010" otherRows
          = ["| 1a Describe the data collected | A | B |";
             "| and the methods used to collect them | C | D |"])
    as -> by (vm_compute; reflexivity).
  constructor; [vm_compute; reflexivity|].
  constructor; [vm_compute; reflexivity|].
  constructor.
Defined.

Import APIConfig.

(** ** The store of API profiles *)

Lemma defined_reserved (profileId : string) :
  defined (defaultSlot profileId) = true <-> reserved profileId.
Proof.
  unfold reserved. rewrite !elem_of_cons, elem_of_nil.
  destruct (decide (profileId = "together")) as [-> | H1];
    [split; [intros _; left; left; reflexivity | reflexivity]|].
  destruct (decide (profileId = "openai")) as [-> | H2];
    [split; [intros _; left; right; left; reflexivity | reflexivity]|].
  unfold defaultSlot, CriteriaExtractor.lookup, DEFAULT_PROFILES.
  cbn [find fst].
  rewrite (proj2 (String.eqb_neq "together" profileId)) by congruence.
  rewrite (proj2 (String.eqb_neq "openai" profileId)) by congruence.
  cbn [fmap option_fmap option_map].
  destruct (bool_decide_reflect (profileId ∈ inheritedNames)); simpl.
  - split; [intros _; by right | done].
  - split; [done|]. intros [[? | [? | []]] | ?]; congruence.
Qed.

Lemma defaultSlot_free (profileId : string) :
  ~ reserved profileId -> defaultSlot profileId = Undefined.
Proof.
  intros H. rewrite <- defined_reserved in H.
  by destruct (defaultSlot profileId).
Qed.

Lemma getProfile_free (st : Storage) (profileId : string) :
  ~ reserved profileId ->
  getProfile st profileId = Fields <$> (apiCustomProfiles st !! profileId).
Proof. intros H. unfold getProfile. by rewrite (defaultSlot_free _ H). Qed.

Lemma getProfile_reserved (st st' : Storage) (profileId : string) :
  reserved profileId ->
  getProfile st profileId = getProfile st' profileId
  /\ is_Some (getProfile st profileId).
Proof.
  intros H. apply defined_reserved in H. unfold getProfile.
  destruct (defaultSlot profileId); [done | by split | by split].
Qed.

Lemma saveProfile_frame (st : Storage) (profileId : string) (config : Profile) :
  if snd (saveProfile st profileId config) then
    ~ reserved profileId
    /\ getProfile (fst (saveProfile st profileId config)) profileId
       = Some (Fields config)
    /\ isCustomProfile (fst (saveProfile st profileId config)) profileId = true
    /\ (forall other, other <> profileId ->
          getProfile (fst (saveProfile st profileId config)) other
          = getProfile st other)
    /\ getActiveProfileId (fst (saveProfile st profileId config))
       = getActiveProfileId st
  else
    reserved profileId /\ fst (saveProfile st profileId config) = st.
Proof.
  unfold saveProfile.
  destruct (defined (defaultSlot profileId)) eqn:Hdef; cbn [fst snd].
  - split; [by apply defined_reserved | done].
  - assert (~ reserved profileId) as Hfree
      by (rewrite <- defined_reserved; congruence).
    split; [done|]. split.
    { rewrite getProfile_free by done. cbn [apiCustomProfiles].
      by rewrite lookup_insert_eq. }
    split.
    { unfold isCustomProfile. rewrite Hdef. cbn [apiCustomProfiles negb andb].
      rewrite lookup_insert_eq. by apply bool_decide_eq_true. }
    split; [|done].
    intros other Hother. unfold getProfile. cbn [apiCustomProfiles].
    by rewrite lookup_insert_ne.
Qed.

Lemma deleteProfile_frame (st : Storage) (profileId : string) :
  snd (deleteProfile st profileId) = isCustomProfile st profileId
  /\ if snd (deleteProfile st profileId) then
       getProfile (fst (deleteProfile st profileId)) profileId = None
       /\ (forall other, other <> profileId ->
             getProfile (fst (deleteProfile st profileId)) other
             = getProfile st other)
       /\ getActiveProfileId (fst (deleteProfile st profileId))
          = (if String.eqb (getActiveProfileId st) profileId then "together"
             else getActiveProfileId st)
     else fst (deleteProfile st profileId) = st.
Proof.
  unfold deleteProfile, isCustomProfile.
  destruct (defined (defaultSlot profileId)) eqn:Hdef; cbn [fst snd negb andb];
    [done|].
  assert (~ reserved profileId) as Hfree
    by (rewrite <- defined_reserved; congruence).
  destruct (apiCustomProfiles st !! profileId) as [config|] eqn:Hlook;
    cbn [fst snd].
  - split; [symmetry; by apply bool_decide_eq_true|].
    change (getActiveProfileId
              {| apiActiveProfile := apiActiveProfile st;
                 apiCustomProfiles := delete profileId (apiCustomProfiles st) |})
      with (getActiveProfileId st).
    destruct (String.eqb (getActiveProfileId st) profileId) eqn:Hactive.
    + split; [|split; [|done]].
      * rewrite getProfile_free by done. cbn [setActiveProfileId apiCustomProfiles].
        by rewrite lookup_delete_eq.
      * intros other Hother. unfold getProfile.
        cbn [setActiveProfileId apiCustomProfiles].
        by rewrite lookup_delete_ne.
    + split; [|split; [|done]].
      * rewrite getProfile_free by done. cbn [apiCustomProfiles].
        by rewrite lookup_delete_eq.
      * intros other Hother. unfold getProfile. cbn [apiCustomProfiles].
        by rewrite lookup_delete_ne.
  - split; [|done]. symmetry. apply bool_decide_eq_false.
    by intros [? ?].
Qed.

(** X16.  [saveProfile] refuses a reserved id, that of a built-in profile
    or the name of an inherited property, and then leaves the storage as it
    is.  For every other id it returns true; afterwards [getProfile] returns
    the saved configuration for the id, [isCustomProfile] holds of it, and
    every other profile and the active id are as before. *)
Theorem saveProfile_spec (st : Storage) (profileId : string) (config : Profile) :
  if snd (saveProfile st profileId config) then
    ~ reserved profileId
    /\ getProfile (fst (saveProfile st profileId config)) profileId
       = Some (Fields config)
    /\ isCustomProfile (fst (saveProfile st profileId config)) profileId = true
    /\ (forall other, other <> profileId ->
          getProfile (fst (saveProfile st profileId config)) other
          = getProfile st other)
    /\ getActiveProfileId (fst (saveProfile st profileId config))
       = getActiveProfileId st
  else
    reserved profileId /\ fst (saveProfile st profileId config) = st.
Proof. exact (saveProfile_frame st profileId config). Qed.

(** X17.  [deleteProfile] returns true exactly for a custom profile.
    Afterwards [getProfile] returns [null] for the id and every other
    profile is as before; the active id becomes together when it was the id
    deleted, and is as before otherwise.  When [deleteProfile] returns false
    the storage is as it was. *)
Theorem deleteProfile_spec (st : Storage) (profileId : string) :
  snd (deleteProfile st profileId) = isCustomProfile st profileId
  /\ if snd (deleteProfile st profileId) then
       getProfile (fst (deleteProfile st profileId)) profileId = None
       /\ (forall other, other <> profileId ->
             getProfile (fst (deleteProfile st profileId)) other
             = getProfile st other)
       /\ getActiveProfileId (fst (deleteProfile st profileId))
          = (if String.eqb (getActiveProfileId st) profileId then "together"
             else getActiveProfileId st)
     else fst (deleteProfile st profileId) = st.
Proof. exact (deleteProfile_frame st profileId). Qed.

(** X18.  When the active id names a profile, it still names one after
    a profile is saved, after a profile is deleted, and after an id that
    names a profile is made the active one. *)
Theorem active_profile_resolves (st : Storage) (op : operation) :
  resolves st ->
  (forall profileId, op = Activate profileId ->
                     is_Some (getProfile st profileId)) ->
  resolves (applyOperation st op).
Proof.
  intros Hres Hact. destruct op as [profileId config | profileId | profileId];
    cbn [applyOperation].
  - pose proof (saveProfile_frame st profileId config) as Hsave.
    destruct (snd (saveProfile st profileId config)).
    + destruct Hsave as (_ & Hsaved & _ & Hframe & Hactive).
      unfold resolves. rewrite Hactive.
      destruct (decide (getActiveProfileId st = profileId)) as [-> | Hne];
        [by rewrite Hsaved | by rewrite Hframe].
    + destruct Hsave as [_ ->]. done.
  - pose proof (deleteProfile_frame st profileId) as [_ Hdel].
    destruct (snd (deleteProfile st profileId)).
    + destruct Hdel as (_ & Hframe & Hactive).
      unfold resolves. rewrite Hactive.
      destruct (String.eqb_spec (getActiveProfileId st) profileId) as [_ | Hne];
        [done | by rewrite Hframe].
    + by rewrite Hdel.
  - unfold resolves.
    specialize (Hact profileId eq_refl).
    unfold getActiveProfileId. cbn [setActiveProfileId apiActiveProfile].
    destruct profileId as [|c rest]; [|done].
    cbn [orElseStr]. done.
Qed.

Lemma wellFormed_apply (st : Storage) (op : operation) :
  wellFormed st -> wellFormed (applyOperation st op).
Proof.
  intros Hwf. destruct op as [profileId config | profileId | profileId];
    cbn [applyOperation]; [| |done].
  - unfold saveProfile.
    destruct (defined (defaultSlot profileId)) eqn:Hdef; [done|].
    intros other. cbn [fst apiCustomProfiles].
    destruct (decide (other = profileId)) as [-> | Hne].
    + intros _. rewrite <- defined_reserved. congruence.
    + rewrite lookup_insert_ne by done. apply Hwf.
  - unfold deleteProfile.
    destruct (defined (defaultSlot profileId)); [done|].
    destruct (apiCustomProfiles st !! profileId); [|done].
    intros other. cbn [fst].
    assert (forall a, is_Some (delete profileId (apiCustomProfiles st) !! a) ->
                      is_Some (apiCustomProfiles st !! a)) as Hdel.
    { intros a [c Hc]. apply lookup_delete_Some in Hc as [_ Hc]. by exists c. }
    destruct (String.eqb _ profileId); cbn [setActiveProfileId apiCustomProfiles];
      intros H; by apply Hwf, Hdel.
Qed.

Lemma wellFormed_reachable (ops : list operation) :
  wellFormed (fold_left applyOperation ops emptyStorage).
Proof.
  assert (forall st, wellFormed st -> wellFormed (fold_left applyOperation ops st)) as H.
  { induction ops as [|op ops IH]; intros st Hst; [done|].
    simpl. apply IH. by apply wellFormed_apply. }
  apply H. intros profileId [c Hc]. unfold emptyStorage in Hc.
  cbn [apiCustomProfiles] in Hc. by rewrite lookup_empty in Hc.
Qed.

Lemma defaults_lookup (profileId : string) :
  (list_to_map DEFAULT_PROFILES : gmap string Profile) !! profileId
  = CriteriaExtractor.lookup DEFAULT_PROFILES profileId.
Proof.
  unfold DEFAULT_PROFILES, CriteriaExtractor.lookup. cbn [list_to_map foldr find fst].
  destruct (String.eqb_spec "together" profileId) as [<- | H1];
    [by rewrite lookup_insert_eq|].
  rewrite lookup_insert_ne by done.
  destruct (String.eqb_spec "openai" profileId) as [<- | H2];
    [by rewrite lookup_insert_eq|].
  rewrite lookup_insert_ne by done. by rewrite lookup_empty.
Qed.

Lemma option_union_first {A} (x y : option A) :
  x ∪ y = match x with Some a => Some a | None => y end.
Proof. by destruct x, y. Qed.

(** X19.  In a storage that the calls of the module have built from
    the empty one, [getAllProfiles] and [getProfile] show the same
    configurations: a configuration is listed under an id exactly when
    [getProfile] returns its fields for the id. *)
Theorem getAllProfiles_getProfile (ops : list operation) (profileId : string)
    (config : Profile) :
  getAllProfiles (fold_left applyOperation ops emptyStorage) !! profileId = Some config
  <-> getProfile (fold_left applyOperation ops emptyStorage) profileId
      = Some (Fields config).
Proof.
  pose proof (wellFormed_reachable ops) as Hwf.
  set (st := fold_left applyOperation ops emptyStorage) in *.
  unfold getAllProfiles, getProfile, defaultSlot.
  rewrite lookup_union, defaults_lookup, option_union_first.
  destruct (CriteriaExtractor.lookup DEFAULT_PROFILES profileId) as [profile|]
    eqn:Hdefault.
  - assert (reserved profileId) as Hres.
    { apply defined_reserved. unfold defaultSlot. by rewrite Hdefault. }
    destruct (apiCustomProfiles st !! profileId) as [c|] eqn:Hc;
      [by destruct (Hwf profileId (mk_is_Some _ _ Hc))|].
    simpl. split; congruence.
  - destruct (bool_decide_reflect (profileId ∈ inheritedNames)) as [Hin | Hout].
    + destruct (apiCustomProfiles st !! profileId) as [c|] eqn:Hc;
        [destruct (Hwf profileId (mk_is_Some _ _ Hc)); by right|].
      simpl. split; discriminate.
    + destruct (apiCustomProfiles st !! profileId) as [c|]; simpl;
        split; congruence.
Qed.

Lemma active_profile_resolves_witness :
  resolves (applyOperation customStorage (Delete "local")).
Proof.
  apply (active_profile_resolves customStorage (Delete "local")).
  - exists (Fields openai). vm_compute. reflexivity.
  - intros profileId. discriminate.
Defined.

(** ** The calls of the model client *)

Import Client.

Lemma retryFrom_events (fetchFn : nat -> fetchResult) (maxRetries : nat)
    (initialDelay : Z) (turns attempt : nat) (lastError : option Error) :
  Forall retryEvent
    (trace (retryFrom fetchFn maxRetries initialDelay turns attempt lastError)).
Proof.
  revert attempt lastError.
  induction turns as [|turns IH]; intros attempt lastError; [constructor|].
  cbn [retryFrom]. rewrite bind_emit. cbn [trace fst].
  constructor; [exact I|].
  destruct (fetchFn attempt) as [response | error].
  - destruct (LLMService.ok response); [constructor|].
    destruct ((500 <=? LLMService.status response)%Z && (attempt <? maxRetries)%nat).
    { rewrite bind_emit. cbn [fst]. constructor; [exact I | apply IH]. }
    destruct ((LLMService.status response =? 429)%Z && (attempt <? maxRetries)%nat).
    { rewrite bind_emit. cbn [fst]. constructor; [exact I | apply IH]. }
    constructor.
  - destruct (attempt <? maxRetries)%nat.
    + rewrite bind_emit. cbn [fst]. constructor; [exact I | apply IH].
    + rewrite bind_ret. apply IH.
Qed.

Lemma retryWithBackoff_events (fetchFn : nat -> fetchResult) :
  Forall retryEvent (trace (retryWithBackoff fetchFn)).
Proof. apply retryFrom_events. Qed.

Section CallFacts.

Variable platform : Platform.
Variable selectedModel : string.
Variable network : Request -> nat -> fetchResult.
Variable errorMessageOf : Response -> completion (option string).
Variable contentTypeOf : Response -> option string.
Variable bodyOf : Response -> Stream.
Variable bodyParses : Response -> bool.
Variable JSON_parse : string -> option json.
Variable repairJSON : string -> option RawResults.

Local Notation "'callDMP'" :=
  (Client.evaluateDMP platform selectedModel network errorMessageOf
     contentTypeOf bodyOf bodyParses JSON_parse repairJSON).

Lemma callEvent_retry onProgress (t : list event) :
  Forall retryEvent t -> Forall (callEvent onProgress) t.
Proof. intros H. eapply Forall_impl; [exact H|]. intros ev He. by left. Qed.

Lemma report_events onProgress (msg : progressMessage) :
  Forall (callEvent onProgress) (trace (report onProgress msg))
  /\ outcome (report onProgress msg) = Normal tt.
Proof.
  destruct onProgress as [callback|]; simpl; [|by split].
  split; [|done]. apply Forall_forall. intros ev Hev. right.
  by exists callback, msg.
Qed.

Lemma forward_events onProgress (calls : list event) :
  Forall (callEvent onProgress) (forward onProgress calls).
Proof.
  unfold forward. induction calls as [|ev calls IH]; [constructor|].
  simpl. apply Forall_app. split; [|exact IH].
  destruct ev; try constructor.
  destruct onProgress as [callback|]; [|constructor].
  apply Forall_forall. intros ev Hev. right. by eexists _, _.
Qed.

Lemma Forall_trace_bind {A B} (P : event -> Prop) (m : M A) (f : A -> M B) :
  Forall P (trace m) -> (forall a, Forall P (trace (f a))) ->
  Forall P (trace (Eff.bind m f)).
Proof.
  intros Hm Hf. rewrite trace_bind. apply Forall_app. split; [done|].
  destruct (outcome m); [apply Hf | constructor].
Qed.

Lemma evaluateDMP_events (systemPrompt userPrompt : string) onProgress :
  Forall (callEvent onProgress)
         (trace (callDMP systemPrompt userPrompt onProgress)).
Proof.
  unfold Client.evaluateDMP.
  destruct (testMode platform).
  { apply Forall_trace_bind; [apply report_events|]. intros _.
    apply Forall_trace_bind; [|intros; constructor].
    constructor; [by left | constructor]. }
  destruct (apiKey platform) as [[|c key]|]; [constructor| |constructor].
  apply Forall_trace_bind; [apply report_events|]. intros _.
  apply Forall_trace_bind; [constructor|]. intros _.
  apply Forall_trace_bind.
  { apply callEvent_retry, retryWithBackoff_events. }
  intros response. apply Forall_trace_bind.
  - destruct (negb (LLMService.ok response)).
    { unfold apiError. apply Forall_trace_bind; [constructor|].
      intros; constructor. }
    destruct (includes (orElseStr (contentTypeOf response) "") "text/event-stream").
    + destruct (parseSSEStream JSON_parse true (bodyOf response))
        as [calls streamed].
      apply Forall_trace_bind; [apply forward_events|]. intros content.
      apply Forall_trace_bind; [apply report_events | intros; constructor].
    + destruct (LLMService.content response) as [content | error].
      * apply Forall_trace_bind; [apply report_events | intros; constructor].
      * destruct (bodyParses response); [|constructor].
        apply Forall_trace_bind; [apply report_events | intros; constructor].
  - intros [[|c' content]|]; [constructor| |constructor].
    destruct (repairJSON (String c' content)); [|constructor].
    apply Forall_trace_bind; [apply report_events | intros; constructor].
Qed.

End CallFacts.

Section CallFacts2.

Variable platform : Platform.
Variable selectedModel : string.
Variable network : Request -> nat -> fetchResult.
Variable errorMessageOf : Response -> completion (option string).
Variable contentTypeOf : Response -> option string.
Variable bodyOf : Response -> Stream.
Variable bodyParses : Response -> bool.
Variable JSON_parse : string -> option json.
Variable repairJSON : string -> option RawResults.

Local Notation "'callDMP'" :=
  (Client.evaluateDMP platform selectedModel network errorMessageOf
     contentTypeOf bodyOf bodyParses JSON_parse repairJSON).
Local Notation "'callConvert'" :=
  (Client.detectAndConvertCriteria platform network errorMessageOf).

Lemma retryWithBackoff_terminal (fetchFn : nat -> fetchResult)
    (response : Response) :
  fetchFn 0%nat = Responds response ->
  LLMService.ok response = false ->
  (LLMService.status response < 500)%Z ->
  LLMService.status response <> 429%Z ->
  retryWithBackoff fetchFn = ([Attempt 0], Normal response).
Proof.
  intros Hres Hok Hlow Hrate.
  unfold retryWithBackoff, retryWithBackoff_with.
  change (3 + 1)%nat with 4%nat.
  apply retryFrom_return; [done|]. left.
  unfold retryBase. rewrite Hres, Hok.
  destruct (Z.leb_spec 500 (LLMService.status response)); [lia|].
  destruct (Z.eqb_spec (LLMService.status response) 429); [lia | done].
Qed.

(** X20.  A response that is not OK, with a status below 500 other
    than 429, ends [evaluateDMP] at the first attempt: outside test mode,
    with an API key and an active profile that has the property
    [authHeaderTemplate], the call reports that it calls the model, makes
    one attempt without any delay, and throws an error that carries the
    status and the message of the error body, or Unknown error when the body
    has none. *)
Theorem evaluateDMP_client_error (systemPrompt userPrompt key template : string)
    (onProgress : progressCallback) (response : Response)
    (detail : option string) :
  testMode platform = false ->
  apiKey platform = Some key -> key <> "" ->
  activeAuthHeaderTemplate platform = Some template ->
  network {| Eff.systemPrompt := systemPrompt; Eff.userPrompt := userPrompt |}
          0%nat
  = Responds response ->
  LLMService.ok response = false ->
  (LLMService.status response < 500)%Z ->
  LLMService.status response <> 429%Z ->
  errorMessageOf response = Normal detail ->
  callDMP systemPrompt userPrompt onProgress
  = (trace (report onProgress
              (StatusMessage ("Calling " ++ selectedModel ++ "...")))
     ++ [Attempt 0],
     Throw (mkError
       ("API Error " ++ pretty (LLMService.status response) ++ ": "
        ++ orElseStr detail "Unknown error"))).
Proof.
  intros Htest Hkey Hne Htemplate Hres Hok Hlow Hrate Hdetail.
  unfold Client.evaluateDMP. rewrite Htest, Hkey, Htemplate.
  destruct key as [|c key]; [done|].
  rewrite (retryWithBackoff_terminal _ response Hres Hok Hlow Hrate).
  unfold apiError.
  destruct onProgress as [callback|]; unfold report, Eff.bind, ret, lift, throw;
    cbn [fst snd trace]; rewrite Hok, Hdetail; simpl; reflexivity.
Qed.

Lemma bind_report {A} (onProgress : progressCallback) (msg : progressMessage)
    (k : M A) :
  (do _ <- report onProgress msg; k)
  = (trace (report onProgress msg) ++ trace k, outcome k).
Proof. destruct k as [t r]. by destruct onProgress. Qed.

Lemma convertCriteria_outcome (criteriaText : string) (conversion : Conversion) :
  outcome (convertCriteria platform network errorMessageOf criteriaText)
  = Normal conversion ->
  originalText conversion = criteriaText
  /\ suitable conversion = false /\ conversionError conversion = false
  /\ convertedText conversion <> ""
  /\ exists response,
       LLMService.ok response = true
       /\ LLMService.content response = Normal (Some (convertedText conversion)).
Proof.
  unfold convertCriteria.
  destruct (apiKey platform) as [[|c key]|]; [discriminate| |discriminate].
  destruct (activeAuthHeaderTemplate platform) as [template|]; [|discriminate].
  cbn [generateFetchConfig]. change (lift (Normal tt)) with (ret tt).
  rewrite bind_ret.
  destruct (retryWithBackoff _) as [t [response | error]]; [|discriminate].
  unfold Eff.bind at 1. cbn [fst snd].
  destruct (LLMService.ok response) eqn:Hok; simpl negb; cbv iota.
  - unfold lift.
    destruct (LLMService.content response) as [[[|c' converted]|] | error] eqn:Hc;
      try discriminate.
    simpl. intros [= <-]. cbn. repeat split; try done. by exists response.
  - unfold apiError. destruct (errorMessageOf response); discriminate.
Qed.


End CallFacts2.

Lemma Forall_trace_tryCatch {A} (P : event -> Prop) (m : M A)
    (h : Error -> M A) :
  Forall P (trace m) -> (forall e, Forall P (trace (h e))) ->
  Forall P (trace (tryCatch m h)).
Proof.
  intros Hm Hh. rewrite trace_tryCatch. apply Forall_app. split; [done|].
  destruct (outcome m); [constructor | apply Hh].
Qed.

Lemma parseTextFile_trace (file : File) : trace (parseTextFile file) = [].
Proof. unfold parseTextFile. by destruct (FileParser.data file). Qed.

Lemma parseFile_events (p : Platform) (file : option File) :
  Forall request (trace (parseFile p file)).
Proof.
  destruct file as [file|]; [|constructor]. unfold parseFile.
  apply Forall_trace_bind; [|intros; constructor].
  assert (Forall request (trace (parseTextFile file))) as Htext
    by (rewrite parseTextFile_trace; constructor).
  assert (Forall request (trace (parseDocxFile p file))) as Hdocx.
  { unfold parseDocxFile.
    destruct (mammoth p) as [extract|]; [|constructor].
    destruct (FileParser.data file) as [bytes|] eqn:Hdata; [|constructor].
    destruct (negb (isZip bytes)).
    - apply Forall_trace_tryCatch; [|intros; constructor].
      unfold extractDocTextWithAI. rewrite Hdata.
      destruct (_ <? 100)%nat; [constructor|].
      destruct (negb (testMode p)); [|constructor].
      apply Forall_trace_tryCatch; [|intros; constructor].
      unfold cleanTextWithAI.
      destruct (apiKey p) as [[|c key]|]; [constructor| |constructor].
      apply Forall_trace_bind; [constructor|]. intros _.
      apply Forall_trace_bind; [by repeat constructor|]. intros _.
      destruct (fetch p _) as [response | err]; [|constructor].
      destruct (negb (LLMService.ok response)); [constructor|].
      apply Forall_trace_bind; [constructor|].
      intros [[|c' cleaned]|]; constructor.
    - apply Forall_trace_tryCatch; [constructor|].
      intros err.
      destruct (JS.includes (message err) "end of central directory");
        constructor. }
  repeat match goal with
         | |- context [if ?b then _ else _] => destruct b
         end;
    try (apply Forall_trace_bind; [|intros; constructor]);
    try done; try constructor.
  - unfold parseJsonFile. apply Forall_trace_bind; [done|].
    intros t. destruct (jsonReformat p t); constructor.
  - unfold parsePdfFile.
    destruct (pdfjs p); [|constructor].
    destruct (FileParser.data file); [|constructor].
    apply Forall_trace_tryCatch; [|intros; constructor].
    apply Forall_trace_bind; [constructor | intros; constructor].
  - unfold parseHtmlFile. apply Forall_trace_bind; [done | intros; constructor].
Qed.

Lemma updateProgress_trace (onProgress : callback) (msg : string) :
  quiet onProgress ->
  updateProgress onProgress msg
  = (match onProgress with Some _ => [Progress msg] | None => [] end, Normal tt).
Proof.
  intros Hquiet. unfold updateProgress. destruct onProgress as [f|]; [|done].
  rewrite bind_emit. unfold lift. by rewrite (Hquiet f msg eq_refl).
Qed.

Lemma bind_eq {A B} (m : M A) (f : A -> M B) (t t' : list event) (a : A)
    (r : completion B) :
  m = (t, Normal a) -> f a = (t', r) -> Eff.bind m f = (t ++ t', r).
Proof. intros -> Hf. unfold Eff.bind. by rewrite Hf. Qed.

Lemma updateProgress_events (P : event -> Prop) (onProgress : callback)
    (msg : string) :
  P (Progress msg) -> Forall P (trace (updateProgress onProgress msg)).
Proof.
  intros HP. unfold updateProgress. destruct onProgress as [f|]; [|constructor].
  rewrite bind_emit. cbn [trace fst]. constructor; [done|].
  unfold lift. constructor.
Qed.

Section AppFacts.

Variable lc : string -> string -> Z.
Variable platform : Platform.
Variable formatFileSize : Z -> string.
Variable now : string.
Variable selectedModel : string.
Variable network : Request -> nat -> fetchResult.
Variable errorMessageOf : Response -> completion (option string).
Variable contentTypeOf : Response -> option string.
Variable bodyOf : Response -> Stream.
Variable bodyParses : Response -> bool.
Variable JSON_parse : string -> option json.
Variable repairJSON : string -> option RawResults.

Local Notation "'app'" :=
  (App.evaluate lc platform formatFileSize now selectedModel network
     errorMessageOf contentTypeOf bodyOf bodyParses JSON_parse repairJSON).
Local Notation "'call'" :=
  (App.evaluateDMP platform selectedModel network
     errorMessageOf contentTypeOf bodyOf bodyParses JSON_parse repairJSON).

(** The events of [evaluate] satisfy [P] when the events of decoding, the
    events of the call of the client and the progress messages of
    [evaluate] itself do. *)
Lemma evaluate_events (P : event -> Prop) criteriaFile dmpFile phase onProgress :
  (forall file, Forall P (trace (parseFile platform file))) ->
  (forall systemPrompt userPrompt,
     Forall P (trace (call systemPrompt userPrompt
                        (fun msg => updateProgress onProgress ("AI: " ++ msg))))) ->
  (forall msg, JS.startsWith msg "AI: " = false -> P (Progress msg)) ->
  Forall P (trace (app criteriaFile dmpFile phase onProgress)).
Proof.
  intros Hparse Hcall Hmsg.
  assert (forall msg, JS.startsWith msg "AI: " = false ->
            Forall P (trace (updateProgress onProgress msg))) as Hown.
  { intros msg Hno. by apply updateProgress_events, Hmsg. }
  unfold App.evaluate, Evaluator.evaluate.
  apply Forall_trace_tryCatch; [|intros; constructor].
  unfold evaluateBody.
  apply Forall_trace_bind; [destruct criteriaFile; constructor|].
  intros criteriaName.
  apply Forall_trace_bind; [apply Hown; by destruct (endsWith _ _)|]. intros _.
  apply Forall_trace_bind; [apply Hparse|]. intros criteriaData.
  apply Forall_trace_bind; [destruct (negb _); constructor|]. intros _.
  apply Forall_trace_bind; [by apply Hown|]. intros _.
  apply Forall_trace_bind; [destruct dmpFile; constructor|]. intros dmpName.
  apply Forall_trace_bind; [apply Hown; by destruct (endsWith _ _)|]. intros _.
  apply Forall_trace_bind; [apply Hparse|]. intros dmpData.
  apply Forall_trace_bind; [by apply Hown|]. intros _.
  apply Forall_trace_bind; [destruct (_ <? 100)%nat; constructor|]. intros _.
  apply Forall_trace_bind; [by apply Hown|]. intros _.
  apply Forall_trace_bind; [by apply Hown|]. intros _.
  apply Forall_trace_bind; [apply Hcall|].
  intros results.
  apply Forall_trace_bind; [by apply Hown|]. intros _.
  apply Forall_trace_bind; [by apply Hown | intros; constructor].
Qed.

(** X22.  What [evaluate] forwards from the client.  The callback
    that [evaluate] gives to [evaluateDMP] receives an object and puts it
    into a template, so every progress message of [evaluate] that begins
    with [AI: ] is the text AI: [[object Object]]: neither the status texts
    of the client nor the streamed chunks reach the progress callback. *)
Theorem evaluate_forwards_object_text criteriaFile dmpFile phase onProgress :
  quiet onProgress ->
  Forall objectText (trace (app criteriaFile dmpFile phase onProgress)).
Proof.
  intros _. apply evaluate_events.
  - intros file. eapply Forall_impl; [apply parseFile_events|].
    by intros [].
  - intros systemPrompt userPrompt. unfold App.evaluateDMP.
    eapply Forall_impl; [apply evaluateDMP_events|].
    intros ev [Hev | (callback & msg & [= <-] & Hev)]; [by destruct ev|].
    pose proof (updateProgress_events objectText onProgress
                  "AI: [object Object]" (fun _ => eq_refl)) as Hall.
    rewrite Forall_forall in Hall. by apply Hall.
  - intros msg Hno. simpl. congruence.
Qed.

Lemma parseFile_offline (file : option File) :
  testMode platform = true \/ orElseStr (apiKey platform) "" = "" ->
  trace (parseFile platform file) = [].
Proof.
  intros Hoff.
  pose proof (parseFile_events platform file) as Honly.
  assert (requests (trace (parseFile platform file)) = []) as Hnone.
  { destruct file as [file|]; [|done].
    rewrite parseFile_requests_eq.
    destruct (mammoth platform), (FileParser.data file); try done.
    destruct Hoff as [-> | ->]; simpl negb; by rewrite ?andb_false_r. }
  destruct (trace (parseFile platform file)) as [|ev t]; [done|].
  apply Forall_cons in Honly as [Hev _]. by destruct ev.
Qed.

Lemma evaluateDMP_test_mode systemPrompt userPrompt onProgress :
  testMode platform = true -> quiet onProgress ->
  call systemPrompt userPrompt
       (fun msg => updateProgress onProgress ("AI: " ++ msg))
  = (match onProgress with
     | Some _ => [Progress "AI: [object Object]"]
     | None => []
     end ++ [Delay 1500],
     Normal TEST_EVALUATION_DATA).
Proof.
  intros Htest Hquiet. unfold App.evaluateDMP, Client.evaluateDMP.
  rewrite Htest. unfold report.
  rewrite (updateProgress_trace onProgress _ Hquiet).
  by destruct onProgress.
Qed.

Lemma evaluateDMP_no_key systemPrompt userPrompt onProgress :
  testMode platform = false -> orElseStr (apiKey platform) "" = "" ->
  call systemPrompt userPrompt
       (fun msg => updateProgress onProgress ("AI: " ++ msg))
  = throw (mkError
      "Together AI API key not configured. Please enter your API key.").
Proof.
  intros Htest Hkey. unfold App.evaluateDMP, Client.evaluateDMP.
  rewrite Htest. by destruct (apiKey platform) as [[|c key]|].
Qed.

Lemma bind_Normal_or_Throw {A B} (m : M A) (f : A -> M B) (t : list event)
    (r : completion A) (t' : A -> list event) (g : A -> completion B) :
  m = (t, r) ->
  (forall a, f a = (t' a, g a)) ->
  Eff.bind m f
  = (t ++ match r with Normal a => t' a | Throw _ => [] end,
     match r with Normal a => g a | Throw e => Throw e end).
Proof.
  intros -> Hf. destruct r as [a | e]; simpl.
  - by rewrite Hf.
  - by rewrite app_nil_r.
Qed.

(** The block of [try], up to the call of the client, when the two files
    are decoded without any request, the rubric is valid and the document
    is long enough. *)
Lemma evaluateBody_decoded cf df phase onProgress criteriaData dmpData
    (t : list event) (r : completion RawResults) :
  quiet onProgress ->
  parseFile platform (Some cf) = ([], Normal criteriaData) ->
  fst (validateCriteria (extractCriteria (text criteriaData) phase)) = true ->
  parseFile platform (Some df) = ([], Normal dmpData) ->
  (100 <= String.length (text dmpData))%nat ->
  (forall systemPrompt userPrompt,
     call systemPrompt userPrompt
          (fun msg => updateProgress onProgress ("AI: " ++ msg)) = (t, r)) ->
  evaluateBody lc platform formatFileSize Client.buildEvaluationPrompt
    call now selectedModel (Some cf) (Some df) phase onProgress
  = (progress onProgress
       [ if endsWith (toLowerCase (FileParser.name cf)) ".doc"
         then "Extracting .doc file with AI..."
         else "Parsing evaluation criteria...";
         ("Criteria loaded: "
          ++ pretty (length (rubric_categories
                               (extractCriteria (text criteriaData) phase)))
          ++ " categories")%string;
         if endsWith (toLowerCase (FileParser.name df)) ".doc"
         then "Extracting .doc file with AI..."
         else "Parsing DMP document...";
         ("DMP document parsed: " ++ formatFileSize (fileSize dmpData))%string;
         "Building evaluation prompt...";
         "Evaluating DMP with AI..." ]
     ++ t
     ++ match r with
        | Normal _ =>
            progress onProgress ["Processing results..."; "Evaluation complete!"]
        | Throw _ => []
        end,
     match r with
     | Normal results =>
         Normal
           (Succeeded
              (processResults lc results
                 (extractCriteria (text criteriaData) phase))
              {| Evaluator.criteriaFile := Some (FileParser.name cf);
                 Evaluator.dmpFile := Some (FileParser.name df);
                 metaPhase := phase;
                 evaluationDate := now;
                 model := Some selectedModel |})
     | Throw e => Throw e
     end).
Proof.
  intros Hquiet Hc Hvalid Hd Hlong Hcall.
  assert (forall msg, updateProgress onProgress msg
                      = (progress onProgress [msg], Normal tt)) as Hup.
  { intros msg. rewrite (updateProgress_trace _ _ Hquiet).
    by destruct onProgress. }
  eapply eq_trans.
  - unfold evaluateBody. cbn [nameOf]. rewrite bind_ret.
    eapply bind_eq; [apply Hup|]. cbv beta.
    eapply bind_eq; [exact Hc|]. cbv beta.
    rewrite Hvalid. cbn [negb]. rewrite bind_ret.
    eapply bind_eq; [apply Hup|]. cbv beta. rewrite bind_ret.
    eapply bind_eq; [apply Hup|]. cbv beta.
    eapply bind_eq; [exact Hd|]. cbv beta.
    eapply bind_eq; [apply Hup|]. cbv beta.
    rewrite (proj2 (Nat.ltb_ge _ _) Hlong). rewrite bind_ret.
    eapply bind_eq; [apply Hup|]. cbv beta.
    eapply bind_eq; [apply Hup|]. cbv beta.
    rewrite Hcall.
    eapply (bind_Normal_or_Throw _ _ t r
             (fun results =>
                progress onProgress ["Processing results..."]
                ++ progress onProgress ["Evaluation complete!"] ++ []));
      [reflexivity|].
    intros results.
    eapply bind_eq; [apply Hup|]. cbv beta.
    eapply bind_eq; [apply Hup|]. cbv beta.
    reflexivity.
  - destruct onProgress, r; reflexivity.
Qed.

(** X23.  In test mode [evaluate] uses the network at no point: its
    trace has no request and no attempt, for any files.  When the two files
    are decoded, the rubric is valid and the document has 100 characters or
    more, it succeeds with the sample result, processed against the rubric
    of the criteria file; the callback receives the six messages of the
    stages, the text AI: [[object Object]] for the one report of the client,
    and, after the delay of 1500 ms, the two closing messages. *)
Theorem evaluate_test_mode criteriaFile dmpFile phase onProgress :
  testMode platform = true ->
  quiet onProgress ->
  Forall offline (trace (app criteriaFile dmpFile phase onProgress))
  /\ (forall cf df criteriaData dmpData,
        criteriaFile = Some cf -> dmpFile = Some df ->
        outcome (parseFile platform criteriaFile) = Normal criteriaData ->
        fst (validateCriteria (extractCriteria (text criteriaData) phase)) = true ->
        outcome (parseFile platform dmpFile) = Normal dmpData ->
        (100 <= String.length (text dmpData))%nat ->
        app criteriaFile dmpFile phase onProgress
        = (progress onProgress
             [ if endsWith (toLowerCase (FileParser.name cf)) ".doc"
               then "Extracting .doc file with AI..."
               else "Parsing evaluation criteria...";
               ("Criteria loaded: "
                ++ pretty (length (rubric_categories
                                     (extractCriteria (text criteriaData) phase)))
                ++ " categories")%string;
               if endsWith (toLowerCase (FileParser.name df)) ".doc"
               then "Extracting .doc file with AI..."
               else "Parsing DMP document...";
               ("DMP document parsed: "
                ++ formatFileSize (fileSize dmpData))%string;
               "Building evaluation prompt...";
               "Evaluating DMP with AI...";
               "AI: [object Object]" ]
           ++ [Delay 1500]
           ++ progress onProgress
                ["Processing results..."; "Evaluation complete!"],
           Normal
             (Succeeded
                (processResults lc TEST_EVALUATION_DATA
                   (extractCriteria (text criteriaData) phase))
                {| Evaluator.criteriaFile := Some (FileParser.name cf);
                   Evaluator.dmpFile := Some (FileParser.name df);
                   metaPhase := phase;
                   evaluationDate := now;
                   model := Some selectedModel |}))).
Proof.
  intros Htest Hquiet. split.
  - apply evaluate_events.
    + intros file. rewrite (parseFile_offline file (or_introl Htest)).
      constructor.
    + intros systemPrompt userPrompt.
      rewrite (evaluateDMP_test_mode _ _ _ Htest Hquiet).
      cbn [trace fst]. destruct onProgress; by repeat constructor.
    + by intros msg _.
  - intros cf df criteriaData dmpData -> -> Hcriteria Hvalid Hdmp Hlong.
    assert (parseFile platform (Some cf) = ([], Normal criteriaData)) as Hc.
    { rewrite (trace_outcome (parseFile platform (Some cf))).
      by rewrite (parseFile_offline (Some cf) (or_introl Htest)), Hcriteria. }
    assert (parseFile platform (Some df) = ([], Normal dmpData)) as Hd.
    { rewrite (trace_outcome (parseFile platform (Some df))).
      by rewrite (parseFile_offline (Some df) (or_introl Htest)), Hdmp. }
    unfold App.evaluate. rewrite evaluate_unfold. fold call.
    rewrite (evaluateBody_decoded cf df phase onProgress criteriaData dmpData
               _ _ Hquiet Hc Hvalid Hd Hlong
               (fun s u => evaluateDMP_test_mode s u onProgress Htest Hquiet)).
    cbn [trace outcome fst snd]. f_equal.
    destruct onProgress; reflexivity.
Qed.

(** X24.  Without an API key and outside test mode [evaluate] uses the
    network at no point.  Then, when the two files are decoded, the rubric
    is valid and the document has 100 characters or more, it returns the
    failure that asks for the key, after the six messages of the stages. *)
Theorem evaluate_without_key criteriaFile dmpFile phase onProgress :
  testMode platform = false ->
  orElseStr (apiKey platform) "" = "" ->
  quiet onProgress ->
  Forall offline (trace (app criteriaFile dmpFile phase onProgress))
  /\ (forall cf df criteriaData dmpData,
        criteriaFile = Some cf -> dmpFile = Some df ->
        outcome (parseFile platform criteriaFile) = Normal criteriaData ->
        fst (validateCriteria (extractCriteria (text criteriaData) phase)) = true ->
        outcome (parseFile platform dmpFile) = Normal dmpData ->
        (100 <= String.length (text dmpData))%nat ->
        app criteriaFile dmpFile phase onProgress
        = (progress onProgress
             [ if endsWith (toLowerCase (FileParser.name cf)) ".doc"
               then "Extracting .doc file with AI..."
               else "Parsing evaluation criteria...";
               ("Criteria loaded: "
                ++ pretty (length (rubric_categories
                                     (extractCriteria (text criteriaData) phase)))
                ++ " categories")%string;
               if endsWith (toLowerCase (FileParser.name df)) ".doc"
               then "Extracting .doc file with AI..."
               else "Parsing DMP document...";
               ("DMP document parsed: "
                ++ formatFileSize (fileSize dmpData))%string;
               "Building evaluation prompt...";
               "Evaluating DMP with AI..." ],
           Normal
             (failureOf now criteriaFile dmpFile phase
                "Together AI API key not configured. Please enter your API key."))).
Proof.
  intros Htest Hkey Hquiet. split.
  - apply evaluate_events.
    + intros file. rewrite (parseFile_offline file (or_intror Hkey)).
      constructor.
    + intros systemPrompt userPrompt.
      rewrite (evaluateDMP_no_key _ _ _ Htest Hkey). constructor.
    + by intros msg _.
  - intros cf df criteriaData dmpData -> -> Hcriteria Hvalid Hdmp Hlong.
    assert (parseFile platform (Some cf) = ([], Normal criteriaData)) as Hc.
    { rewrite (trace_outcome (parseFile platform (Some cf))).
      by rewrite (parseFile_offline (Some cf) (or_intror Hkey)), Hcriteria. }
    assert (parseFile platform (Some df) = ([], Normal dmpData)) as Hd.
    { rewrite (trace_outcome (parseFile platform (Some df))).
      by rewrite (parseFile_offline (Some df) (or_intror Hkey)), Hdmp. }
    unfold App.evaluate. rewrite evaluate_unfold. fold call.
    rewrite (evaluateBody_decoded cf df phase onProgress criteriaData dmpData
               _ _ Hquiet Hc Hvalid Hd Hlong
               (fun s u => evaluateDMP_no_key s u onProgress Htest Hkey)).
    cbn [trace outcome fst snd throw]. by rewrite !app_nil_r.
Qed.

End AppFacts.

Lemma append_cancel_l (a x y : string) : (a ++ x)%string = (a ++ y)%string -> x = y.
Proof.
  induction a as [|c a IH]; [done|].
  change ((String c a ++ ?z)%string) with (String c (a ++ z)%string).
  intros [= H]. by apply IH.
Qed.

Lemma append_cancel_r (b x y : string) : (x ++ b)%string = (y ++ b)%string -> x = y.
Proof.
  revert y. induction x as [|c x IH]; intros [|d y] H.
  - done.
  - apply (f_equal String.length) in H.
    change ((String d y ++ b)%string) with (String d (y ++ b)%string) in H.
    change (("" ++ b)%string) with b in H.
    simpl in H. rewrite length_append in H. lia.
  - apply (f_equal String.length) in H.
    change ((String c x ++ b)%string) with (String c (x ++ b)%string) in H.
    change (("" ++ b)%string) with b in H.
    simpl in H. rewrite length_append in H. lia.
  - change ((String c x ++ b)%string) with (String c (x ++ b)%string) in H.
    change ((String d y ++ b)%string) with (String d (y ++ b)%string) in H.
    injection H as -> H. f_equal. by apply IH.
Qed.

Lemma estimateTokens_spec (text : string) :
  (4 * (estimateTokens text - 1) < Z.of_nat (String.length text)
   <= 4 * estimateTokens text)%Z.
Proof.
  unfold estimateTokens.
  set (n := Z.of_nat (String.length text)).
  pose proof (Qle_ceiling (Qdiv (inject_Z n) (inject_Z 4))) as Hle.
  pose proof (Qceiling_lt (Qdiv (inject_Z n) (inject_Z 4))) as Hlt.
  set (c := Qceiling (Qdiv (inject_Z n) (inject_Z 4))) in *.
  unfold Qle, Qlt, Qdiv, Qmult, Qinv, Qminus, Qplus, Qopp, inject_Z in *.
  simpl in *. lia.
Qed.

(** X25.  The user prompt of [buildEvaluationPrompt] carries the
    document whole: two documents that give the same prompt, for one rubric
    and one phase, are equal, and four times the token estimate of the two
    prompts is at least the length of the document.  The system prompt of a
    phase that is neither proposal nor mid is the one of the phase end. *)
Theorem buildEvaluationPrompt_keeps_document (criteria : Rubric)
    (phase dmpText dmpText' : string) :
  (snd (buildEvaluationPrompt criteria dmpText phase)
   = snd (buildEvaluationPrompt criteria dmpText' phase) ->
   dmpText = dmpText')
  /\ (Z.of_nat (String.length dmpText)
      <= 4 * estimateTokens
               (fst (buildEvaluationPrompt criteria dmpText phase)
                ++ snd (buildEvaluationPrompt criteria dmpText phase))%string)%Z
  /\ (phase <> "proposal" -> phase <> "mid" ->
      fst (buildEvaluationPrompt criteria dmpText phase)
      = fst (buildEvaluationPrompt criteria dmpText "end")).
Proof.
  split; [|split].
  - unfold buildEvaluationPrompt, evaluationUserPrompt. cbn [snd].
    intros H. do 5 apply append_cancel_l in H.
    by apply append_cancel_r in H.
  - pose proof (estimateTokens_spec
                  (fst (buildEvaluationPrompt criteria dmpText phase)
                   ++ snd (buildEvaluationPrompt criteria dmpText phase))%string)
      as [_ Hle].
    eapply Z.le_trans; [|exact Hle].
    unfold buildEvaluationPrompt, evaluationUserPrompt. cbn [fst snd].
    rewrite !length_append. lia.
  - intros H1 H2. unfold buildEvaluationPrompt, evaluationSystemPrompt, phaseLabel.
    cbn [fst].
    by rewrite (proj2 (String.eqb_neq _ _) H1), (proj2 (String.eqb_neq _ _) H2).
Qed.

(** ** The last line of a stream *)

Lemma split_free (sep : ascii) (s : string) :
  allChars (fun c => c <> sep) s -> JS.split sep s = [s].
Proof.
  induction s as [|c s IH]; simpl; [done|].
  intros H. apply all_String in H as [Hc Hs].
  destruct (Ascii.eqb_spec c sep); [done|]. by rewrite IH.
Qed.

Lemma last_split_free (sep : ascii) (s x : string) :
  last (JS.split sep s) = Some x -> allChars (fun c => c <> sep) x.
Proof.
  revert x. induction s as [|c s IH]; intros x.
  - simpl. intros [= <-]. constructor.
  - rewrite last_split_cons.
    destruct (Ascii.eqb_spec c sep) as [-> | Hne]; [apply IH|].
    destruct (JS.split sep s) as [|w [|w' ws]] eqn:Hs; [apply IH | | apply IH].
    intros [= <-]. apply all_String. split; [done|]. by apply IH.
Qed.

Section SSETail.

Variable JSON_parse : string -> option json.
Variable onChunk : bool.

Lemma processLine_buffer (st : sseState) (line : string) :
  buffer (fst (processLine JSON_parse onChunk st line)) = buffer st.
Proof.
  unfold processLine.
  repeat match goal with
         | |- context [if ?b then _ else _] => destruct b
         | |- context [match ?x with _ => _ end] => destruct x
         end; reflexivity.
Qed.

Lemma processLines_buffer (st : sseState) (lines : list string) :
  buffer (processLines JSON_parse onChunk st lines) = buffer st.
Proof.
  revert st. induction lines as [|line lines IH]; intros st; [done|].
  simpl. pose proof (processLine_buffer st line) as Hb.
  destruct (processLine JSON_parse onChunk st line) as [st' [|]]; simpl in *;
    [done | by rewrite IH].
Qed.

Lemma processChunk_buffer (st : sseState) (chunk : string) :
  lineFree (buffer (processChunk JSON_parse onChunk st chunk)).
Proof.
  unfold processChunk, splitBuffer. rewrite processLines_buffer. cbn [buffer].
  destruct (last (JS.split "010" (buffer st ++ chunk))) as [[|c x]|] eqn:Hlast;
    [constructor | | constructor].
  by apply (last_split_free _ _ _ Hlast).
Qed.

Lemma chunks_buffer (chunks : list string) (st : sseState) :
  lineFree (buffer st) ->
  lineFree (buffer (fold_left (processChunk JSON_parse onChunk) chunks st)).
Proof.
  revert st. induction chunks as [|chunk chunks IH]; intros st Hst; [done|].
  simpl. apply IH, processChunk_buffer.
Qed.

Lemma processChunk_unterminated (st : sseState) (tail : string) :
  lineFree (buffer st) -> lineFree tail ->
  processChunk JSON_parse onChunk st tail
  = {| buffer := buffer st ++ tail;
       accumulatedContent := accumulatedContent st;
       accumulatedReasoning := accumulatedReasoning st;
       calls := calls st |}.
Proof.
  intros Hb Ht. unfold processChunk, splitBuffer.
  rewrite split_free by (by apply all_append).
  cbn [removelast last processLines].
  by destruct (buffer st ++ tail)%string.
Qed.

(** X26.  [parseSSEStream] processes complete lines only: a last
    chunk without a line feed changes neither the content returned nor the
    calls of [onChunk], so an event that the stream does not end with a line
    feed is lost. *)
Theorem parseSSEStream_drops_unterminated_line (chunks : list string)
    (tail : string) (readError : option Error) :
  lineFree tail ->
  parseSSEStream JSON_parse onChunk
    {| LLMService.chunks := chunks ++ [tail];
       LLMService.readError := readError |}
  = parseSSEStream JSON_parse onChunk
      {| LLMService.chunks := chunks; LLMService.readError := readError |}.
Proof.
  intros Htail. unfold parseSSEStream. cbn [LLMService.chunks LLMService.readError].
  rewrite fold_left_app. cbn [fold_left].
  rewrite processChunk_unterminated;
    [done | by apply chunks_buffer; constructor | done].
Qed.

End SSETail.

Lemma parseSSEStream_drops_unterminated_line_witness :
  parseSSEStream Json.parse true
    {| LLMService.chunks :=
         [contentEvent "A"; unterminatedEvent];
       LLMService.readError := None |}
  = parseSSEStream Json.parse true
      {| LLMService.chunks := [contentEvent "A"];
         LLMService.readError := None |}.
Proof.
  apply (parseSSEStream_drops_unterminated_line Json.parse true
           [contentEvent "A"] unterminatedEvent None).
  unfold lineFree, allChars. simpl.
  repeat (constructor; [discriminate|]). constructor.
Defined.


Lemma quiet_listener : quiet listener.
Proof. intros f m [= <-]. reflexivity. Qed.

Lemma evaluateDMP_client_error_witness :
  Client.evaluateDMP cleanupPlatform "model" (fun _ _ => unauthorized)
    (fun _ => Normal (Some "Invalid API key")) (fun _ => None)
    (fun _ => {| chunks := []; readError := None |}) (fun _ => true)
    Json.parse (fun _ => None) "system" "user" None
  = ([Attempt 0], Throw (mkError "API Error 401: Invalid API key")).
Proof.
  exact (evaluateDMP_client_error cleanupPlatform "model"
           (fun _ _ => unauthorized) (fun _ => Normal (Some "Invalid API key"))
           (fun _ => None) (fun _ => {| chunks := []; readError := None |})
           (fun _ => true) Json.parse (fun _ => None)
           "system" "user" "key" "Bearer {API_KEY}" None
           {| LLMService.ok := false; LLMService.status := 401;
              LLMService.content := Normal None |}
           (Some "Invalid API key")
           eq_refl eq_refl ltac:(discriminate) eq_refl eq_refl eq_refl
           eq_refl ltac:(discriminate) eq_refl).
Defined.

Lemma evaluate_forwards_object_text_witness :
  Forall objectText
    (trace (appRun cleanupPlatform listener (Some criteriaMd) (Some longTxt))).
Proof.
  apply (evaluate_forwards_object_text codeUnitCompare cleanupPlatform).
  exact quiet_listener.
Defined.

Lemma evaluate_test_mode_witness :
  Forall offline
    (trace (appRun testPlatform listener (Some criteriaMd) (Some longTxt)))
  /\ appRun testPlatform listener (Some criteriaMd) (Some longTxt)
     = ([ Progress "Parsing evaluation criteria...";
          Progress "Criteria loaded: 16 categories";
          Progress "Parsing DMP document...";
          Progress "DMP document parsed: 120 Bytes";
          Progress "Building evaluation prompt...";
          Progress "Evaluating DMP with AI...";
          Progress "AI: [object Object]";
          Delay 1500;
          Progress "Processing results...";
          Progress "Evaluation complete!" ],
        Normal
          (Succeeded
             (processResults codeUnitCompare TEST_EVALUATION_DATA
                (getDefaultCriteria "proposal"))
             {| Evaluator.criteriaFile := Some "criteria.md";
                Evaluator.dmpFile := Some "plan.txt";
                metaPhase := "proposal";
                evaluationDate := "2026-01-01T00:00:00.000Z";
                model := Some "model" |})).
Proof.
  destruct (evaluate_test_mode codeUnitCompare testPlatform
              (fun _ => "120 Bytes") "2026-01-01T00:00:00.000Z" "model"
              (fun _ _ => unauthorized) (fun _ => Normal (Some "Invalid API key"))
              (fun _ => None) (fun _ => {| chunks := []; readError := None |})
              (fun _ => true) Json.parse (fun _ => None)
              (Some criteriaMd) (Some longTxt) "proposal" listener
              eq_refl quiet_listener) as [Hoffline Hsuccess].
  split; [exact Hoffline|].
  apply (Hsuccess criteriaMd longTxt
           {| text := "Criteria: see the guideline"; type := "md";
              isJson := false; fileSize := 27; fileName := "criteria.md" |}
           {| text := default "" (FileParser.data longTxt); type := "txt";
              isJson := false; fileSize := 120; fileName := "plan.txt" |}
           eq_refl eq_refl); [reflexivity | reflexivity | reflexivity|].
  vm_compute. lia.
Defined.

Lemma evaluate_without_key_witness :
  Forall offline
    (trace (appRun keylessPlatform listener (Some criteriaMd) (Some longTxt)))
  /\ appRun keylessPlatform listener (Some criteriaMd) (Some longTxt)
     = ([ Progress "Parsing evaluation criteria...";
          Progress "Criteria loaded: 16 categories";
          Progress "Parsing DMP document...";
          Progress "DMP document parsed: 120 Bytes";
          Progress "Building evaluation prompt...";
          Progress "Evaluating DMP with AI..." ],
        Normal
          (failureOf "2026-01-01T00:00:00.000Z" (Some criteriaMd)
             (Some longTxt) "proposal"
             "Together AI API key not configured. Please enter your API key.")).
Proof.
  destruct (evaluate_without_key codeUnitCompare keylessPlatform
              (fun _ => "120 Bytes") "2026-01-01T00:00:00.000Z" "model"
              (fun _ _ => unauthorized) (fun _ => Normal (Some "Invalid API key"))
              (fun _ => None) (fun _ => {| chunks := []; readError := None |})
              (fun _ => true) Json.parse (fun _ => None)
              (Some criteriaMd) (Some longTxt) "proposal" listener
              eq_refl eq_refl quiet_listener) as [Hoffline Hfailure].
  split; [exact Hoffline|].
  apply (Hfailure criteriaMd longTxt
           {| text := "Criteria: see the guideline"; type := "md";
              isJson := false; fileSize := 27; fileName := "criteria.md" |}
           {| text := default "" (FileParser.data longTxt); type := "txt";
              isJson := false; fileSize := 120; fileName := "plan.txt" |}
           eq_refl eq_refl); [reflexivity | reflexivity | reflexivity|].
  vm_compute. lia.
Defined.

(** ** A criteria document in HTML, and the statistics of a rubric *)

Lemma collapseWhiteSpace_lineFree (s : string) : lineFree (collapseWhiteSpace s).
Proof.
  unfold lineFree.
  induction s as [|c s IH]; [constructor|]. simpl.
  destruct (isWhiteSpace c) eqn:Hc.
  - destruct s as [|c' s']; [by repeat constructor|].
    destruct (isWhiteSpace c'); [exact IH|].
    apply all_String. split; [discriminate | exact IH].
  - apply all_String. split; [|exact IH].
    intros ->. discriminate.
Qed.

Lemma all_substring (P : ascii -> Prop) (s : string) (a n : nat) :
  allChars P s -> allChars P (String.substring a n s).
Proof.
  revert a n. induction s as [|c s IH]; intros a n H.
  - destruct a, n; constructor.
  - apply all_String in H as [Hc Hs].
    destruct a as [|a]; destruct n as [|n]; simpl; try apply all_nil.
    + apply all_String. split; [done | by apply IH].
    + by apply IH.
    + by apply IH.
Qed.

Lemma parseLine_length (columnIndex : nat) (st : rowState) (line : string) :
  (length (fst (parseLine columnIndex st line)) <= S (length (fst st)))%nat.
Proof.
  pose proof (parseLine_ids columnIndex st line) as (added & Hids & Hsub).
  apply (f_equal length) in Hids. rewrite length_app, !length_map in Hids.
  apply sublist_length in Hsub.
  assert (length (option_list (rowId line)) <= 1)%nat
    by (destruct (rowId line); simpl; lia).
  lia.
Qed.

(** X27.  The text of an HTML file has no line feed: every run of white
    space is replaced by one space.  The table of a criteria document that
    is given as HTML is therefore read as one line, and [extractCriteria]
    returns the default rubric or a rubric of one entry. *)
Theorem parseHtmlFile_single_line (p : Platform) (file : File) (t phase : string) :
  outcome (parseHtmlFile p file) = Normal t ->
  lineFree t
  /\ (extractCriteria t phase = getDefaultCriteria phase
      \/ length (rubric_categories (extractCriteria t phase)) = 1%nat).
Proof.
  unfold parseHtmlFile, parseTextFile.
  destruct (FileParser.data file) as [html|]; [|discriminate].
  rewrite bind_ret. intros [= <-].
  set (collapsed := collapseWhiteSpace (htmlText p html)).
  assert (lineFree (JS.trim collapsed)) as Hfree.
  { unfold JS.trim. apply all_trimEnd, all_trimStart, collapseWhiteSpace_lineFree. }
  split; [exact Hfree|].
  unfold extractCriteria.
  destruct (indexOf (JS.trim collapsed) "Table 2" 0 =? -1)%Z; [by left|].
  set (tableText := tableTextOf (JS.trim collapsed) _).
  assert (lineFree tableText) as Htable.
  { unfold tableText, tableTextOf.
    destruct (-1 <? _)%Z; unfold JS.substring, JS.substringFrom;
      by apply all_substring. }
  destruct (Nat.eqb_spec (length (rubric_categories (parseTableRows tableText phase))) 0)
    as [_ | Hne]; [by left|].
  right. unfold parseTableRows in *.
  rewrite (split_free _ _ Htable) in *. cbn [fold_left] in *.
  pose proof (parseLine_length
                (default 0%nat (CriteriaExtractor.lookup phaseColumnMap phase))
                ([], None) tableText) as Hle.
  destruct (parseLine _ _ tableText) as [categories current].
  simpl in *. lia.
Qed.

Lemma parseHtmlFile_single_line_witness :
  lineFree (JS.trim (collapseWhiteSpace distinctRowText))
  /\ (extractCriteria (JS.trim (collapseWhiteSpace distinctRowText)) "end"
      = getDefaultCriteria "end"
      \/ length (rubric_categories
                   (extractCriteria (JS.trim (collapseWhiteSpace distinctRowText))
                      "end")) = 1%nat).
Proof.
  apply (parseHtmlFile_single_line cleanupPlatform criteriaHtml).
  reflexivity.
Defined.

Lemma description_lengths (l : list RubricEntry) (acc : Z) :
  Forall tableEntry l ->
  (acc + 11 * Z.of_nat (length l)
   <= fold_left
        (fun sum cat => (sum + Z.of_nat (String.length (entry_description cat)))%Z)
        l acc)%Z.
Proof.
  revert acc. induction l as [|e l IH]; intros acc H; simpl fold_left.
  - simpl. lia.
  - apply Forall_cons in H as [[_ He] Hl]. specialize (IH (acc + Z.of_nat (String.length (entry_description e)))%Z Hl).
    simpl length. lia.
Qed.

(** X28.  The statistics of an extracted rubric: the total is at least
    one, and the average length of the descriptions is a number above ten.
    For a rubric without categories the average is [NaN]. *)
Theorem getCriteriaStats_extracted (text phase : string) :
  (1 <= total (getCriteriaStats (Some (extractCriteria text phase))))%nat
  /\ (exists avg,
        avgDescriptionLength (getCriteriaStats (Some (extractCriteria text phase)))
        = Num avg
        /\ (10 < avg)%Z)
  /\ avgDescriptionLength
       (getCriteriaStats
          (Some {| CriteriaExtractor.phase := phase; rubric_categories := [] |}))
     = NaN.
Proof.
  pose proof (extractCriteria_tableEntry text phase) as Hall.
  pose proof (extractCriteria_nonempty text phase) as Hne.
  unfold getCriteriaStats. cbn [total avgDescriptionLength].
  set (cats := rubric_categories (extractCriteria text phase)) in *.
  assert (1 <= length cats)%nat as Hlen by (destruct cats; [done | simpl; lia]).
  split; [done|]. split; [|reflexivity].
  destruct (Nat.eqb_spec (length cats) 0) as [H0 | _]; [lia|].
  eexists. split; [reflexivity|].
  rewrite Math_round_div by lia.
  pose proof (description_lengths cats 0 Hall) as Hsum.
  apply Z.lt_le_trans with 11%Z; [lia|].
  apply Z.div_le_lower_bound; lia.
Qed.
